(** * YouTube downloader service: task registry, file registry,
      admission counter and the pure helpers of the orchestrator

    Shallow embedding of [src/app.py].  Python [int] is [Z], Python [str] is
    [string], a [dict] keyed by task id is a [gmap string _], and a Python
    [float] is an IEEE-754 binary64 value, computed with the operations of
    the Standard Library's [SpecFloat] (precision 53, [emax] 1024).
    A [datetime] is the number of microseconds since an arbitrary origin
    (the resolution of Python's [datetime]); [datetime.now()] is passed in
    as the argument [now]. *)

From Stdlib Require Import ZArith Lia Bool Ascii String SpecFloat.
From stdpp Require Import gmap strings list fin_maps pretty.

Open Scope Z_scope.

(* ===================================================================== *)
(** ** Python exceptions *)
(* ===================================================================== *)

Inductive exn :=
  | ZeroDivisionError
  | OverflowError
  | ValueError
  | KeyError
  | TypeError.

Inductive result (A : Type) :=
  | Ok (a : A)
  | Raise (e : exn).
Arguments Ok {A} a.
Arguments Raise {A} e.

#[global] Instance result_ret : MRet result := @Ok.
#[global] Instance result_bind : MBind result := fun A B k r =>
  match r with
  | Ok a => k a
  | Raise e => Raise e
  end.

(* ===================================================================== *)
(** ** Python floats (binary64) *)
(* ===================================================================== *)

Module PyFloat.

Definition prec : Z := 53.
Definition emax : Z := 1024.

Definition float := spec_float.

(** [float(n)] for an integer literal of the source (8, 80, 1024, ...). *)
Definition of_int (n : Z) : float := binary_normalize prec emax n 0 false.

(** [a / b] on two Python ints: the quotient is rounded once, to nearest
    even, whatever the size of the operands; a zero divisor and a quotient
    beyond the largest float raise. *)
Definition int_truediv (a b : Z) : result float :=
  match b with
  | Z0 => Raise ZeroDivisionError
  | _ =>
    match a with
    | Z0 => Ok (S754_zero (b <? 0))
    | _ =>
      let '(mz, ez, lz) :=
        SFdiv_core_binary prec emax (Z.abs a) 0 (Z.abs b) 0 in
      match binary_round_aux prec emax (xorb (a <? 0) (b <? 0)) mz ez lz with
      | S754_infinity _ => Raise OverflowError
      | x => Ok x
      end
    end
  end.

Definition mul (x y : float) : float := SFmul prec emax x y.

(** [x / y] on floats; Python raises on a zero divisor. *)
Definition div (x y : float) : result float :=
  match y with
  | S754_zero _ => Raise ZeroDivisionError
  | _ => Ok (SFdiv prec emax x y)
  end.

(** [x > y] *)
Definition gt (x y : float) : bool := SFltb y x.

(** The integer part of the exact value [m * 2^e], towards zero. *)
Definition trunc_mag (m : positive) (e : Z) : Z :=
  if 0 <=? e then Z.pos m * 2 ^ e else Z.pos m / 2 ^ (- e).

(** [int(x)] *)
Definition to_int (x : float) : result Z :=
  match x with
  | S754_zero _ => Ok 0
  | S754_finite s m e => Ok (if s then - trunc_mag m e else trunc_mag m e)
  | S754_infinity _ => Raise OverflowError
  | S754_nan => Raise ValueError
  end.

(** [math.floor] of a finite float: the greatest integer below the exact
    value.  Not used by the program; the progress formula of the
    specification is written with it. *)
Definition floor (x : float) : option Z :=
  match x with
  | S754_zero _ => Some 0
  | S754_finite false m e => Some (trunc_mag m e)
  | S754_finite true m e =>
      Some (if 0 <=? e then - (Z.pos m * 2 ^ e)
            else - ((Z.pos m + 2 ^ (- e) - 1) / 2 ^ (- e)))
  | _ => None
  end.

(** [n / d] rounded to the nearest integer, ties to the even one. *)
Definition round_half_even (n d : Z) : Z :=
  let q := n / d in
  match (2 * (n mod d)) ?= d with
  | Lt => q
  | Gt => q + 1
  | Eq => if Z.even q then q else q + 1
  end.

(** The exact value [m * 2^e] times [10^k], rounded to an integer. *)
Definition scaled (k : nat) (m : positive) (e : Z) : Z :=
  if 0 <=? e then Z.pos m * 2 ^ e * 10 ^ Z.of_nat k
  else round_half_even (Z.pos m * 10 ^ Z.of_nat k) (2 ^ (- e)).

Fixpoint frac_digits (k : nat) (n : Z) : string :=
  match k with
  | O => ""
  | S k' => frac_digits k' (n / 10) +:+ pretty (n mod 10)
  end.

Definition fixed (k : nat) (n : Z) : string :=
  pretty (n / 10 ^ Z.of_nat k) +:+
  match k with
  | O => ""
  | _ => "." +:+ frac_digits k (n mod 10 ^ Z.of_nat k)
  end.

Definition sign_str (s : bool) : string := if s then "-" else "".

(** [f"{x:.kf}"]: the exact binary value, correctly rounded to [k]
    decimals. *)
Definition format_f (k : nat) (x : float) : string :=
  match x with
  | S754_nan => "nan"
  | S754_infinity s => sign_str s +:+ "inf"
  | S754_zero s => sign_str s +:+ fixed k 0
  | S754_finite s m e => sign_str s +:+ fixed k (scaled k m e)
  end.

(** The literal [2.4]. *)
Definition lit_2_4 : float := S754_finite false 5404319552844595 (-51).

End PyFloat.

Abbreviation float := PyFloat.float.

(* ===================================================================== *)
(** ** YouTubeDownloader: formatting helpers *)
(* ===================================================================== *)

(** [seconds] is [None] for Python's [None]; [if not seconds] is true for
    [None] and for [0]. *)
Definition _format_duration (seconds : option Z) : string :=
  match seconds with
  | None | Some 0 => "Unknown"
  | Some seconds =>
    let hours := seconds / 3600 in
    let minutes := (seconds mod 3600) / 60 in
    let seconds := seconds mod 60 in
    if 0 <? hours then
      pretty hours +:+ "h " +:+ pretty minutes +:+ "m " +:+ pretty seconds +:+ "s"
    else if 0 <? minutes then
      pretty minutes +:+ "m " +:+ pretty seconds +:+ "s"
    else
      pretty seconds +:+ "s"
  end.

(** [bitrates.get(height, 5)] *)
Definition bitrates_get (height : Z) : Z :=
  if height =? 1080 then 8
  else if height =? 720 then 5
  else if height =? 480 then 3
  else 5.

(** The tail shared by both estimators. *)
Definition render_size (size_mb : float) : result string :=
  if PyFloat.gt size_mb (PyFloat.of_int 1024) then
    gb ← PyFloat.div size_mb (PyFloat.of_int 1024);
    Ok ("~" +:+ PyFloat.format_f 1 gb +:+ " GB")
  else
    Ok ("~" +:+ PyFloat.format_f 0 size_mb +:+ " MB").

Definition _estimate_file_size (duration : option Z) (height : Z) : result string :=
  match duration with
  | None | Some 0 => Ok "Unknown"
  | Some duration =>
    let bitrate := bitrates_get height in
    minutes ← PyFloat.int_truediv duration 60;
    let size_mb := PyFloat.mul minutes (PyFloat.of_int bitrate) in
    render_size size_mb
  end.

Definition _estimate_audio_size (duration : option Z) : result string :=
  match duration with
  | None | Some 0 => Ok "Unknown"
  | Some duration =>
    minutes ← PyFloat.int_truediv duration 60;
    let size_mb := PyFloat.mul minutes PyFloat.lit_2_4 in
    render_size size_mb
  end.

(* ===================================================================== *)
(** ** TaskManager *)
(* ===================================================================== *)

(** Every method runs under the lock of the manager: a method is a function
    from the state before the call to the state after it. *)

Inductive TaskStatus := PENDING | PROCESSING | COMPLETED | FAILED | PAUSED.

#[global] Instance TaskStatus_eq_dec : EqDecision TaskStatus.
Proof. solve_decision. Defined.

(** A [datetime], in microseconds. *)
Abbreviation datetime := Z.

(** [timedelta.total_seconds() > n] for an integer number of seconds [n]:
    the difference of two datetimes is a whole number of microseconds, and
    the float it is converted to exceeds the integer [n] exactly when the
    microseconds exceed [n * 10^6]. *)
Definition older_than (delta : Z) (n : Z) : bool := n * 1000000 <? delta.

(** The dictionary built by [create_task]; the field [t_k] is the key [k]. *)
Record Task := mkTask {
  t_id : string;
  t_url : string;
  t_format_id : string;
  t_quality : string;
  t_status : TaskStatus;
  t_progress : Z;
  t_message : string;
  t_filename : option string;
  t_download_url : option string;
  t_error : option string;
  t_created_at : datetime;
  t_updated_at : datetime;
  t_download_speed : string;
  t_eta : string;
  t_file_size : string;
  t_downloaded_bytes : Z;
  t_total_bytes : Z;
  t_retry_count : Z;
  t_max_retries : Z
}.

(** One keyword argument of [update_task]. *)
Inductive kwarg :=
  | status_ (v : TaskStatus)
  | progress_ (v : Z)
  | message_ (v : string)
  | filename_ (v : option string)
  | download_url_ (v : option string)
  | error_ (v : option string)
  | download_speed_ (v : string)
  | eta_ (v : string)
  | downloaded_bytes_ (v : Z)
  | total_bytes_ (v : Z).

Definition set_kwarg (t : Task) (kw : kwarg) : Task :=
  let '(mkTask id url fid q st pr msg fn du err ca ua sp eta fs db tb rc mr) := t in
  match kw with
  | status_ v => mkTask id url fid q v pr msg fn du err ca ua sp eta fs db tb rc mr
  | progress_ v => mkTask id url fid q st v msg fn du err ca ua sp eta fs db tb rc mr
  | message_ v => mkTask id url fid q st pr v fn du err ca ua sp eta fs db tb rc mr
  | filename_ v => mkTask id url fid q st pr msg v du err ca ua sp eta fs db tb rc mr
  | download_url_ v => mkTask id url fid q st pr msg fn v err ca ua sp eta fs db tb rc mr
  | error_ v => mkTask id url fid q st pr msg fn du v ca ua sp eta fs db tb rc mr
  | download_speed_ v => mkTask id url fid q st pr msg fn du err ca ua v eta fs db tb rc mr
  | eta_ v => mkTask id url fid q st pr msg fn du err ca ua sp v fs db tb rc mr
  | downloaded_bytes_ v => mkTask id url fid q st pr msg fn du err ca ua sp eta fs v tb rc mr
  | total_bytes_ v => mkTask id url fid q st pr msg fn du err ca ua sp eta fs db v rc mr
  end.

Definition set_updated_at (t : Task) (now : datetime) : Task :=
  let '(mkTask id url fid q st pr msg fn du err ca _ sp eta fs db tb rc mr) := t in
  mkTask id url fid q st pr msg fn du err ca now sp eta fs db tb rc mr.

(** [dict.update(kwargs)]: the keyword arguments are stored one by one. *)
Definition dict_update (t : Task) (kwargs : list kwarg) : Task :=
  foldl set_kwarg t kwargs.

Record TaskManager := mkTaskManager {
  tasks : gmap string Task;
  cleanup_interval : Z;
  max_concurrent_downloads : Z;
  active_downloads : Z
}.

(** [TaskManager.__init__] *)
Definition TaskManager_init : TaskManager :=
  {| tasks := ∅;
     cleanup_interval := 7200;
     max_concurrent_downloads := 3;
     active_downloads := 0 |}.

Definition with_tasks (tm : TaskManager) (ts : gmap string Task) : TaskManager :=
  {| tasks := ts;
     cleanup_interval := cleanup_interval tm;
     max_concurrent_downloads := max_concurrent_downloads tm;
     active_downloads := active_downloads tm |}.

Definition with_active_downloads (tm : TaskManager) (n : Z) : TaskManager :=
  {| tasks := tasks tm;
     cleanup_interval := cleanup_interval tm;
     max_concurrent_downloads := max_concurrent_downloads tm;
     active_downloads := n |}.

(** [create_task] reads the clock twice, once for [created_at] and once
    more for [updated_at]: [now_created] and [now_updated] are the two
    readings, in this order. *)
Definition create_task (tm : TaskManager) (now_created now_updated : datetime)
    (task_id url format_id quality : string) : TaskManager :=
  with_tasks tm
    (<[task_id :=
         {| t_id := task_id; t_url := url; t_format_id := format_id;
            t_quality := quality; t_status := PENDING; t_progress := 0;
            t_message := "Task created"; t_filename := None;
            t_download_url := None; t_error := None;
            t_created_at := now_created; t_updated_at := now_updated;
            t_download_speed := "0 B/s"; t_eta := "Unknown";
            t_file_size := "Unknown"; t_downloaded_bytes := 0;
            t_total_bytes := 0; t_retry_count := 0; t_max_retries := 5 |}]>
       (tasks tm)).

Definition update_task (tm : TaskManager) (now : datetime)
    (task_id : string) (kwargs : list kwarg) : TaskManager :=
  match tasks tm !! task_id with
  | Some t =>
      with_tasks tm
        (<[task_id := set_updated_at (dict_update t kwargs) now]> (tasks tm))
  | None => tm
  end.

Definition get_task (tm : TaskManager) (task_id : string) : option Task :=
  tasks tm !! task_id.

Definition can_start_download (tm : TaskManager) : bool :=
  active_downloads tm <? max_concurrent_downloads tm.

Definition increment_active_downloads (tm : TaskManager) : TaskManager :=
  with_active_downloads tm (active_downloads tm + 1).

Definition decrement_active_downloads (tm : TaskManager) : TaskManager :=
  with_active_downloads tm (Z.max 0 (active_downloads tm - 1)).

(** The loop [for k, v in m.items(): if test(v): ids.append(k)]. *)
Definition collect {A} (test : A -> bool) (m : gmap string A) : list string :=
  map_to_list m ≫= (fun '(k, v) => if test v then [k] else []).

(** The test of the first loop of [cleanup_old_tasks]. *)
Definition task_is_stale (tm : TaskManager) (current_time : datetime)
    (task : Task) : bool :=
  older_than (current_time - t_updated_at task) (cleanup_interval tm)
  && bool_decide (t_status task ∈ [COMPLETED; FAILED]).

(** [cleanup_old_tasks]: a first pass over [tasks.items()] collects the ids,
    a second pass deletes them. *)
Definition cleanup_old_tasks (tm : TaskManager) (current_time : datetime)
    : TaskManager :=
  let to_remove := collect (task_is_stale tm current_time) (tasks tm) in
  with_tasks tm (foldl (fun ts task_id => delete task_id ts) (tasks tm) to_remove).

(* ===================================================================== *)
(** ** FileManager *)
(* ===================================================================== *)

(** The dictionary built by [register_file]. *)
Record FileRecord := mkFileRecord {
  file_path : string;
  temp_dir : string;
  filename : string;
  created_at : datetime;
  downloaded : bool;
  file_size : Z;
  access_count : Z
}.

(** The part of the file system the registry acts on: the temporary
    directories that exist, and for [shutil.rmtree] whether removing a
    directory succeeds (it raises otherwise, and the directory stays). *)
Record FileSystem := mkFileSystem {
  dirs : gset string;
  rmtree_succeeds : string -> bool
}.

Definition rmtree (fs : FileSystem) (d : string) : FileSystem :=
  if rmtree_succeeds fs d
  then {| dirs := dirs fs ∖ {[d]}; rmtree_succeeds := rmtree_succeeds fs |}
  else fs.

Record FileManager := mkFileManager {
  _files : gmap string FileRecord;
  max_file_age : Z
}.

(** [FileManager.__init__] *)
Definition FileManager_init : FileManager :=
  {| _files := ∅; max_file_age := 3600 |}.

Definition with_files (fm : FileManager) (fs : gmap string FileRecord) : FileManager :=
  {| _files := fs; max_file_age := max_file_age fm |}.

Definition mark_record (r : FileRecord) : FileRecord :=
  {| file_path := file_path r; temp_dir := temp_dir r; filename := filename r;
     created_at := created_at r;
     downloaded := true;
     file_size := file_size r;
     access_count := access_count r + 1 |}.

Definition mark_downloaded (fm : FileManager) (task_id : string) : FileManager :=
  match _files fm !! task_id with
  | Some r => with_files fm (<[task_id := mark_record r]> (_files fm))
  | None => fm
  end.

Definition get_file_info (fm : FileManager) (task_id : string) : option FileRecord :=
  _files fm !! task_id.

(** [cleanup_file]: the directory is removed when it exists, an error of
    [rmtree] is logged, and the record is deleted in the [finally]. *)
Definition cleanup_file (st : FileManager * FileSystem) (task_id : string)
    : FileManager * FileSystem :=
  let '(fm, fs) := st in
  match _files fm !! task_id with
  | Some file_info =>
      let fs' :=
        if bool_decide (temp_dir file_info ∈ dirs fs)
        then rmtree fs (temp_dir file_info) else fs in
      (with_files fm (delete task_id (_files fm)), fs')
  | None => (fm, fs)
  end.

(** The test of the loop of [cleanup_old_files]. *)
Definition file_is_old (fm : FileManager) (current_time : datetime)
    (file_info : FileRecord) : bool :=
  let age := current_time - created_at file_info in
  older_than age (max_file_age fm)
  || (downloaded file_info && older_than age 600).

Definition cleanup_old_files (st : FileManager * FileSystem)
    (current_time : datetime) : FileManager * FileSystem :=
  let to_cleanup := collect (file_is_old st.1 current_time) (_files st.1) in
  foldl cleanup_file st to_cleanup.

(* ===================================================================== *)
(** ** Strings and patterns *)
(* ===================================================================== *)

(** A character is a code point below 256. *)
Definition code (c : ascii) : N := N_of_ascii c.

Definition in_range (lo hi : N) (c : ascii) : bool :=
  ((lo <=? code c) && (code c <=? hi))%N.

(** [\w] of Python's [re] on [str]: alphanumeric or underscore. *)
Definition is_word (c : ascii) : bool :=
  in_range 48 57 c || in_range 65 90 c || in_range 97 122 c
  || (code c =? 95)%N
  || (code c =? 170)%N || (code c =? 178)%N || (code c =? 179)%N
  || (code c =? 181)%N || (code c =? 185)%N || (code c =? 186)%N
  || in_range 188 190 c
  || in_range 192 214 c || in_range 216 246 c || in_range 248 255 c.

(** [[\w-]] *)
Definition is_word_or_dash (c : ascii) : bool :=
  is_word c || (code c =? 45)%N.

(** The characters removed by [str.strip()]. *)
Definition is_space (c : ascii) : bool :=
  in_range 9 13 c || in_range 28 32 c
  || (code c =? 133)%N || (code c =? 160)%N.

Fixpoint lstrip (s : string) : string :=
  match s with
  | String c s' => if is_space c then lstrip s' else s
  | EmptyString => s
  end.

Definition strip (s : string) : string :=
  String.rev (lstrip (String.rev (lstrip s))).

(** [str.lower()] *)
Definition lower_char (c : ascii) : ascii :=
  if in_range 65 90 c || in_range 192 214 c || in_range 216 222 c
  then ascii_of_N (code c + 32) else c.

Fixpoint lower (s : string) : string :=
  match s with
  | String c s' => String (lower_char c) (lower s')
  | EmptyString => EmptyString
  end.

(** [needle in hay] *)
Fixpoint contains (needle hay : string) : bool :=
  String.prefix needle hay
  || match hay with
     | String _ hay' => contains needle hay'
     | EmptyString => false
     end.

(** [s.replace(c, '')] for a one-character [c]. *)
Fixpoint remove_char (c : ascii) (s : string) : string :=
  match s with
  | String x s' =>
      if Ascii.eqb x c then remove_char c s' else String x (remove_char c s')
  | EmptyString => EmptyString
  end.

(** The fragment of regular expressions used by [youtube_patterns]. *)
Inductive regex :=
  | Lit (s : string)                 (* the characters of [s], in order *)
  | Opt (r : regex)                  (* [r?] and [(?:r)?] *)
  | Cat (r1 r2 : regex)              (* [r1 r2] *)
  | Plus (cls : ascii -> bool).      (* [[cls]+] *)

Fixpoint drop_prefix (p s : string) : option string :=
  match p, s with
  | EmptyString, _ => Some s
  | String a p', String b s' => if Ascii.eqb a b then drop_prefix p' s' else None
  | String _ _, EmptyString => None
  end.

(** Zero or more characters of the class, longest first, then [k]. *)
Fixpoint star_class (cls : ascii -> bool) (s : string) (k : string -> bool) : bool :=
  match s with
  | String c s' => (cls c && star_class cls s' k) || k s
  | EmptyString => k s
  end.

(** Backtracking matcher: [k] is tried on what each way of matching [r] at
    the head of [s] leaves. *)
Fixpoint matches (r : regex) (s : string) (k : string -> bool) : bool :=
  match r with
  | Lit p => match drop_prefix p s with Some s' => k s' | None => false end
  | Opt r' => matches r' s k || k s
  | Cat r1 r2 => matches r1 s (fun s' => matches r2 s' k)
  | Plus cls =>
      match s with
      | String c s' => cls c && star_class cls s' k
      | EmptyString => false
      end
  end.

(** [re.match(pattern, s)] is not [None]: the pattern matches at the start
    of [s]; what follows the match is free. *)
Definition re_match (pattern : regex) (s : string) : bool :=
  matches pattern s (fun _ => true).

Definition seq (rs : list regex) : regex := foldr Cat (Lit "") rs.

Definition youtube_patterns : list regex :=
  [ seq [Lit "http"; Opt (Lit "s"); Lit "://"; Opt (Lit "www.");
         Lit "youtube.com/watch?v="; Plus is_word_or_dash];
    seq [Lit "http"; Opt (Lit "s"); Lit "://"; Opt (Lit "www.");
         Lit "youtube.com/embed/"; Plus is_word_or_dash];
    seq [Lit "http"; Opt (Lit "s"); Lit "://";
         Lit "youtu.be/"; Plus is_word_or_dash];
    seq [Lit "http"; Opt (Lit "s"); Lit "://"; Opt (Lit "m.");
         Lit "youtube.com/watch?v="; Plus is_word_or_dash];
    seq [Lit "http"; Opt (Lit "s"); Lit "://"; Opt (Lit "www.");
         Lit "youtube.com/v/"; Plus is_word_or_dash];
    seq [Lit "http"; Opt (Lit "s"); Lit "://"; Opt (Lit "www.");
         Lit "youtube.com/shorts/"; Plus is_word_or_dash] ].

Definition is_valid_youtube_url (url : string) : bool :=
  existsb (fun pattern => re_match pattern url) youtube_patterns.

(* ===================================================================== *)
(** ** POST /extract *)
(* ===================================================================== *)

Inductive response (A : Type) :=
  | Success (data : A)
  | HTTPException (status_code : Z) (detail : string).
Arguments Success {A} data.
Arguments HTTPException {A} status_code detail.

Section Extract.

(** The dictionary returned by [downloader.extract_video_info]. *)
Context {VideoInfo : Type}.

(** [downloader.extract_video_info(url)], the one place of this endpoint
    that runs the external tool: it returns the video information or
    raises [Exception(msg)], given here as [inl msg]. *)
Variable downloader_extract_video_info : string -> string + VideoInfo.

(** The endpoint, with the list of the URLs the tool was run on, in
    order. *)
Definition extract_video_info (request_url : string)
    : list string * response VideoInfo :=
  let url := strip request_url in
  if String.eqb url "" then
    ([], HTTPException 400 "Please provide a valid URL")
  else if negb (is_valid_youtube_url url) then
    ([], HTTPException 400 "Please provide a valid YouTube video URL")
  else
    match downloader_extract_video_info url with
    | inr video_info => ([url], Success video_info)
    | inl error_msg =>
        if contains "blocking requests" error_msg
           || contains "bot" (lower error_msg)
        then ([url], HTTPException 429
                "YouTube is temporarily blocking requests. Please try again in a few minutes.")
        else ([url], HTTPException 500 error_msg)
    end.

End Extract.

(* ===================================================================== *)
(** ** The progress hook of [_download_video_sync] *)
(* ===================================================================== *)

(** The dictionary the external tool passes to a progress hook.  A key that
    is absent, or present with the value [None], is [None] here. *)
Record progress_event := mkEvent {
  ev_status : string;
  ev_total_bytes : option Z;
  ev_downloaded_bytes : option Z;
  ev_speed : option float;
  ev_eta : option Z;
  ev_percent_str : option string
}.

(** The truth value of a float: zero is false, everything else is true. *)
Definition float_truthy (x : float) : bool :=
  match x with
  | S754_zero _ => false
  | _ => true
  end.

Definition format_speed (speed : option float) : result string :=
  match speed with
  | Some speed =>
    if float_truthy speed then
      if PyFloat.gt speed (PyFloat.of_int (1024 * 1024)) then
        x ← PyFloat.div speed (PyFloat.of_int (1024 * 1024));
        Ok (PyFloat.format_f 1 x +:+ " MB/s")
      else if PyFloat.gt speed (PyFloat.of_int 1024) then
        x ← PyFloat.div speed (PyFloat.of_int 1024);
        Ok (PyFloat.format_f 1 x +:+ " KB/s")
      else
        Ok (PyFloat.format_f 0 speed +:+ " B/s")
    else Ok "0 B/s"
  | None => Ok "0 B/s"
  end.

(** [d[key]] *)
Definition getitem {A} (v : option A) : result A :=
  match v with
  | Some a => Ok a
  | None => Raise KeyError
  end.

(** The literal [0.8]. *)
Definition lit_0_8 : float := S754_finite false 7205759403792794 (-53).

Section ProgressHook.

(** The builtin [float(s)] on a string: [None] when it raises. *)
Variable float_of_string : string -> option float.

(** The message of both [downloading] branches. *)
Definition downloading_message (d : progress_event) : string :=
  "Downloading... " +:+ default "50%" (ev_percent_str d).

(** The branch [elif '_percent_str' in d]: whatever [float] or [int]
    raises is passed over. *)
Definition on_percent_str (tm : TaskManager) (now : datetime)
    (task_id : string) (d : progress_event) : TaskManager :=
  match ev_percent_str d with
  | Some percent_str =>
      match float_of_string (remove_char "%" percent_str) with
      | Some x =>
          match PyFloat.to_int (PyFloat.mul x lit_0_8) with
          | Ok scaled =>
              update_task tm now task_id
                [progress_ (Z.min (scaled + 15) 95);
                 message_ (downloading_message d)]
          | Raise _ => tm
          end
      | None => tm
      end
  | None => tm
  end.

(** [if 'total_bytes' in d and d['total_bytes']] *)
Definition has_total_bytes (d : progress_event) : option Z :=
  match ev_total_bytes d with
  | Some total_bytes => if total_bytes =? 0 then None else Some total_bytes
  | None => None
  end.

(** [if eta: ... else: "Unknown"] *)
Definition format_eta (eta : option Z) : string :=
  match eta with
  | Some eta => if eta =? 0 then "Unknown" else _format_duration (Some eta)
  | None => "Unknown"
  end.

(** The body of the [try] of the [downloading] branch. *)
Definition on_downloading (tm : TaskManager) (now : datetime)
    (task_id : string) (d : progress_event) : result TaskManager :=
  match has_total_bytes d with
  | Some total_bytes =>
      downloaded_bytes ← getitem (ev_downloaded_bytes d);
      ratio ← PyFloat.int_truediv downloaded_bytes total_bytes;
      scaled ← PyFloat.to_int (PyFloat.mul ratio (PyFloat.of_int 80));
      let progress := scaled + 15 in
      speed_str ← format_speed (ev_speed d);
      let eta_str := format_eta (ev_eta d) in
      Ok (update_task tm now task_id
            [progress_ (Z.min progress 95);
             message_ (downloading_message d);
             download_speed_ speed_str;
             eta_ eta_str;
             downloaded_bytes_ downloaded_bytes;
             total_bytes_ total_bytes])
  | None => Ok (on_percent_str tm now task_id d)
  end.

(** [progress_hook(d)] for the task [task_id]: an exception of the
    [downloading] branch is logged and the registry is left as it was. *)
Definition progress_hook (tm : TaskManager) (now : datetime)
    (task_id : string) (d : progress_event) : TaskManager :=
  if String.eqb (ev_status d) "downloading" then
    match on_downloading tm now task_id d with
    | Ok tm' => tm'
    | Raise _ => tm
    end
  else if String.eqb (ev_status d) "finished" then
    update_task tm now task_id
      [progress_ 98; message_ "Processing downloaded file..."]
  else tm.

End ProgressHook.

(* ===================================================================== *)
(** ** [download_video_async] as a transition system *)
(* ===================================================================== *)

(** Jobs are coroutines of one event loop: a job runs alone from one
    suspension point ([await]) to the next.  The steps below are finer (a
    call on the counter or on the semaphore also ends a step), so every
    schedule of the event loop is a schedule of this system.  The counter
    is touched by [download_video_async] alone; the statements in between
    ([update_task], the URL clean-up, [register_file], the error message of
    the [except] clause) leave it and the semaphore as they are (see
    [update_task_counter]) and are not part of the state.  Before the
    increment only the two awaits can raise. *)

(** How the guarded body of a job ended: it returned the file name, or an
    exception left the [try] (after the [except] clause, when that one
    caught it). *)
Inductive outcome := Returned | Raised.

(** Where a job stands in [download_video_async]. *)
Inductive pc :=
  | Queued                  (* before [async with self.download_semaphore] *)
  | Polling                 (* at the test of [while not can_start_download()] *)
  | Sleeping                (* at [await asyncio.sleep(5)] *)
  | Granted                 (* the test held; before [increment_active_downloads()] *)
  | Downloading             (* after the increment, up to the end of the [try] body:
                               at [await loop.run_in_executor(...)] *)
  | Finishing (o : outcome) (* at the [finally] clause *)
  | Releasing (o : outcome) (* leaving the [async with] *)
  | Done (o : outcome).

(** A job, with the number of calls it has made so far to
    [increment_active_downloads] and to [decrement_active_downloads]. *)
Record job := mkJob {
  at_pc : pc;
  increments : Z;
  decrements : Z
}.

Record system := mkSystem {
  task_manager : TaskManager;
  download_semaphore : Z;        (* the value of [asyncio.Semaphore(3)] *)
  jobs : list job
}.

(** What the awaited operation of a step does: it completes, or raises. *)
Inductive await := Completes | Raises.

(** One step of job [j]: the statements up to its next suspension point or
    to its next call on the counter or the semaphore, whichever is first.
    An awaited operation completes or raises ([a]); a sleep that raises
    leaves the [try] through the [finally] like any other exception.
    [None]: the job cannot move (the semaphore is taken, or it is done). *)
Definition job_step (tm : TaskManager) (sem : Z) (j : job) (a : await)
    : option (TaskManager * Z * job) :=
  match at_pc j with
  | Queued =>
      if 0 <? sem
      then Some (tm, sem - 1, mkJob Polling (increments j) (decrements j))
      else None
  | Polling =>
      if can_start_download tm
      then Some (tm, sem, mkJob Granted (increments j) (decrements j))
      else Some (tm, sem, mkJob Sleeping (increments j) (decrements j))
  | Sleeping =>
      match a with
      | Completes => Some (tm, sem, mkJob Polling (increments j) (decrements j))
      | Raises => Some (tm, sem, mkJob (Finishing Raised) (increments j) (decrements j))
      end
  | Granted =>
      Some (increment_active_downloads tm, sem,
            mkJob Downloading (increments j + 1) (decrements j))
  | Downloading =>
      match a with
      | Completes => Some (tm, sem, mkJob (Finishing Returned) (increments j) (decrements j))
      | Raises => Some (tm, sem, mkJob (Finishing Raised) (increments j) (decrements j))
      end
  | Finishing o =>
      Some (decrement_active_downloads tm, sem,
            mkJob (Releasing o) (increments j) (decrements j + 1))
  | Releasing o =>
      Some (tm, sem + 1, mkJob (Done o) (increments j) (decrements j))
  | Done _ => None
  end.

(** Job number [i] takes a step. *)
Definition step (s : system) (i : nat) (a : await) : option system :=
  match jobs s !! i with
  | Some j =>
      match job_step (task_manager s) (download_semaphore s) j a with
      | Some (tm', sem', j') => Some (mkSystem tm' sem' (<[i := j']> (jobs s)))
      | None => None
      end
  | None => None
  end.

(** A schedule: which job moves, and how its awaited operation ends. *)
Fixpoint run (s : system) (schedule : list (nat * await)) : option system :=
  match schedule with
  | [] => Some s
  | (i, a) :: rest =>
      match step s i a with
      | Some s' => run s' rest
      | None => None
      end
  end.

(** [n] calls of [download_video_async] on a fresh service. *)
Definition initial (n : nat) : system :=
  mkSystem TaskManager_init 3 (replicate n (mkJob Queued 0 0)).

(* ===================================================================== *)
(** ** The specification's wording, for comparison *)
(* ===================================================================== *)

(** The quality tiers of the size estimate and, for each, the call the
    service makes. *)
Inductive tier := T1080p | T720p | T480p | Audio.

Definition estimate (q : tier) (duration : Z) : result string :=
  match q with
  | T1080p => _estimate_file_size (Some duration) 1080
  | T720p => _estimate_file_size (Some duration) 720
  | T480p => _estimate_file_size (Some duration) 480
  | Audio => _estimate_audio_size (Some duration)
  end.

(** Rates in MB per minute: 8, 5, 3 and 2.4. *)
Definition spec_rate (q : tier) : float :=
  match q with
  | T1080p => PyFloat.of_int 8
  | T720p => PyFloat.of_int 5
  | T480p => PyFloat.of_int 3
  | Audio => PyFloat.lit_2_4
  end.

Definition spec_render_mb (size_mb : float) : string :=
  "~" +:+ PyFloat.format_f 0 size_mb +:+ " MB".

Definition spec_render_gb (size_mb : float) : string :=
  "~" +:+ PyFloat.format_f 1 (SFdiv PyFloat.prec PyFloat.emax size_mb (PyFloat.of_int 1024))
      +:+ " GB".

(** "[~N MB] below 1024 MB, else [~N.N GB]". *)
Definition spec_render_stated (size_mb : float) : string :=
  if SFltb size_mb (PyFloat.of_int 1024)
  then spec_render_mb size_mb else spec_render_gb size_mb.

(** The same with the boundary on the other side: [~N MB] up to and
    including 1024 MB. *)
Definition spec_render_amended (size_mb : float) : string :=
  if SFleb size_mb (PyFloat.of_int 1024)
  then spec_render_mb size_mb else spec_render_gb size_mb.

(** "H h M m S s, dropping leading zero units". *)
Definition spec_duration_string (h m s : Z) : string :=
  if h =? 0 then
    if m =? 0 then pretty s +:+ "s"
    else pretty m +:+ "m " +:+ pretty s +:+ "s"
  else pretty h +:+ "h " +:+ pretty m +:+ "m " +:+ pretty s +:+ "s".

(** The progress formula [min(floor(r * 80) + 15, 95)]. *)
Definition spec_progress (scaled_ratio : float) : option Z :=
  p ← PyFloat.floor scaled_ratio; Some (Z.min (p + 15) 95).

(* ===================================================================== *)
(** ** Invariants and sample data used by the proofs *)
(* ===================================================================== *)

(** Bookkeeping over the jobs of a system: 1 for a job inside the
    [async with] block, and 1 for a job between its increment and its
    decrement of the counter. *)
Definition holds_semaphore (j : job) : Z :=
  match at_pc j with
  | Queued | Done _ => 0
  | _ => 1
  end.

Definition counted (j : job) : Z :=
  match at_pc j with
  | Downloading | Finishing _ => 1
  | _ => 0
  end.

Definition total (f : job -> Z) (js : list job) : Z :=
  foldr (fun j acc => f j + acc) 0 js.

(** The calls a job has made, by where it stands; no job ever sleeps. *)
Definition job_ok (j : job) : Prop :=
  match at_pc j with
  | Queued | Polling | Granted => increments j = 0 /\ decrements j = 0
  | Sleeping => False
  | Downloading | Finishing _ => increments j = 1 /\ decrements j = 0
  | Releasing _ | Done _ => increments j = 1 /\ decrements j = 1
  end.

Definition invariant (s : system) : Prop :=
  max_concurrent_downloads (task_manager s) = 3
  /\ download_semaphore s = 3 - total holds_semaphore (jobs s)
  /\ 0 <= download_semaphore s
  /\ active_downloads (task_manager s) = total counted (jobs s)
  /\ Forall job_ok (jobs s).

(** Two jobs: the first runs to its end and returns, then the second runs
    to its end and raises. *)
Definition sample_schedule : list (nat * await) :=
  [ (0%nat, Completes); (0%nat, Completes); (0%nat, Completes);
    (1%nat, Completes);
    (0%nat, Completes); (0%nat, Completes); (0%nat, Completes);
    (1%nat, Completes); (1%nat, Completes); (1%nat, Raises);
    (1%nat, Completes); (1%nat, Completes) ].

Definition sample_final : system :=
  mkSystem TaskManager_init 3
    [mkJob (Done Returned) 1 1; mkJob (Done Raised) 1 1].

(** Two events of the external tool: half of 1000 bytes received, and the
    end of the transfer. *)
Definition sample_downloading : progress_event :=
  {| ev_status := "downloading"; ev_total_bytes := Some 1000;
     ev_downloaded_bytes := Some 500; ev_speed := None; ev_eta := Some 125;
     ev_percent_str := Some " 50.0%" |}.

Definition sample_finished : progress_event :=
  {| ev_status := "finished"; ev_total_bytes := Some 1000;
     ev_downloaded_bytes := Some 1000; ev_speed := None; ev_eta := None;
     ev_percent_str := None |}.

(** A float that is zero or finite, with sign [s], a mantissa below [2^D]
    and an exponent of at most [E]. *)
Definition bounded_float (s : bool) (D E : Z) (x : float) : Prop :=
  match x with
  | S754_zero s' => s' = s
  | S754_finite s' m e => s' = s /\ Z.pos m < 2 ^ D /\ e <= E
  | _ => False
  end.

(** A float that is zero or finite: neither an infinity nor a NaN. *)
Definition is_finite (x : float) : Prop :=
  match x with
  | S754_zero _ | S754_finite _ _ _ => True
  | _ => False
  end.

(** A call on the admission counter. *)
Inductive counter_call := Increment | Decrement.

Definition do_call (tm : TaskManager) (c : counter_call) : TaskManager :=
  match c with
  | Increment => increment_active_downloads tm
  | Decrement => decrement_active_downloads tm
  end.

(** Sample data for the examples below: a registry with one completed
    task last updated at time 0 and one task still processing. *)
Definition sample_task (task_id : string) (st : TaskStatus) (updated : datetime) : Task :=
  {| t_id := task_id; t_url := "https://youtu.be/dQw4w9WgXcQ";
     t_format_id := "best"; t_quality := "Best Available Quality";
     t_status := st; t_progress := 0; t_message := "Task created";
     t_filename := None; t_download_url := None; t_error := None;
     t_created_at := 0; t_updated_at := updated;
     t_download_speed := "0 B/s"; t_eta := "Unknown"; t_file_size := "Unknown";
     t_downloaded_bytes := 0; t_total_bytes := 0;
     t_retry_count := 0; t_max_retries := 5 |}.

Definition sample_tasks : TaskManager :=
  with_tasks TaskManager_init
    (<["a" := sample_task "a" COMPLETED 0]>
       (<["b" := sample_task "b" PROCESSING 0]> ∅)).

Definition sample_record (is_downloaded : bool) : FileRecord :=
  {| file_path := "/tmp/youtube_dl_long_x/video.mp4";
     temp_dir := "/tmp/youtube_dl_long_x";
     filename := "video.mp4";
     created_at := 0;
     downloaded := is_downloaded;
     file_size := 1048576;
     access_count := 0 |}.

Definition sample_files : FileManager :=
  with_files FileManager_init (<["a" := sample_record false]> ∅).

Definition sample_fs : FileSystem :=
  {| dirs := {["/tmp/youtube_dl_long_x"]}; rmtree_succeeds := fun _ => true |}.

(* ===================================================================== *)
(** ** Reading a task record by key *)
(* ===================================================================== *)

(** The keys [update_task] is called with, the value a keyword argument
    carries, and the value a task holds under a key. *)
Inductive key :=
  | k_status | k_progress | k_message | k_filename | k_download_url
  | k_error | k_download_speed | k_eta | k_downloaded_bytes | k_total_bytes.

#[global] Instance key_eq_dec : EqDecision key.
Proof. solve_decision. Defined.

Inductive pyvalue :=
  | VStatus (v : TaskStatus)
  | VInt (v : Z)
  | VStr (v : string)
  | VOptStr (v : option string).

Definition kwarg_key (kw : kwarg) : key :=
  match kw with
  | status_ _ => k_status
  | progress_ _ => k_progress
  | message_ _ => k_message
  | filename_ _ => k_filename
  | download_url_ _ => k_download_url
  | error_ _ => k_error
  | download_speed_ _ => k_download_speed
  | eta_ _ => k_eta
  | downloaded_bytes_ _ => k_downloaded_bytes
  | total_bytes_ _ => k_total_bytes
  end.

Definition kwarg_value (kw : kwarg) : pyvalue :=
  match kw with
  | status_ v => VStatus v
  | progress_ v => VInt v
  | message_ v => VStr v
  | filename_ v => VOptStr v
  | download_url_ v => VOptStr v
  | error_ v => VOptStr v
  | download_speed_ v => VStr v
  | eta_ v => VStr v
  | downloaded_bytes_ v => VInt v
  | total_bytes_ v => VInt v
  end.

(** [task[k]] *)
Definition task_get (k : key) (t : Task) : pyvalue :=
  match k with
  | k_status => VStatus (t_status t)
  | k_progress => VInt (t_progress t)
  | k_message => VStr (t_message t)
  | k_filename => VOptStr (t_filename t)
  | k_download_url => VOptStr (t_download_url t)
  | k_error => VOptStr (t_error t)
  | k_download_speed => VStr (t_download_speed t)
  | k_eta => VStr (t_eta t)
  | k_downloaded_bytes => VInt (t_downloaded_bytes t)
  | k_total_bytes => VInt (t_total_bytes t)
  end.

(** The keys no call of [update_task] in the program passes; [created_at]
    among them. *)
Definition fixed_part (t : Task)
    : string * string * string * string * datetime * string * Z * Z :=
  (t_id t, t_url t, t_format_id t, t_quality t, t_created_at t,
   t_file_size t, t_retry_count t, t_max_retries t).

(** The last keyword argument for [k], if any. *)
Definition last_for (k : key) (kwargs : list kwarg) : option kwarg :=
  last (filter (fun kw => kwarg_key kw = k) kwargs).

(** One job at the test of the loop, and one job at its [finally]. *)
Definition sample_polling : system :=
  mkSystem TaskManager_init 2 [mkJob Polling 0 0].

Definition sample_finishing : system :=
  mkSystem (increment_active_downloads TaskManager_init) 2
    [mkJob (Finishing Raised) 1 0].

(* ===================================================================== *)
(** ** FileManager, continued; GET /download-file; the file reaper *)
(* ===================================================================== *)

(** [os.path.basename] (POSIX): what follows the last slash. *)
Fixpoint until_slash (s : string) : string :=
  match s with
  | String c s' => if Ascii.eqb c "/" then EmptyString else String c (until_slash s')
  | EmptyString => EmptyString
  end.

Definition basename (path : string) : string :=
  String.rev (until_slash (String.rev path)).

(** [s.endswith(suffix)] *)
Definition ends_with (suffix s : string) : bool :=
  String.prefix (String.rev suffix) (String.rev s).

(** [register_file]; [disk path] is the size of the file at [path] when it
    exists ([os.path.exists], [os.path.getsize]). *)
Definition register_file (fm : FileManager) (disk : string -> option Z)
    (now : datetime) (task_id file_path temp_dir : string) : FileManager :=
  let file_size := default 0 (disk file_path) in
  with_files fm
    (<[task_id :=
         {| file_path := file_path;
            temp_dir := temp_dir;
            filename := basename file_path;
            created_at := now;
            downloaded := false;
            file_size := file_size;
            access_count := 0 |}]> (_files fm)).

(** What [FileResponse(...)] is built from. *)
Record FileResponse := mkFileResponse {
  fr_path : string;
  fr_filename : string;
  fr_media_type : string;
  fr_headers : list (string * string)
}.

Definition content_type_of (filename : string) : string :=
  if ends_with ".mp3" filename then "audio/mpeg"
  else if ends_with ".webm" filename then "video/webm"
  else "video/mp4".

(** [download_file(task_id)]: the registry after the call, the task ids for
    which a delayed [cleanup_file] was scheduled, and the answer. *)
Definition download_file (fm : FileManager) (disk : string -> option Z)
    (task_id : string) : FileManager * list string * response FileResponse :=
  match get_file_info fm task_id with
  | None => (fm, [], HTTPException 404 "File not found or expired")
  | Some file_info =>
      match disk (file_path file_info) with
      | None => (fm, [], HTTPException 404 "File not found on disk")
      | Some size_on_disk =>
          (mark_downloaded fm task_id, [task_id],
           Success
             {| fr_path := file_path file_info;
                fr_filename := filename file_info;
                fr_media_type := content_type_of (filename file_info);
                fr_headers :=
                  [ ("Access-Control-Allow-Origin", "*");
                    ("Access-Control-Allow-Methods", "GET");
                    ("Access-Control-Allow-Headers", "*");
                    ("Content-Length", pretty size_on_disk);
                    ("Accept-Ranges", "bytes") ] |})
      end
  end.

Definition with_max_file_age (fm : FileManager) (age : Z) : FileManager :=
  {| _files := _files fm; max_file_age := age |}.

(** One turn of the loop of [cleanup_temp_files]: the sweep, then the
    retention for the next turn from the disk usage ([disk.percent], a
    float). *)
Definition cleanup_temp_files_turn (st : FileManager * FileSystem)
    (turn : datetime * float) : FileManager * FileSystem :=
  let '(now, disk_percent) := turn in
  let st' := cleanup_old_files st now in
  (with_max_file_age st'.1
     (if PyFloat.gt disk_percent (PyFloat.of_int 90) then 1800 else 3600),
   st'.2).

Definition cleanup_temp_files (st : FileManager * FileSystem)
    (turns : list (datetime * float)) : FileManager * FileSystem :=
  foldl cleanup_temp_files_turn st turns.

(** The two retentions the reaper switches between. *)
Definition retention_ok (fm : FileManager) : Prop :=
  max_file_age fm = 1800 \/ max_file_age fm = 3600.

(** The disk always has the file of the sample record, with its size. *)
Definition sample_disk (path : string) : option Z := Some 1048576.

(* ===================================================================== *)
(** ** File names *)
(* ===================================================================== *)

(** The character class of [sanitize_title]: backslash, slash, star,
    question mark, colon, double quote, less-than, greater-than, bar. *)
Definition is_unsafe (c : ascii) : bool :=
  (code c =? 92)%N || (code c =? 47)%N || (code c =? 42)%N
  || (code c =? 63)%N || (code c =? 58)%N || (code c =? 34)%N
  || (code c =? 60)%N || (code c =? 62)%N || (code c =? 124)%N.

(** [re.sub(class, "_", title)]: every character of the class becomes an
    underscore. *)
Fixpoint sanitize_title (title : string) : string :=
  match title with
  | String c s => String (if is_unsafe c then "_"%char else c) (sanitize_title s)
  | EmptyString => EmptyString
  end.

(** [os.path.join(a, b)] (POSIX) *)
Definition os_path_join (a b : string) : string :=
  if String.prefix "/" b then b
  else if String.eqb a "" || ends_with "/" a then a +:+ b
  else a +:+ "/" +:+ b.

(** [f"{safe_title}_{counter}.{ext}"] *)
Definition numbered (safe_title : string) (counter : Z) (ext : string) : string :=
  safe_title +:+ "_" +:+ pretty counter +:+ "." +:+ ext.

(** The loop [while True] of [get_unique_filename], run for at most [fuel]
    turns; [paths] are the paths that exist ([os.path.exists]). *)
Fixpoint next_free (fuel : nat) (paths : gset string)
    (base_path safe_title ext : string) (counter : Z) : option string :=
  match fuel with
  | O => None
  | S fuel' =>
      let new_filename := numbered safe_title counter ext in
      let new_full_path := os_path_join base_path new_filename in
      if negb (bool_decide (new_full_path ∈ paths)) then Some new_filename
      else next_free fuel' paths base_path safe_title ext (counter + 1)
  end.

Definition get_unique_filename (fuel : nat) (paths : gset string)
    (base_path title ext : string) : option string :=
  let safe_title := sanitize_title title in
  let base_filename := safe_title +:+ "." +:+ ext in
  let full_path := os_path_join base_path base_filename in
  if negb (bool_decide (full_path ∈ paths)) then Some base_filename
  else next_free fuel paths base_path safe_title ext 1.

(** No character of the string is a slash. *)
Fixpoint slash_free (s : string) : bool :=
  match s with
  | String c s' => negb (Ascii.eqb c "/") && slash_free s'
  | EmptyString => true
  end.

(** No character of the string is in the class of [sanitize_title]. *)
Fixpoint all_safe (s : string) : bool :=
  match s with
  | String c s' => negb (is_unsafe c) && all_safe s'
  | EmptyString => true
  end.

(** One existing file, for the examples. *)
Definition sample_paths : gset string := {[ "/tmp/x/video.mp4" ]}.

(* ===================================================================== *)
(** ** The video id *)
(* ===================================================================== *)

(** The class [[0-9A-Za-z_-]]. *)
Definition is_id_char (c : ascii) : bool :=
  in_range 48 57 c || in_range 65 90 c || in_range 97 122 c
  || (code c =? 95)%N || (code c =? 45)%N.

(** [([0-9A-Za-z_-]{n})] at the head of [s]: the group. *)
Fixpoint take_id (n : nat) (s : string) : option string :=
  match n with
  | O => Some EmptyString
  | S n' =>
      match s with
      | String c s' => if is_id_char c then String c <$> take_id n' s' else None
      | EmptyString => None
      end
  end.

(** A literal followed by the group of 11. *)
Definition id_after (lit s : string) : option string :=
  match drop_prefix lit s with
  | Some rest => take_id 11 rest
  | None => None
  end.

(** The three patterns of [extract_video_id] tried at the head of [s]:
    [(?:v=|\/)(ID).*], [(?:embed\/)(ID)] and [(?:shorts\/)(ID)]; the final
    [.*] of the first matches whatever follows. *)
Definition id_pattern_1 (s : string) : option string :=
  match id_after "v=" s with
  | Some g => Some g
  | None => id_after "/" s
  end.

Definition id_pattern_2 (s : string) : option string := id_after "embed/" s.

Definition id_pattern_3 (s : string) : option string := id_after "shorts/" s.

(** [re.search(pattern, s).group(1)]: the match at the leftmost position
    where there is one. *)
Fixpoint re_search (at_head : string -> option string) (s : string) : option string :=
  match at_head s with
  | Some g => Some g
  | None =>
      match s with
      | String _ s' => re_search at_head s'
      | EmptyString => None
      end
  end.

Definition extract_video_id (url : string) : option string :=
  match re_search id_pattern_1 url with
  | Some g => Some g
  | None =>
      match re_search id_pattern_2 url with
      | Some g => Some g
      | None => re_search id_pattern_3 url
      end
  end.

(** The URL handed to the external tool by [extract_video_info] and by
    [download_video_async]. *)
Definition clean_url (url : string) : string :=
  match extract_video_id url with
  | Some video_id => "https://www.youtube.com/watch?v=" +:+ video_id
  | None => url
  end.

(** All characters of the string are of the id class. *)
Fixpoint all_id_chars (s : string) : bool :=
  match s with
  | String c s' => is_id_char c && all_id_chars s'
  | EmptyString => true
  end.

(* ===================================================================== *)
(** ** What a call on the registry leaves alone *)
(* ===================================================================== *)

(** [tm'] differs from [tm] at most in the record of [task_id], and there
    at most under the keys of [keys] and under [updated_at]: no record
    appears or disappears, and the counter is the same. *)
Definition changes_only (keys : list key) (task_id : string)
    (tm tm' : TaskManager) : Prop :=
  active_downloads tm' = active_downloads tm
  /\ (forall other, other <> task_id -> tasks tm' !! other = tasks tm !! other)
  /\ (tasks tm !! task_id = None -> tm' = tm)
  /\ (forall t, tasks tm !! task_id = Some t ->
        exists t', tasks tm' !! task_id = Some t'
          /\ fixed_part t' = fixed_part t
          /\ forall k, k ∉ keys -> task_get k t' = task_get k t).

(** The keys the progress hook passes to [update_task]. *)
Definition progress_keys : list key :=
  [k_progress; k_message; k_download_speed; k_eta;
   k_downloaded_bytes; k_total_bytes].

(* ===================================================================== *)
(** ** YouTubeDownloader.extract_video_info *)
(* ===================================================================== *)

(** A key of the tool's dictionary that the program reads with
    [get(key, 0)] and compares with an int: the key is absent, or holds
    [None], or holds an int. *)
Inductive pyint := NoKey | IsNone | IsInt (n : Z).

(** [d.get(key, default)] on such a key: a [None] that is present is
    returned as it is. *)
Definition get_or (v : pyint) (default : Z) : option Z :=
  match v with
  | NoKey => Some default
  | IsNone => None
  | IsInt n => Some n
  end.

(** [x > n] and [x >= n] for [x] an int or [None]. *)
Definition gt_int (x : option Z) (n : Z) : result bool :=
  match x with
  | Some x => Ok (n <? x)
  | None => Raise TypeError
  end.

Definition ge_int (x : option Z) (n : Z) : result bool :=
  match x with
  | Some x => Ok (n <=? x)
  | None => Raise TypeError
  end.

(** A key whose value is passed on as it is: absent ([None]), or present
    with a value that may be Python's [None]. *)
Definition dict_get {A} (v : option (option A)) (default : A) : option A :=
  match v with
  | None => Some default
  | Some v => v
  end.

(** One element of [info['formats']]: the height, and [f.get('vcodec')]
    ([None] when the key is absent or holds [None]). *)
Record tool_format := mkToolFormat {
  tf_height : pyint;
  tf_vcodec : option string
}.

(** What the program reads of the dictionary the tool returns.  The
    duration is an int when it is there; [i_description] is
    [info.get('description')]; an absent list of formats is the empty
    list. *)
Record tool_info := mkToolInfo {
  i_title : option (option string);
  i_duration : pyint;
  i_thumbnail : option (option string);
  i_uploader : option (option string);
  i_view_count : option (option Z);
  i_like_count : option (option Z);
  i_upload_date : option (option string);
  i_description : option string;
  i_formats : list tool_format
}.

(** One entry of the menu of formats; the audio entry has no key
    [recommended].  Characters of a label outside ASCII are written in
    UTF-8. *)
Record format_entry := mkEntry {
  e_format_id : string;
  e_quality : string;
  e_height : Z;
  e_width : Z;
  e_ext : string;
  e_filesize : Z;
  e_fps : Z;
  e_has_audio : bool;
  e_vcodec : string;
  e_acodec : string;
  e_recommended : option bool;
  e_estimated_size : string
}.

Record video_info := mkVideoInfo {
  v_title : option string;
  v_duration : Z;
  v_duration_string : string;
  v_is_long_video : bool;
  v_thumbnail : option string;
  v_uploader : option string;
  v_view_count : option Z;
  v_like_count : option Z;
  v_upload_date : option string;
  v_description : string;
  v_formats : list format_entry
}.

(** What leaves the [try] block: the exception of the tool, with its
    message, or an exception of the interpreter, raised by the operator
    [op]. *)
Inductive failure :=
  | ToolFailed (msg : string)
  | Builtin (e : exn) (op : string).

Definition attempt (A : Type) : Type := failure + A.

#[global] Instance attempt_ret : MRet attempt := fun A a => inr a.
#[global] Instance attempt_bind : MBind attempt := fun A B k r =>
  match r with
  | inr a => k a
  | inl f => inl f
  end.

Definition at_op {A} (op : string) (r : result A) : attempt A :=
  match r with
  | Ok a => inr a
  | Raise e => inl (Builtin e op)
  end.

(** [any(f.get('height', 0) >= n for f in formats if f.get('vcodec') != 'none')]:
    the scan stops at the first hit, and at the first height that is
    [None]. *)
Fixpoint any_height_ge (n : Z) (formats : list tool_format) : result bool :=
  match formats with
  | [] => Ok false
  | f :: formats' =>
      if bool_decide (tf_vcodec f = Some "none") then any_height_ge n formats'
      else
        match ge_int (get_or (tf_height f) 0) n with
        | Ok true => Ok true
        | Ok false => any_height_ge n formats'
        | Raise e => Raise e
        end
  end.

(** [info.get('description', '')[:200] + '...' if info.get('description') else ''] *)
Definition describe (description : option string) : string :=
  match description with
  | Some s => if String.eqb s "" then "" else String.substring 0 200 s +:+ "..."
  | None => ""
  end.

Definition entry_1080 (is_long_video : bool) (size : string) : format_entry :=
  {| e_format_id := "best[height>=1080]";
     e_quality := "Ultra HD (1080p) - Best Quality "
                  +:+ (if is_long_video then "⚠️ Large file for long videos" else "");
     e_height := 1080; e_width := 1920; e_ext := "mp4"; e_filesize := 0;
     e_fps := 30; e_has_audio := true; e_vcodec := "h264"; e_acodec := "aac";
     e_recommended := Some (negb is_long_video);
     e_estimated_size := size |}.

Definition entry_720 (is_long_video has_1080p : bool) (size : string) : format_entry :=
  {| e_format_id := "best[height>=720]";
     e_quality := "Full HD (720p) - High Quality "
                  +:+ (if is_long_video then "✅ Recommended for long videos" else "");
     e_height := 720; e_width := 1280; e_ext := "mp4"; e_filesize := 0;
     e_fps := 30; e_has_audio := true; e_vcodec := "h264"; e_acodec := "aac";
     e_recommended := Some (is_long_video || negb has_1080p);
     e_estimated_size := size |}.

Definition entry_480 (size : string) : format_entry :=
  {| e_format_id := "best[height>=480]";
     e_quality := "HD (480p) - Good Quality ⚡ Fastest download";
     e_height := 480; e_width := 854; e_ext := "mp4"; e_filesize := 0;
     e_fps := 30; e_has_audio := true; e_vcodec := "h264"; e_acodec := "aac";
     e_recommended := Some false;
     e_estimated_size := size |}.

Definition entry_best (recommended : bool) (size : string) : format_entry :=
  {| e_format_id := "best";
     e_quality := "Best Available Quality (Auto) 🔄 Adaptive";
     e_height := 720; e_width := 1280; e_ext := "mp4"; e_filesize := 0;
     e_fps := 30; e_has_audio := true; e_vcodec := "h264"; e_acodec := "aac";
     e_recommended := Some recommended;
     e_estimated_size := size |}.

Definition entry_audio (size : string) : format_entry :=
  {| e_format_id := "bestaudio";
     e_quality := "🎵 Audio Only (320kbps MP3) 📱 Mobile friendly";
     e_height := 0; e_width := 0; e_ext := "mp3"; e_filesize := 0;
     e_fps := 0; e_has_audio := true; e_vcodec := "none"; e_acodec := "mp3";
     e_recommended := None;
     e_estimated_size := size |}.

(** The list [formats], built by one [append] after the other. *)
Definition build_formats (duration : Z) (is_long_video : bool)
    (has_1080p has_720p has_480p : bool) : attempt (list format_entry) :=
  let formats := [] in
  formats ←
    (if has_1080p then
       size ← at_op "/" (_estimate_file_size (Some duration) 1080);
       mret (formats ++ [entry_1080 is_long_video size])
     else mret formats);
  formats ←
    (if has_720p then
       size ← at_op "/" (_estimate_file_size (Some duration) 720);
       mret (formats ++ [entry_720 is_long_video has_1080p size])
     else mret formats);
  formats ←
    (if has_480p then
       size ← at_op "/" (_estimate_file_size (Some duration) 480);
       mret (formats ++ [entry_480 size])
     else mret formats);
  size ← at_op "/" (_estimate_file_size (Some duration) 720);
  let formats := formats ++ [entry_best (bool_decide (length formats = 0%nat)) size] in
  size ← at_op "/" (_estimate_audio_size (Some duration));
  mret (formats ++ [entry_audio size]).

(** The [try] block after the tool has returned [info]. *)
Definition video_info_of (info : tool_info) : attempt video_info :=
  match get_or (i_duration info) 0 with
  | None => inl (Builtin TypeError ">")
  | Some duration =>
      let is_long_video := 3600 <? duration in
      let available_formats := i_formats info in
      has_1080p ← at_op ">=" (any_height_ge 1080 available_formats);
      has_720p ← at_op ">=" (any_height_ge 720 available_formats);
      has_480p ← at_op ">=" (any_height_ge 480 available_formats);
      formats ← build_formats duration is_long_video has_1080p has_720p has_480p;
      mret {| v_title := dict_get (i_title info) "YouTube Video";
              v_duration := duration;
              v_duration_string := _format_duration (Some duration);
              v_is_long_video := is_long_video;
              v_thumbnail := dict_get (i_thumbnail info) "";
              v_uploader := dict_get (i_uploader info) "YouTube Channel";
              v_view_count := dict_get (i_view_count info) 0;
              v_like_count := dict_get (i_like_count info) 0;
              v_upload_date := dict_get (i_upload_date info) "";
              v_description := describe (i_description info);
              v_formats := formats |}
  end.

(** The [except] clause: the message of the exception raised instead. *)
Definition extract_error_message (error_msg : string) : string :=
  if contains "Sign in to confirm you're not a bot" error_msg
     || contains "bot" (lower error_msg)
  then "YouTube is blocking requests. Please try again in a few minutes."
  else if contains "Private video" error_msg
  then "This video is private and cannot be downloaded."
  else if contains "Video unavailable" error_msg
  then "This video is unavailable or has been removed."
  else "Failed to extract video info: " +:+ error_msg.

Section Downloader.

(** [_extract_info_sync(url, ydl_opts)], with the options of
    [extract_video_info], which are the same at every call: the
    dictionary of the tool, or the message [str(e)] of the exception it
    raises. *)
Variable _extract_info_sync : string -> string + tool_info.

(** [str(e)] for an exception of the interpreter raised by an operator. *)
Variable str_builtin : exn -> string -> string.

Definition str (f : failure) : string :=
  match f with
  | ToolFailed msg => msg
  | Builtin e op => str_builtin e op
  end.

(** The [try] block. *)
Definition extract_body (url : string) : attempt video_info :=
  match _extract_info_sync (clean_url url) with
  | inl msg => inl (ToolFailed msg)
  | inr info => video_info_of info
  end.

(** [YouTubeDownloader.extract_video_info(url)]: the dictionary, or the
    message of the [Exception] it raises. *)
Definition downloader_extract_video_info (url : string) : string + video_info :=
  match extract_body url with
  | inr video_info => inr video_info
  | inl f => inl (extract_error_message (str f))
  end.

End Downloader.

(** The two [except] clauses read as one decision list, for comparison:
    the answer of POST /extract when the [try] block of the extraction
    fails with the message [error_msg]. *)
Definition extract_failure_response (error_msg : string) : response video_info :=
  if contains "bot" (lower error_msg)
  then HTTPException 429
         "YouTube is temporarily blocking requests. Please try again in a few minutes."
  else if contains "Private video" error_msg
  then HTTPException 500 "This video is private and cannot be downloaded."
  else if contains "Video unavailable" error_msg
  then HTTPException 500 "This video is unavailable or has been removed."
  else if contains "blocking requests" error_msg
  then HTTPException 429
         "YouTube is temporarily blocking requests. Please try again in a few minutes."
  else HTTPException 500 ("Failed to extract video info: " +:+ error_msg).

(** A format with a picture: [f.get('vcodec') != 'none']; and its height
    as the scan reads it. *)
Definition is_video (f : tool_format) : Prop := tf_vcodec f <> Some "none".

Definition height_at_least (n : Z) (f : tool_format) : Prop :=
  is_video f /\ exists h, get_or (tf_height f) 0 = Some h /\ n <= h.

Definition is_recommended (e : format_entry) : bool :=
  bool_decide (e_recommended e = Some true).

(** A video of 90 minutes offered up to 720p, with an audio-only format
    whose height is [None]. *)
Definition sample_info : tool_info :=
  {| i_title := Some (Some "A talk");
     i_duration := IsInt 5400;
     i_thumbnail := None;
     i_uploader := Some None;
     i_view_count := Some (Some 12);
     i_like_count := None;
     i_upload_date := Some (Some "20240101");
     i_description := Some "Short.";
     i_formats := [ mkToolFormat IsNone (Some "none");
                    mkToolFormat (IsInt 360) (Some "avc1");
                    mkToolFormat (IsInt 720) None ] |}.

(* ===================================================================== *)
(** ** POST /download and POST /download/form *)
(* ===================================================================== *)

(** [s.split(c, 1)] when [c] is in [s]: what stands before the first [c],
    and what follows it. *)
Fixpoint split_once (c : ascii) (s : string) : option (string * string) :=
  match s with
  | EmptyString => None
  | String x s' =>
      if Ascii.eqb x c then Some (EmptyString, s')
      else match split_once c s' with
           | Some (a, b) => Some (String x a, b)
           | None => None
           end
  end.

(** The two fields read from the form field [format]. *)
Definition parse_format (format : string) : string * string :=
  match split_once "|" format with
  | Some (format_id, quality) => (format_id, quality)
  | None => (format, "Best Available Quality")
  end.

(** The arguments of a background call of [download_video_async]. *)
Record download_job := mkDownloadJob {
  j_task_id : string;
  j_url : string;
  j_format_id : string;
  j_quality : string
}.

Record started := mkStarted {
  s_task_id : string;
  s_message : string;
  s_status_url : string
}.

(** [_process_download]; [uuid4] is the value of [str(uuid.uuid4())], and
    [now_created] and [now_updated] are the two readings of the clock in
    [create_task].  The registry after the call, the background calls that
    were added, and the answer. *)
Definition _process_download (tm : TaskManager)
    (now_created now_updated : datetime)
    (uuid4 : string) (url format_id quality : string)
    : TaskManager * list download_job * response started :=
  let url := strip url in
  if String.eqb url "" || String.eqb format_id "" then
    (tm, [], HTTPException 400 "Missing required parameters")
  else if negb (is_valid_youtube_url url) then
    (tm, [], HTTPException 400 "Please provide a valid YouTube video URL")
  else
    let task_id := uuid4 in
    (create_task tm now_created now_updated task_id url format_id quality,
     [mkDownloadJob task_id url format_id quality],
     Success
       {| s_task_id := task_id;
          s_message := "Download started. Long videos may take more time. Use the task_id to check progress.";
          s_status_url := "/task/" +:+ task_id |}).

Definition download_video_json := _process_download.

Definition download_video_form (tm : TaskManager)
    (now_created now_updated : datetime)
    (uuid4 : string) (video_url format : string)
    : TaskManager * list download_job * response started :=
  let '(format_id, quality) := parse_format format in
  _process_download tm now_created now_updated uuid4 video_url format_id quality.

(** ** GET /task, DELETE /task *)

Definition get_task_status (tm : TaskManager) (task_id : string) : response Task :=
  match get_task tm task_id with
  | Some task => Success task
  | None => HTTPException 404 "Task not found"
  end.

Definition delete_task (tm : TaskManager) (task_id : string)
    : TaskManager * response string :=
  match tasks tm !! task_id with
  | Some _ =>
      (with_tasks tm (delete task_id (tasks tm)),
       Success "Task deleted successfully")
  | None => (tm, HTTPException 404 "Task not found")
  end.

(** No character of the string is a bar. *)
Fixpoint bar_free (s : string) : bool :=
  match s with
  | String c s' => negb (Ascii.eqb c "|") && bar_free s'
  | EmptyString => true
  end.

(* ===================================================================== *)
(** ** [download_video_async]: the guarded body *)
(* ===================================================================== *)

(** The part of [s] from its first slash on. *)
Fixpoint from_slash (s : string) : string :=
  match s with
  | String c s' => if Ascii.eqb c "/" then s else from_slash s'
  | EmptyString => EmptyString
  end.

Fixpoint lstrip_slashes (s : string) : string :=
  match s with
  | String c s' => if Ascii.eqb c "/" then lstrip_slashes s' else s
  | EmptyString => EmptyString
  end.

(** [os.path.dirname] (POSIX): the path up to its last slash, without the
    slashes at its end unless it is made of slashes only. *)
Definition dirname (p : string) : string :=
  let head := from_slash (String.rev p) in
  if String.eqb (lstrip_slashes head) "" then String.rev head
  else String.rev (lstrip_slashes head).

(** The [except] clause: the message stored and raised. *)
Definition download_error_message (error_msg : string) : string :=
  if contains "Sign in to confirm you're not a bot" error_msg then
    "YouTube is blocking download requests. Please try again later."
  else if contains "Requested format is not available" error_msg then
    "The requested quality is not available. Please try a lower quality."
  else if contains "HTTP Error 403" error_msg then
    "Access denied. This video may be restricted."
  else if contains "Connection broken" error_msg
          || contains "timeout" (lower error_msg) then
    "Connection timeout. This may happen with very long videos. Please try again."
  else if contains "No space left on device" error_msg then
    "Server storage full. Please try again later."
  else error_msg.

(** [f"Retrying download... (Attempt {attempt + 2}/{max_retries})"] *)
Definition retry_message (attempt max_retries : Z) : string :=
  "Retrying download... (Attempt " +:+ pretty (attempt + 2) +:+ "/"
  +:+ pretty max_retries +:+ ")".

(** What [_download_video_sync] does to the task registry while it runs:
    the tool calls the progress hook, and the retry loop notes the next
    attempt. *)
Inductive sync_action :=
  | Hook (d : progress_event)
  | Retrying (attempt : Z).

(** The readings of [datetime.now()] in the guarded body. *)
Record clock := mkClock {
  at_start : datetime;
  at_prepare : datetime;
  at_register : datetime;
  at_end : datetime
}.

Section Guarded.

Variable float_of_string : string -> option float.

Definition sync_step (task_id : string) (tm : TaskManager)
    (a : datetime * sync_action) : TaskManager :=
  match a.2 with
  | Hook d => progress_hook float_of_string tm a.1 task_id d
  | Retrying attempt =>
      update_task tm a.1 task_id [message_ (retry_message attempt 3)]
  end.

(** The [try] of [download_video_async] from the first [update_task] after
    the increment, with its [except] clause.  [actions] is what
    [_download_video_sync] does to the registry, in order, and [ending]
    how it ends: it returns the path of the file, or raises an exception
    with the message [str(e)].  The result is the path returned, or the
    message of the exception raised. *)
Definition download_guarded (disk : string -> option Z)
    (st : TaskManager * FileManager) (c : clock) (task_id : string)
    (actions : list (datetime * sync_action)) (ending : string + string)
    : TaskManager * FileManager * (string + string) :=
  let '(tm, fm) := st in
  let tm := update_task tm (at_start c) task_id
              [status_ PROCESSING; progress_ 5; message_ "Starting download..."] in
  let tm := update_task tm (at_prepare c) task_id
              [progress_ 10; message_ "Preparing download..."] in
  let tm := foldl (sync_step task_id) tm actions in
  match ending with
  | inr filename =>
      let fm := register_file fm disk (at_register c) task_id filename
                  (dirname filename) in
      let download_url := "/download-file/" +:+ task_id in
      let tm := update_task tm (at_end c) task_id
                  [status_ COMPLETED; progress_ 100;
                   message_ "Download completed successfully!";
                   filename_ (Some (basename filename));
                   download_url_ (Some download_url)] in
      (tm, fm, inr filename)
  | inl e =>
      let error_msg := download_error_message e in
      let tm := update_task tm (at_end c) task_id
                  [status_ FAILED; progress_ 0; message_ "Download failed";
                   error_ (Some error_msg)] in
      (tm, fm, inl error_msg)
  end.

End Guarded.

(** The keys touched while a download runs. *)
Definition running_keys : list key := k_status :: progress_keys.

Definition sample_clock : clock := mkClock 1 2 3 4.

(* ===================================================================== *)
(** ** [_download_video_sync]: the plan of a download and the retry loop *)
(* ===================================================================== *)

Record postprocessor := mkPostprocessor {
  pp_key : string;
  pp_args : list (string * string)
}.

(** The options handed to the tool.  The entries that are the same in
    both branches and that nothing here reads ([quiet], [no_warnings],
    [skip_unavailable_fragments], [keep_fragments], [progress_hooks]) and
    the two that only the video branch sets to a constant
    ([http_headers], [prefer_ffmpeg]) are left out. *)
Record ydl_opts := mkOpts {
  o_format : string;
  o_outtmpl : string;
  o_merge_output_format : option string;
  o_postprocessors : list postprocessor;
  o_socket_timeout : Z;
  o_retries : Z;
  o_fragment_retries : Z;
  o_file_access_retries : option Z;
  o_http_chunk_size : Z;
  o_concurrent_fragment_downloads : Z
}.

(** [ydl_opts.update({...})] with the five keys of the branch for more
    than two hours, and with the four keys of the branch for more than
    one. *)
Definition update_transfer (o : ydl_opts)
    (socket_timeout http_chunk_size fragment_retries retries : Z)
    (concurrent_fragment_downloads : option Z) : ydl_opts :=
  {| o_format := o_format o;
     o_outtmpl := o_outtmpl o;
     o_merge_output_format := o_merge_output_format o;
     o_postprocessors := o_postprocessors o;
     o_socket_timeout := socket_timeout;
     o_retries := retries;
     o_fragment_retries := fragment_retries;
     o_file_access_retries := o_file_access_retries o;
     o_http_chunk_size := http_chunk_size;
     o_concurrent_fragment_downloads :=
       default (o_concurrent_fragment_downloads o) concurrent_fragment_downloads |}.

(** The five settings that depend on the duration: socket timeout, chunk
    size, fragment retries, retries, concurrent fragment downloads. *)
Definition transfer_settings (o : ydl_opts) : Z * Z * Z * Z * Z :=
  (o_socket_timeout o, o_http_chunk_size o, o_fragment_retries o,
   o_retries o, o_concurrent_fragment_downloads o).

Definition is_audio_request (quality format_id : string) : bool :=
  contains "Audio Only" quality || String.eqb format_id "bestaudio".

Definition selected_format (format_id : string) : string :=
  if String.eqb format_id "best[height>=1080]" then
    "bestvideo[height<=1080][ext=mp4]+bestaudio[ext=m4a]/"
    +:+ "bestvideo[height<=1080][ext=webm]+bestaudio[ext=webm]/"
    +:+ "best[height<=1080][ext=mp4]/best[height<=1080]/"
    +:+ "bestvideo[height<=720][ext=mp4]+bestaudio[ext=m4a]/"
    +:+ "best[height<=720]/best"
  else if String.eqb format_id "best[height>=720]" then
    "bestvideo[height<=720][ext=mp4]+bestaudio[ext=m4a]/"
    +:+ "bestvideo[height<=720][ext=webm]+bestaudio[ext=webm]/"
    +:+ "best[height<=720][ext=mp4]/best[height<=720]/"
    +:+ "bestvideo[height<=480][ext=mp4]+bestaudio[ext=m4a]/"
    +:+ "best[height<=480]/best"
  else if String.eqb format_id "best[height>=480]" then
    "bestvideo[height<=480][ext=mp4]+bestaudio[ext=m4a]/"
    +:+ "bestvideo[height<=480][ext=webm]+bestaudio[ext=webm]/"
    +:+ "best[height<=480][ext=mp4]/best[height<=480]/"
    +:+ "best"
  else
    "bestvideo[ext=mp4]+bestaudio[ext=m4a]/"
    +:+ "bestvideo[ext=webm]+bestaudio[ext=webm]/"
    +:+ "best[ext=mp4]/best".

(** [f"{title}"] for a title that is a string or [None]. *)
Definition str_of_title (title : option string) : string :=
  default "None" title.

(** What [_download_video_sync] settles before the download: the options
    of the tool, and the title and extension [get_unique_filename] is
    called with. *)
Record sync_plan := mkPlan {
  p_ydl_opts : ydl_opts;
  p_title : string;
  p_ext : string
}.

(** [title] and [duration] are the two keys read from the dictionary of
    the tool.  In the video branch a title that is [None] makes
    [sanitize_title] raise, and a duration that is [None] the
    comparison. *)
Definition plan_download (temp_dir quality format_id unique_id : string)
    (title : option (option string)) (duration : pyint) : result sync_plan :=
  if is_audio_request quality format_id then
    let temp_filename := "audio_" +:+ unique_id +:+ ".%(ext)s" in
    let ydl_opts :=
      {| o_format := "bestaudio/best";
         o_outtmpl := os_path_join temp_dir temp_filename;
         o_merge_output_format := None;
         o_postprocessors :=
           [mkPostprocessor "FFmpegExtractAudio"
              [("preferredcodec", "mp3"); ("preferredquality", "320")]];
         o_socket_timeout := 120;
         o_retries := 10;
         o_fragment_retries := 15;
         o_file_access_retries := None;
         o_http_chunk_size := 10485760;
         o_concurrent_fragment_downloads := 3 |} in
    let title := dict_get title "YouTube Audio" in
    Ok (mkPlan ydl_opts (str_of_title title +:+ "_audio") "mp3")
  else
    let temp_filename := "video_" +:+ unique_id +:+ ".%(ext)s" in
    let title := dict_get title "YouTube Video" in
    let duration := get_or duration 0 in
    match title with
    | None => Raise TypeError
    | Some title =>
        let ydl_opts :=
          {| o_format := selected_format format_id;
             o_outtmpl := os_path_join temp_dir temp_filename;
             o_merge_output_format := Some "mp4";
             o_postprocessors :=
               if negb (ends_with ".mp4" temp_filename)
               then [mkPostprocessor "FFmpegVideoConvertor"
                       [("preferedformat", "mp4")]]
               else [];
             o_socket_timeout := 300;
             o_retries := 15;
             o_fragment_retries := 20;
             o_file_access_retries := Some 5;
             o_http_chunk_size := 20971520;
             o_concurrent_fragment_downloads := 4 |} in
        match gt_int duration 7200 with
        | Raise e => Raise e
        | Ok true =>
            Ok (mkPlan (update_transfer ydl_opts 600 52428800 30 20 (Some 2))
                  title "mp4")
        | Ok false =>
            match gt_int duration 3600 with
            | Raise e => Raise e
            | Ok true =>
                Ok (mkPlan (update_transfer ydl_opts 450 31457280 25 18 None)
                      title "mp4")
            | Ok false => Ok (mkPlan ydl_opts title "mp4")
            end
        end
    end.

(** [final_filename = self.get_unique_filename(temp_dir, title, ext)] *)
Definition final_filename (fuel : nat) (paths : gset string)
    (temp_dir : string) (plan : sync_plan) : option string :=
  get_unique_filename fuel paths temp_dir (p_title plan) (p_ext plan).

(** One run of [ydl.download([url])]: the progress events it reports,
    each with its time, and how it ends: it returns, or raises an
    exception with a message, in which case the time is that of the note
    of the retry loop. *)
Record attempt_run := mkAttemptRun {
  a_events : list (datetime * progress_event);
  a_raises : option (string * datetime)
}.

(** The loop [for attempt in range(max_retries)], from [attempt] on with
    [remaining] turns left; [ydl_download attempt] is what the tool does
    at that attempt.  The result: what is done to the registry, the
    seconds slept, and the message of the exception raised, if any. *)
Fixpoint download_attempts (ydl_download : Z -> attempt_run)
    (max_retries : Z) (remaining : nat) (attempt : Z)
    : list (datetime * sync_action) * Z * option string :=
  match remaining with
  | O => ([], 0, None)
  | S remaining' =>
      let run := ydl_download attempt in
      let hooks := map (fun ev => (ev.1, Hook ev.2)) (a_events run) in
      match a_raises run with
      | None => (hooks, 0, None)
      | Some (e, now) =>
          if attempt <? max_retries - 1 then
            let '(actions, slept, r) :=
              download_attempts ydl_download max_retries remaining' (attempt + 1) in
            (hooks ++ (now, Retrying attempt) :: actions, 10 + slept, r)
          else (hooks, 0, Some e)
      end
  end.

Definition download_with_retries (ydl_download : Z -> attempt_run)
    : list (datetime * sync_action) * Z * option string :=
  let max_retries := 3 in
  download_attempts ydl_download max_retries (Z.to_nat max_retries) 0.

(** The attempts noted by the retry loop, and the progress events
    reported, in order. *)
Definition retry_notes (actions : list (datetime * sync_action)) : list Z :=
  actions ≫= (fun a => match a.2 with Retrying attempt => [attempt] | Hook _ => [] end).

Definition hook_events (actions : list (datetime * sync_action))
    : list (datetime * progress_event) :=
  actions ≫= (fun a => match a.2 with Hook d => [(a.1, d)] | Retrying _ => [] end).

(** Two failed attempts, then one that succeeds. *)
Definition sample_download (attempt : Z) : attempt_run :=
  if attempt <? 2
  then mkAttemptRun [] (Some ("HTTP Error 503", 10 + attempt))
  else mkAttemptRun [(20, sample_finished)] None.

(* ===================================================================== *)
(** ** GET /stats and GET /health *)
(* ===================================================================== *)

(** [len([t for t in tasks if t['status'] == status])] *)
Definition count_status (status : TaskStatus) (tasks : list Task) : Z :=
  Z.of_nat (length (filter (fun t => t_status t = status) tasks)).

(** The counters of [get_stats]; the readings of the machine
    ([system_resources]) and of the clock ([uptime]) are left out. *)
Record stats := mkStats {
  st_total_tasks : Z;
  st_pending_tasks : Z;
  st_processing_tasks : Z;
  st_completed_tasks : Z;
  st_failed_tasks : Z;
  st_temp_files : Z;
  st_active_downloads : Z;
  st_max_concurrent_downloads : Z
}.

Definition get_stats (tm : TaskManager) (fm : FileManager) : stats :=
  let tasks := (map_to_list (tasks tm)).*2 in
  {| st_total_tasks := Z.of_nat (length tasks);
     st_pending_tasks := count_status PENDING tasks;
     st_processing_tasks := count_status PROCESSING tasks;
     st_completed_tasks := count_status COMPLETED tasks;
     st_failed_tasks := count_status FAILED tasks;
     st_temp_files := Z.of_nat (size (_files fm));
     st_active_downloads := active_downloads tm;
     st_max_concurrent_downloads := max_concurrent_downloads tm |}.

(** The counters of [health_check]. *)
Record health := mkHealth {
  h_active_tasks : Z;
  h_total_tasks : Z;
  h_temp_files : Z;
  h_active_downloads : Z
}.

Definition health_check (tm : TaskManager) (fm : FileManager) : health :=
  {| h_active_tasks :=
       count_status PROCESSING ((map_to_list (tasks tm)).*2);
     h_total_tasks := Z.of_nat (size (tasks tm));
     h_temp_files := Z.of_nat (size (_files fm));
     h_active_downloads := active_downloads tm |}.

(* ===================================================================== *)
(** * Properties *)
(* ===================================================================== *)

(** ** The admission counter *)

Lemma calls_nonneg tm calls :
  0 <= active_downloads tm -> 0 <= active_downloads (foldl do_call tm calls).
Proof.
  revert tm. induction calls as [|c calls IH]; intros tm Htm; [exact Htm|].
  simpl. apply IH. destruct c; simpl; lia.
Qed.

(** C9: from a fresh [TaskManager] (counter 0), after any sequence of
    [increment_active_downloads] and [decrement_active_downloads] calls the
    counter is at least 0: a decrement stores max(0, n - 1), so a decrement
    at 0 leaves 0, also when there were more decrements than increments. *)
Theorem active_downloads_never_negative :
  (forall calls : list counter_call,
     0 <= active_downloads (foldl do_call TaskManager_init calls))
  /\ (forall tm, active_downloads (decrement_active_downloads tm)
                 = Z.max 0 (active_downloads tm - 1))
  /\ (forall k : nat,
        active_downloads (foldl do_call TaskManager_init (replicate k Decrement)) = 0).
Proof.
  split; [|split].
  - intros calls. apply calls_nonneg. simpl. lia.
  - reflexivity.
  - induction k as [|k IH]; [reflexivity|].
    rewrite replicate_S_end, foldl_app. simpl. rewrite IH. reflexivity.
Qed.

(** ** Formatting helpers *)

(** C10: with a duration of 0, or no duration, the duration formatter and
    both size estimators answer "Unknown" (not "0s", not "~0 MB"). *)
Theorem zero_duration_is_unknown :
  _format_duration None = "Unknown"
  /\ _format_duration (Some 0) = "Unknown"
  /\ (forall height, _estimate_file_size None height = Ok "Unknown")
  /\ (forall height, _estimate_file_size (Some 0) height = Ok "Unknown")
  /\ _estimate_audio_size None = Ok "Unknown"
  /\ _estimate_audio_size (Some 0) = Ok "Unknown"
  /\ "Unknown" <> "0s" /\ "Unknown" <> "~0 MB".
Proof. repeat split; try reflexivity; discriminate. Qed.

Lemma format_duration_pos (secs : Z) :
  0 < secs ->
  _format_duration (Some secs)
  = spec_duration_string (secs / 3600) ((secs mod 3600) / 60) (secs mod 60).
Proof.
  intros Hpos.
  assert (Hh : 0 <= secs / 3600) by (apply Z.div_pos; lia).
  assert (Hm : 0 <= (secs mod 3600) / 60).
  { apply Z.div_pos; [|lia]. apply Z.mod_pos_bound. lia. }
  destruct secs as [|p|p]; try lia.
  unfold _format_duration, spec_duration_string.
  set (h := Z.pos p / 3600) in *.
  set (m := (Z.pos p mod 3600) / 60) in *.
  set (s := Z.pos p mod 60).
  destruct (Z.ltb_spec 0 h), (Z.eqb_spec h 0); try lia; try reflexivity.
  destruct (Z.ltb_spec 0 m), (Z.eqb_spec m 0); try lia; reflexivity.
Qed.

(** C6: a positive number of seconds is split into hours, minutes below 60
    and seconds below 60, and rendered "Hh Mm Ss" without the hours when
    they are 0 and without hours and minutes when both are 0;
    45 gives "45s", 125 gives "2m 5s", 3725 gives "1h 2m 5s". *)
Theorem format_duration_correct :
  (forall secs : Z, 0 < secs ->
     let h := secs / 3600 in
     let m := (secs mod 3600) / 60 in
     let s := secs mod 60 in
     secs = 3600 * h + 60 * m + s
     /\ 0 <= h /\ 0 <= m < 60 /\ 0 <= s < 60
     /\ _format_duration (Some secs) = spec_duration_string h m s)
  /\ _format_duration (Some 45) = "45s"
  /\ _format_duration (Some 125) = "2m 5s"
  /\ _format_duration (Some 3725) = "1h 2m 5s".
Proof.
  split; [|repeat split; reflexivity].
  intros secs Hpos h m s.
  assert (Hs : 0 <= secs mod 3600 < 3600) by (apply Z.mod_pos_bound; lia).
  split; [|split; [|split; [|split]]].
  - subst h m s.
    pose proof (Z.div_mod secs 3600 ltac:(lia)) as E1.
    pose proof (Z.div_mod (secs mod 3600) 60 ltac:(lia)) as E2.
    assert (E3 : (secs mod 3600) mod 60 = secs mod 60).
    { apply Z.mod_mod_divide. exists 60. reflexivity. }
    lia.
  - apply Z.div_pos; lia.
  - subst m. split; [apply Z.div_pos; lia|].
    apply Z.div_lt_upper_bound; lia.
  - apply Z.mod_pos_bound. lia.
  - apply format_duration_pos. exact Hpos.
Qed.

Lemma format_duration_correct_witness :
  0 < 3725
  /\ _format_duration (Some 3725) = spec_duration_string 1 2 5.
Proof.
  split; [lia|].
  exact (proj2 (proj2 (proj2 (proj2
           (proj1 format_duration_correct 3725 ltac:(lia)))))).
Defined.

(** ** Registries: collecting ids in a first pass, deleting in a second *)

Section Sweep.
Context {A : Type}.
Implicit Types (m : gmap string A) (ks : list string) (test : A -> bool).

Lemma elem_of_collect test m i :
  i ∈ collect test m <-> exists v, m !! i = Some v /\ test v = true.
Proof.
  unfold collect. rewrite list_elem_of_bind. split.
  - intros [[k v] [Hin Hkv]]. apply elem_of_map_to_list in Hkv.
    destruct (test v) eqn:Hv.
    + apply list_elem_of_singleton in Hin. subst. eauto.
    + inversion Hin.
  - intros (v & Hv & Ht). exists (i, v). split.
    + rewrite Ht. apply list_elem_of_singleton. reflexivity.
    + apply elem_of_map_to_list. exact Hv.
Qed.

Lemma lookup_delete_all m ks i :
  foldl (fun ts k => delete k ts) m ks !! i
  = if decide (i ∈ ks) then None else m !! i.
Proof.
  revert m. induction ks as [|k ks IH]; intros m; simpl.
  - destruct (decide (i ∈ [])) as [H|_]; [inversion H | reflexivity].
  - rewrite IH.
    destruct (decide (i ∈ ks)) as [Hin|Hnin];
      destruct (decide (i ∈ k :: ks)) as [Hin'|Hnin']; try reflexivity.
    + exfalso. apply Hnin'. right. exact Hin.
    + apply elem_of_cons in Hin' as [->|Hin']; [|contradiction].
      apply lookup_delete_eq.
    + apply lookup_delete_ne. intros ->. apply Hnin'. left.
Qed.

Lemma lookup_sweep test m i :
  foldl (fun ts k => delete k ts) m (collect test m) !! i
  = match m !! i with
    | Some v => if test v then None else Some v
    | None => None
    end.
Proof.
  rewrite lookup_delete_all.
  destruct (decide (i ∈ collect test m)) as [Hin|Hin].
  - apply elem_of_collect in Hin as (v & -> & ->). reflexivity.
  - destruct (m !! i) as [v|] eqn:Hv; [|reflexivity].
    destruct (test v) eqn:Ht; [|reflexivity].
    exfalso. apply Hin, elem_of_collect. eauto.
Qed.
End Sweep.

Lemma older_than_spec delta n : older_than delta n = true <-> n * 1000000 < delta.
Proof. unfold older_than. apply Z.ltb_lt. Qed.

Lemma task_is_stale_spec tm now t :
  task_is_stale tm now t = true
  <-> (t_status t = COMPLETED \/ t_status t = FAILED)
      /\ cleanup_interval tm * 1000000 < now - t_updated_at t.
Proof.
  unfold task_is_stale.
  rewrite andb_true_iff, older_than_spec, bool_decide_eq_true.
  rewrite !elem_of_cons, elem_of_nil. tauto.
Qed.

Lemma cleanup_old_tasks_lookup tm now i :
  tasks (cleanup_old_tasks tm now) !! i
  = match tasks tm !! i with
    | Some t => if task_is_stale tm now t then None else Some t
    | None => None
    end.
Proof. unfold cleanup_old_tasks. simpl. apply (lookup_sweep (task_is_stale tm now)). Qed.

(** C2: [cleanup_old_tasks] removes exactly the tasks that are completed or
    failed and whose last update is older than [cleanup_interval] seconds.
    Every other task is kept as it is: in particular every pending or
    processing task, whatever its age, and every task not older than the
    window.  No task appears, and the settings are unchanged. *)
Theorem cleanup_old_tasks_exact (tm : TaskManager) (now : datetime) :
  (forall task_id t, tasks tm !! task_id = Some t ->
     let stale :=
       (t_status t = COMPLETED \/ t_status t = FAILED)
       /\ cleanup_interval tm * 1000000 < now - t_updated_at t in
     (stale -> tasks (cleanup_old_tasks tm now) !! task_id = None)
     /\ (~ stale -> tasks (cleanup_old_tasks tm now) !! task_id = Some t)
     /\ (t_status t = PENDING \/ t_status t = PROCESSING ->
         tasks (cleanup_old_tasks tm now) !! task_id = Some t)
     /\ (now - t_updated_at t <= cleanup_interval tm * 1000000 ->
         tasks (cleanup_old_tasks tm now) !! task_id = Some t))
  /\ (forall task_id, tasks tm !! task_id = None ->
        tasks (cleanup_old_tasks tm now) !! task_id = None)
  /\ cleanup_interval (cleanup_old_tasks tm now) = cleanup_interval tm
  /\ active_downloads (cleanup_old_tasks tm now) = active_downloads tm.
Proof.
  split; [|split; [|split; reflexivity]].
  - intros task_id t Ht stale.
    assert (Hkeep : ~ stale -> tasks (cleanup_old_tasks tm now) !! task_id = Some t).
    { intros Hns. rewrite cleanup_old_tasks_lookup, Ht.
      destruct (task_is_stale tm now t) eqn:E; [|reflexivity].
      exfalso. apply Hns, task_is_stale_spec, E. }
    split; [|split; [exact Hkeep|split]].
    + intros Hs. rewrite cleanup_old_tasks_lookup, Ht.
      apply task_is_stale_spec in Hs. rewrite Hs. reflexivity.
    + intros Hst. apply Hkeep. intros [[H|H] _]; destruct Hst; congruence.
    + intros Hyoung. apply Hkeep. intros [_ H]. lia.
  - intros task_id Hnone. rewrite cleanup_old_tasks_lookup, Hnone. reflexivity.
Qed.

Lemma cleanup_old_tasks_exact_witness :
  tasks (cleanup_old_tasks sample_tasks 7200000001) !! "a" = None
  /\ tasks (cleanup_old_tasks sample_tasks 7200000001) !! "b"
     = Some (sample_task "b" PROCESSING 0).
Proof.
  pose proof (proj1 (cleanup_old_tasks_exact sample_tasks 7200000001)) as H.
  assert (Ha : tasks sample_tasks !! "a" = Some (sample_task "a" COMPLETED 0))
    by reflexivity.
  assert (Hb : tasks sample_tasks !! "b" = Some (sample_task "b" PROCESSING 0))
    by reflexivity.
  split.
  - apply (proj1 (H _ _ Ha)). simpl. split; [left; reflexivity | lia].
  - apply (proj1 (proj2 (proj2 (H _ _ Hb)))). right. reflexivity.
Defined.

(** ** The file registry *)

Lemma cleanup_file_files st k :
  _files (cleanup_file st k).1 = delete k (_files st.1)
  /\ max_file_age (cleanup_file st k).1 = max_file_age st.1.
Proof.
  destruct st as [fm fs]. unfold cleanup_file. simpl.
  destruct (_files fm !! k) as [r|] eqn:Hk; simpl.
  - split; reflexivity.
  - split; [|reflexivity]. symmetry. apply delete_id. exact Hk.
Qed.

Lemma cleanup_files_files ks : forall st,
  _files (foldl cleanup_file st ks).1
  = foldl (fun fs k => delete k fs) (_files st.1) ks
  /\ max_file_age (foldl cleanup_file st ks).1 = max_file_age st.1.
Proof.
  induction ks as [|k ks IH]; intros st; simpl; [split; reflexivity|].
  destruct (IH (cleanup_file st k)) as [IH1 IH2].
  destruct (cleanup_file_files st k) as [H1 H2].
  rewrite IH1, IH2, H1, H2. split; reflexivity.
Qed.

Lemma file_is_old_spec fm now r :
  file_is_old fm now r = true
  <-> max_file_age fm * 1000000 < now - created_at r
      \/ (downloaded r = true /\ 600 * 1000000 < now - created_at r).
Proof.
  unfold file_is_old.
  rewrite orb_true_iff, andb_true_iff, !older_than_spec. tauto.
Qed.

Lemma cleanup_old_files_lookup st now i :
  _files (cleanup_old_files st now).1 !! i
  = match _files st.1 !! i with
    | Some r => if file_is_old st.1 now r then None else Some r
    | None => None
    end.
Proof.
  unfold cleanup_old_files.
  rewrite (proj1 (cleanup_files_files _ st)).
  apply (lookup_sweep (file_is_old st.1 now)).
Qed.



Lemma mark_downloaded_lookup fm task_id i :
  _files (mark_downloaded fm task_id) !! i
  = if decide (i = task_id) then mark_record <$> (_files fm !! i)
    else _files fm !! i.
Proof.
  unfold mark_downloaded.
  destruct (decide (i = task_id)) as [->|Hne].
  - destruct (_files fm !! task_id) as [r|] eqn:Hr; simpl.
    + rewrite lookup_insert_eq. reflexivity.
    + rewrite Hr. reflexivity.
  - destruct (_files fm !! task_id) as [r|] eqn:Hr; simpl; [|reflexivity].
    rewrite lookup_insert_ne by congruence. reflexivity.
Qed.

Lemma mark_downloaded_max_file_age fm task_id :
  max_file_age (mark_downloaded fm task_id) = max_file_age fm.
Proof. unfold mark_downloaded. destruct (_files fm !! task_id); reflexivity. Qed.

(** C4, as stated, fails: on a registry holding one record with access
    count 0, marking it twice leaves access count 2 and marking it once
    leaves 1, so the two registries differ. *)
Lemma mark_downloaded_not_idempotent :
  _files sample_files !! "a" = Some (sample_record false)
  /\ access_count <$> (_files (mark_downloaded sample_files "a") !! "a") = Some 1
  /\ access_count <$>
       (_files (mark_downloaded (mark_downloaded sample_files "a") "a") !! "a")
     = Some 2
  /\ mark_downloaded (mark_downloaded sample_files "a") "a"
     <> mark_downloaded sample_files "a".
Proof.
  assert (H0 : _files sample_files !! "a" = Some (sample_record false))
    by reflexivity.
  assert (H1 : access_count <$> (_files (mark_downloaded sample_files "a") !! "a")
               = Some 1).
  { rewrite mark_downloaded_lookup, H0.
    destruct (decide ("a" = "a")); [reflexivity|congruence]. }
  assert (H2 : access_count <$>
                 (_files (mark_downloaded (mark_downloaded sample_files "a") "a") !! "a")
               = Some 2).
  { rewrite !mark_downloaded_lookup, H0.
    destruct (decide ("a" = "a")); [reflexivity|congruence]. }
  repeat (split; [assumption|]).
  intros E. rewrite E, H1 in H2. discriminate H2.
Qed.

(** C4, amended: [mark_downloaded] sets the flag and adds one to the access
    count at every call.  A second call leaves the flag set and every field
    but the access count as the first call left them, and the access count
    one higher; the other records are never touched. *)
Theorem mark_downloaded_twice (fm : FileManager) (task_id : string) (r : FileRecord) :
  _files fm !! task_id = Some r ->
  let once := mark_downloaded fm task_id in
  let twice := mark_downloaded once task_id in
  exists r1 r2,
    _files once !! task_id = Some r1
    /\ _files twice !! task_id = Some r2
    /\ downloaded r1 = true /\ downloaded r2 = true
    /\ access_count r1 = access_count r + 1
    /\ access_count r2 = access_count r1 + 1
    /\ (file_path r2, temp_dir r2, filename r2, created_at r2, file_size r2)
       = (file_path r, temp_dir r, filename r, created_at r, file_size r)
    /\ (file_path r1, temp_dir r1, filename r1, created_at r1, file_size r1)
       = (file_path r, temp_dir r, filename r, created_at r, file_size r)
    /\ (forall other, other <> task_id ->
          _files twice !! other = _files fm !! other
          /\ _files once !! other = _files fm !! other)
    /\ max_file_age twice = max_file_age fm.
Proof.
  intros Hr once twice.
  exists (mark_record r), (mark_record (mark_record r)).
  assert (H1 : _files once !! task_id = Some (mark_record r)).
  { subst once. rewrite mark_downloaded_lookup, Hr.
    destruct (decide (task_id = task_id)); [reflexivity|congruence]. }
  assert (H2 : _files twice !! task_id = Some (mark_record (mark_record r))).
  { subst twice. rewrite mark_downloaded_lookup, H1.
    destruct (decide (task_id = task_id)); [reflexivity|congruence]. }
  repeat split; try assumption; try reflexivity.
  - subst twice once. rewrite !mark_downloaded_lookup.
    destruct (decide (other = task_id)); [congruence|reflexivity].
  - subst once. rewrite mark_downloaded_lookup.
    destruct (decide (other = task_id)); [congruence|reflexivity].
  - subst twice once. rewrite !mark_downloaded_max_file_age. reflexivity.
Qed.

Lemma mark_downloaded_twice_witness :
  exists r1 r2,
    _files (mark_downloaded sample_files "a") !! "a" = Some r1
    /\ _files (mark_downloaded (mark_downloaded sample_files "a") "a") !! "a" = Some r2
    /\ access_count r1 = 1 /\ access_count r2 = 2.
Proof.
  destruct (mark_downloaded_twice sample_files "a" (sample_record false) eq_refl)
    as (r1 & r2 & H1 & H2 & _ & _ & Ha1 & Ha2 & _).
  exists r1, r2.
  split; [exact H1|]. split; [exact H2|].
  split; [rewrite Ha1 | rewrite Ha2, Ha1]; reflexivity.
Defined.

(** ** POST /extract *)

Lemma extract_runs_tool {VideoInfo} (tool : string -> string + VideoInfo)
    (request_url : string) :
  strip request_url <> "" ->
  is_valid_youtube_url (strip request_url) = true ->
  (extract_video_info tool request_url).1 = [strip request_url].
Proof.
  intros Hne Hvalid. unfold extract_video_info.
  destruct (String.eqb_spec (strip request_url) "") as [E|_]; [contradiction|].
  rewrite Hvalid. simpl.
  destruct (tool (strip request_url)) as [msg|info]; [|reflexivity].
  destruct (contains "blocking requests" msg || contains "bot" (lower msg));
    reflexivity.
Qed.

(** C8, as stated, fails: a request whose URL starts with a space matches
    none of the accepted patterns as it is sent, and is not empty; yet the
    endpoint strips it, finds it valid, runs the tool on the stripped URL
    and answers with what the tool returns.  So a URL that matches no
    pattern does not always give 400. *)
Lemma extract_accepts_padded_url :
  " https://youtu.be/dQw4w9WgXcQ" <> ""
  /\ is_valid_youtube_url " https://youtu.be/dQw4w9WgXcQ" = false
  /\ extract_video_info (fun _ => inr tt) " https://youtu.be/dQw4w9WgXcQ"
     = (["https://youtu.be/dQw4w9WgXcQ"], Success tt)
  /\ ~ (forall (tool : string -> string + unit) (request_url : string),
          request_url = "" \/ is_valid_youtube_url request_url = false ->
          exists detail,
            extract_video_info tool request_url = ([], HTTPException 400 detail)).
Proof.
  split; [intros H; discriminate H|].
  split; [reflexivity|]. split; [reflexivity|].
  intros Hclaim.
  destruct (Hclaim (fun _ => inr tt) " https://youtu.be/dQw4w9WgXcQ")
    as [detail Hd]; [right; reflexivity|].
  discriminate Hd.
Qed.

(** C8, amended: when the URL of a request to /extract, with the white
    space around it stripped (which is what the endpoint tests), is empty
    or matches none of the accepted patterns, the endpoint answers with
    status 400 and the external tool is not run; whatever the tool would
    have answered plays no part. *)
Theorem extract_rejects_bad_url {VideoInfo} (tool : string -> string + VideoInfo)
    (request_url : string) :
  strip request_url = "" \/ is_valid_youtube_url (strip request_url) = false ->
  exists detail,
    extract_video_info tool request_url = ([], HTTPException 400 detail).
Proof.
  intros [Hempty|Hinvalid]; unfold extract_video_info.
  - rewrite Hempty. simpl. eauto.
  - destruct (String.eqb (strip request_url) ""); [eauto|].
    rewrite Hinvalid. simpl. eauto.
Qed.

Lemma extract_rejects_bad_url_witness :
  exists detail,
    extract_video_info (fun _ => inr tt) "ftp://youtube.com/watch?v=dQw4w9WgXcQ"
    = ([], HTTPException 400 detail).
Proof.
  apply (extract_rejects_bad_url (fun _ => inr tt)).
  right. vm_compute. reflexivity.
Defined.


(** ** Floats: signs and magnitudes through rounding *)

Lemma digits2_pos_lower p : 2 ^ (Z.pos (digits2_pos p) - 1) <= Z.pos p.
Proof.
  induction p as [p IH|p IH|]; simpl digits2_pos.
  - rewrite Pos2Z.inj_succ.
    replace (Z.succ (Z.pos (digits2_pos p)) - 1)
      with (Z.succ (Z.pos (digits2_pos p) - 1)) by lia.
    rewrite Z.pow_succ_r by lia. lia.
  - rewrite Pos2Z.inj_succ.
    replace (Z.succ (Z.pos (digits2_pos p)) - 1)
      with (Z.succ (Z.pos (digits2_pos p) - 1)) by lia.
    rewrite Z.pow_succ_r by lia. lia.
  - simpl. lia.
Qed.

Lemma Zdigits2_le m D : 0 <= D -> 0 <= m < 2 ^ D -> 0 <= Zdigits2 m <= D.
Proof.
  intros HD [Hm0 Hm]. destruct m as [|p|p]; simpl; try lia.
  split; [lia|].
  destruct (Z_le_gt_dec (Z.pos (digits2_pos p)) D) as [H|H]; [exact H|].
  exfalso.
  pose proof (digits2_pos_lower p) as Hl.
  assert (2 ^ D <= 2 ^ (Z.pos (digits2_pos p) - 1))
    by (apply Z.pow_le_mono_r; lia).
  lia.
Qed.

Lemma shr_1_m r : 0 <= shr_m r -> 0 <= shr_m (shr_1 r) <= shr_m r.
Proof.
  destruct r as [m b1 b2]. simpl.
  destruct m as [|[p|p|]|[p|p|]]; simpl; lia.
Qed.

Lemma iter_shr_1_m p : forall r,
  0 <= shr_m r -> 0 <= shr_m (SpecFloat.iter_pos shr_1 p r) <= shr_m r.
Proof.
  induction p as [p IH|p IH|]; intros r Hr; simpl.
  - pose proof (shr_1_m r Hr) as H1.
    pose proof (IH (shr_1 r) ltac:(lia)) as H2.
    pose proof (IH (SpecFloat.iter_pos shr_1 p (shr_1 r)) ltac:(lia)) as H3. lia.
  - pose proof (IH r Hr) as H2.
    pose proof (IH (SpecFloat.iter_pos shr_1 p r) ltac:(lia)) as H3. lia.
  - apply shr_1_m. exact Hr.
Qed.

Lemma shr_record_of_loc_m m l : shr_m (shr_record_of_loc m l) = m.
Proof. destruct l as [|[| |]]; reflexivity. Qed.

Lemma shr_fexp_bounds m e l :
  0 <= m ->
  0 <= shr_m (shr_fexp PyFloat.prec PyFloat.emax m e l).1 <= m
  /\ (shr_fexp PyFloat.prec PyFloat.emax m e l).2
     = Z.max e (fexp PyFloat.prec PyFloat.emax (Zdigits2 m + e)).
Proof.
  intros Hm. unfold shr_fexp, shr.
  set (f := fexp PyFloat.prec PyFloat.emax (Zdigits2 m + e)).
  destruct (f - e) as [|p|p] eqn:Hd; simpl.
  - rewrite shr_record_of_loc_m. lia.
  - pose proof (iter_shr_1_m p (shr_record_of_loc m l)) as H.
    rewrite shr_record_of_loc_m in H. specialize (H Hm). lia.
  - rewrite shr_record_of_loc_m. lia.
Qed.

Lemma round_nearest_even_bounds m l :
  m <= round_nearest_even m l <= m + 1.
Proof.
  destruct l as [|[| |]]; simpl; try lia.
  destruct (Z.even m); lia.
Qed.

Lemma fexp_le x :
  fexp PyFloat.prec PyFloat.emax x = Z.max (x - 53) (-1074).
Proof. reflexivity. Qed.

Lemma binary_round_aux_bounded s m e l D :
  0 <= D -> 0 <= m < 2 ^ D ->
  Z.max e (-1074) + 2 * D <= 971 ->
  bounded_float s (D + 1) (Z.max e (-1074) + 2 * D)
    (binary_round_aux PyFloat.prec PyFloat.emax s m e l).
Proof.
  intros HD Hm Hfit. unfold binary_round_aux.
  pose proof (shr_fexp_bounds m e l (proj1 Hm)) as [Hm1 He1].
  pose proof (Zdigits2_le m D HD Hm) as Hdg.
  destruct (shr_fexp PyFloat.prec PyFloat.emax m e l) as [r1 e1].
  simpl in Hm1, He1.
  set (m1 := round_nearest_even (shr_m r1) (loc_of_shr_record r1)).
  pose proof (round_nearest_even_bounds (shr_m r1) (loc_of_shr_record r1)) as Hr.
  fold m1 in Hr.
  assert (Hm1' : 0 <= m1 < 2 ^ (D + 1)).
  { rewrite Z.pow_add_r by lia. lia. }
  pose proof (shr_fexp_bounds m1 e1 loc_Exact (proj1 Hm1')) as [Hm2 He2].
  pose proof (Zdigits2_le m1 (D + 1) ltac:(lia) Hm1') as Hdg1.
  destruct (shr_fexp PyFloat.prec PyFloat.emax m1 e1 loc_Exact) as [r2 e2].
  simpl in Hm2, He2.
  rewrite fexp_le in He1, He2.
  assert (He : e2 <= Z.max e (-1074) + 2 * D) by lia.
  destruct (shr_m r2) as [|p|p] eqn:Hp; simpl.
  - reflexivity.
  - replace (e2 <=? PyFloat.emax - PyFloat.prec) with true
      by (symmetry; apply Z.leb_le; unfold PyFloat.emax, PyFloat.prec; lia).
    simpl. repeat split; lia.
  - lia.
Qed.

Lemma binary_round_aux_not_nan s m e l :
  0 <= m -> binary_round_aux PyFloat.prec PyFloat.emax s m e l <> S754_nan.
Proof.
  intros Hm. unfold binary_round_aux.
  pose proof (shr_fexp_bounds m e l Hm) as [Hm1 _].
  destruct (shr_fexp PyFloat.prec PyFloat.emax m e l) as [r1 e1].
  simpl in Hm1.
  pose proof (round_nearest_even_bounds (shr_m r1) (loc_of_shr_record r1)) as Hr.
  set (m1 := round_nearest_even (shr_m r1) (loc_of_shr_record r1)) in *.
  pose proof (shr_fexp_bounds m1 e1 loc_Exact ltac:(lia)) as [Hm2 _].
  destruct (shr_fexp PyFloat.prec PyFloat.emax m1 e1 loc_Exact) as [r2 e2].
  simpl in Hm2.
  destruct (shr_m r2) as [|p|p]; try lia; try discriminate.
  destruct (e2 <=? PyFloat.emax - PyFloat.prec); discriminate.
Qed.

Lemma bounded_float_weaken s D E D' E' x :
  D <= D' -> E <= E' -> bounded_float s D E x -> bounded_float s D' E' x.
Proof.
  intros HD HE. destruct x as [s'|s'| |s' m e]; simpl; try tauto.
  intros (Hs & Hm & He). repeat split; try lia; [exact Hs|].
  assert (2 ^ D <= 2 ^ D').
  { destruct (Z_lt_le_dec D 0) as [Hneg|Hpos].
    - rewrite (Z.pow_neg_r 2 D Hneg) in Hm. lia.
    - apply Z.pow_le_mono_r; lia. }
  lia.
Qed.

Lemma digits2_pos_upper p : Z.pos p < 2 ^ Z.pos (digits2_pos p).
Proof.
  induction p as [p IH|p IH|]; simpl digits2_pos;
    try (rewrite Pos2Z.inj_succ, Z.pow_succ_r by lia; lia).
  reflexivity.
Qed.

(** The quotient handed to the rounding, for a dividend below [2^63] and
    any positive divisor: either no shift took place and it is at most the
    dividend, or it has at most 54 bits. *)
Lemma div_core_bounds a b :
  0 < a < 2 ^ 63 -> 0 < b ->
  0 <= (SFdiv_core_binary PyFloat.prec PyFloat.emax a 0 b 0).1.1 < 2 ^ 63
  /\ (SFdiv_core_binary PyFloat.prec PyFloat.emax a 0 b 0).1.2 <= 0.
Proof.
  intros Ha Hb. unfold SFdiv_core_binary. rewrite fexp_le.
  destruct a as [|pa|pa]; try lia. destruct b as [|pb|pb]; try lia.
  pose proof (Zdigits2_le (Z.pos pa) 63 ltac:(lia) ltac:(lia)) as Hd1.
  pose proof (digits2_pos_upper pa) as Hua.
  pose proof (digits2_pos_lower pb) as Hlb.
  change (Zdigits2 (Z.pos pa)) with (Z.pos (digits2_pos pa)) in *.
  change (Zdigits2 (Z.pos pb)) with (Z.pos (digits2_pos pb)).
  set (d1 := Z.pos (digits2_pos pa)) in *.
  set (d2 := Z.pos (digits2_pos pb)) in *.
  assert (Hd1' : 1 <= d1) by (subst d1; lia).
  assert (Hd2' : 1 <= d2) by (subst d2; lia).
  set (e' := Z.min (Z.max (d1 + 0 - (d2 + 0) - 53) (-1074)) (0 - 0)).
  set (s := 0 - 0 - e').
  assert (Hs : 0 <= s) by lia.
  set (m' := match s with
             | 0 => Z.pos pa
             | Z.pos _ => Z.shiftl (Z.pos pa) s
             | Z.neg _ => 0
             end).
  assert (Hm' : m' = Z.pos pa * 2 ^ s).
  { subst m'. destruct s as [|p|p] eqn:Es.
    - simpl. lia.
    - rewrite Z.shiftl_mul_pow2 by lia. reflexivity.
    - lia. }
  clearbody m'.
  destruct (Z.div_eucl m' (Z.pos pb)) as [q r] eqn:Hdiv. simpl.
  assert (Hq : q = m' / Z.pos pb) by (unfold Z.div; rewrite Hdiv; reflexivity).
  assert (Hp : 0 < 2 ^ s) by (apply Z.pow_pos_nonneg; lia).
  assert (Hq0 : 0 <= q) by (subst q; apply Z.div_pos; nia).
  assert (Hqb : q * Z.pos pb <= m').
  { subst q. rewrite Z.mul_comm. apply Z.mul_div_le. lia. }
  split; [split; [exact Hq0|]|lia].
  destruct (Z.eq_dec s 0) as [Hs0|Hs0].
  - rewrite Hs0 in Hm'. simpl in Hm'. nia.
  - assert (Hsum : d1 + s <= (d2 - 1) + 54) by lia.
    assert (Hpow : 2 ^ d1 * 2 ^ s <= 2 ^ (d2 - 1) * 2 ^ 54).
    { rewrite <- !Z.pow_add_r by lia. apply Z.pow_le_mono_r; lia. }
    assert (HP : 0 < 2 ^ (d2 - 1)) by (apply Z.pow_pos_nonneg; lia).
    set (P := 2 ^ (d2 - 1)) in *. set (S := 2 ^ s) in *. set (A := 2 ^ d1) in *.
    clearbody P S A.
    assert (Hlt : q * P < P * 2 ^ 54) by nia.
    assert (q < 2 ^ 54) by nia.
    lia.
Qed.

Lemma int_truediv_zero b : 0 < b -> PyFloat.int_truediv 0 b = Ok (S754_zero false).
Proof. intros Hb. destruct b; try lia. reflexivity. Qed.

Lemma int_truediv_bounded a b :
  0 <= a < 2 ^ 63 -> 0 < b ->
  exists x, PyFloat.int_truediv a b = Ok x /\ bounded_float false 64 126 x.
Proof.
  intros Ha Hb.
  destruct (Z.eq_dec a 0) as [->|Hne].
  { exists (S754_zero false). split; [apply int_truediv_zero; lia|reflexivity]. }
  pose proof (div_core_bounds a b ltac:(lia) Hb) as [Hq He].
  destruct a as [|pa|pa]; try lia. destruct b as [|pb|pb]; try lia.
  unfold PyFloat.int_truediv.
  change (Z.abs (Z.pos pa)) with (Z.pos pa).
  change (Z.abs (Z.pos pb)) with (Z.pos pb).
  change (xorb (Z.pos pa <? 0) (Z.pos pb <? 0)) with false.
  destruct (SFdiv_core_binary PyFloat.prec PyFloat.emax (Z.pos pa) 0 (Z.pos pb) 0)
    as [[q e] l].
  simpl in Hq, He.
  pose proof (binary_round_aux_bounded false q e l 63 ltac:(lia) Hq ltac:(lia)) as Hb'.
  apply (bounded_float_weaken _ _ _ 64 126) in Hb'; try lia.
  destruct (binary_round_aux PyFloat.prec PyFloat.emax false q e l) as [s|s| |s m e2];
    simpl in Hb'; try contradiction; eexists; (split; [reflexivity|exact Hb']).
Qed.

Lemma mul_bounded x y Dx Ex Dy Ey :
  0 <= Dx -> 0 <= Dy ->
  bounded_float false Dx Ex x -> bounded_float false Dy Ey y ->
  Z.max (Ex + Ey) (-1074) + 2 * (Dx + Dy) <= 971 ->
  bounded_float false (Dx + Dy + 1) (Z.max (Ex + Ey) (-1074) + 2 * (Dx + Dy))
    (PyFloat.mul x y).
Proof.
  intros HDx HDy Hx Hy Hfit. unfold PyFloat.mul.
  destruct x as [sx|sx| |sx mx ex], y as [sy|sy| |sy my ey];
    simpl in Hx, Hy; try contradiction.
  - subst. reflexivity.
  - destruct Hy as [-> _]. subst. reflexivity.
  - destruct Hx as [-> _]. subst. reflexivity.
  - destruct Hx as (-> & Hmx & Hex), Hy as (-> & Hmy & Hey).
    unfold SFmul. change (xorb false false) with false.
    assert (Hm : 0 <= Z.pos (mx * my) < 2 ^ (Dx + Dy)).
    { rewrite Pos2Z.inj_mul, Z.pow_add_r by lia. split; [lia|].
      apply Z.mul_lt_mono_nonneg; lia. }
    pose proof (binary_round_aux_bounded false (Z.pos (mx * my)) (ex + ey)
                  loc_Exact (Dx + Dy) ltac:(lia) Hm ltac:(lia)) as Hb.
    eapply bounded_float_weaken; [| |exact Hb]; lia.
Qed.

Lemma div_core_nonneg a b :
  0 < a -> 0 < b ->
  0 <= (SFdiv_core_binary PyFloat.prec PyFloat.emax a 0 b 0).1.1.
Proof.
  intros Ha Hb. unfold SFdiv_core_binary.
  set (s := 0 - 0 - _).
  set (m' := match s with
             | 0 => a
             | Z.pos _ => Z.shiftl a s
             | Z.neg _ => 0
             end).
  assert (Hm' : 0 <= m').
  { subst m'. destruct s as [|p|p] eqn:Es; try lia.
    apply Z.shiftl_nonneg. lia. }
  destruct (Z.div_eucl m' b) as [q r] eqn:Hdiv. simpl.
  assert (Hq : q = m' / b) by (unfold Z.div; rewrite Hdiv; reflexivity).
  subst q. apply Z.div_pos; lia.
Qed.

(** A quotient of two ints that does not raise is zero or finite. *)
Lemma int_truediv_finite a b x : PyFloat.int_truediv a b = Ok x -> is_finite x.
Proof.
  unfold PyFloat.int_truediv.
  destruct (Z.eq_dec b 0) as [->|Hb]; [discriminate|].
  destruct (Z.eq_dec a 0) as [->|Ha].
  { destruct b; try congruence; intros [= <-]; exact I. }
  pose proof (div_core_nonneg (Z.abs a) (Z.abs b) ltac:(lia) ltac:(lia)) as Hq.
  destruct (SFdiv_core_binary PyFloat.prec PyFloat.emax (Z.abs a) 0 (Z.abs b) 0)
    as [[q e] l].
  simpl in Hq.
  pose proof (binary_round_aux_not_nan (xorb (a <? 0) (b <? 0)) q e l Hq) as Hnan.
  destruct (binary_round_aux PyFloat.prec PyFloat.emax
              (xorb (a <? 0) (b <? 0)) q e l) as [s|s| |s m e2];
    destruct a, b; try congruence; intros [= <-]; exact I.
Qed.

Lemma mul_not_nan x y :
  is_finite x -> is_finite y -> PyFloat.mul x y <> S754_nan.
Proof.
  destruct x as [sx|sx| |sx mx ex], y as [sy|sy| |sy my ey];
    simpl; try contradiction; intros _ _; try discriminate.
  apply binary_round_aux_not_nan. lia.
Qed.

Lemma spec_rate_finite q : is_finite (spec_rate q).
Proof. destruct q; exact I. Qed.

Lemma trunc_mag_nonneg m e : 0 <= PyFloat.trunc_mag m e.
Proof.
  unfold PyFloat.trunc_mag. destruct (0 <=? e) eqn:E.
  - apply Z.leb_le in E. apply Z.mul_nonneg_nonneg; [lia|].
    apply Z.pow_nonneg. lia.
  - apply Z.leb_gt in E. apply Z.div_pos; [lia|].
    apply Z.pow_pos_nonneg; lia.
Qed.

Lemma to_int_floor x D E :
  bounded_float false D E x ->
  exists n, PyFloat.to_int x = Ok n /\ PyFloat.floor x = Some n /\ 0 <= n.
Proof.
  destruct x as [s|s| |s m e]; simpl; try contradiction.
  - intros _. exists 0. repeat split; lia.
  - intros (-> & _ & _). exists (PyFloat.trunc_mag m e).
    repeat split. apply trunc_mag_nonneg.
Qed.

Lemma SFcompare_antisym x y :
  SFcompare y x = CompOpp <$> SFcompare x y.
Proof.
  destruct x as [sx|sx| |sx mx ex], y as [sy|sy| |sy my ey]; simpl;
    try reflexivity;
    try (destruct sx; reflexivity); try (destruct sy; reflexivity);
    try (destruct sx, sy; reflexivity).
  pose proof (Pos.compare_cont_antisym mx my Eq) as Hm. simpl in Hm.
  destruct sx, sy; simpl; try reflexivity;
    rewrite (Z.compare_antisym ex ey); destruct (ex ?= ey); simpl;
    try reflexivity;
    rewrite <- Hm; destruct (Pos.compare_cont Eq mx my); reflexivity.
Qed.

Lemma gt_is_not_le x y :
  x <> S754_nan -> y <> S754_nan ->
  PyFloat.gt x y = negb (SFleb x y).
Proof.
  intros Hx Hy. unfold PyFloat.gt, SFltb, SFleb.
  rewrite (SFcompare_antisym x y).
  destruct (SFcompare x y) as [[| |]|] eqn:E; simpl; try reflexivity.
  exfalso. destruct x, y; simpl in E; try discriminate; congruence.
Qed.

(** ** Size estimates *)

Ltac run_bind := unfold mbind, result_bind; cbv beta iota.

Lemma of_int_1024 : PyFloat.of_int 1024 = S754_finite false 4503599627370496 (-42).
Proof. vm_compute. reflexivity. Qed.

Lemma render_size_amended size :
  size <> S754_nan ->
  render_size size = Ok (spec_render_amended size).
Proof.
  intros Hb. unfold render_size, spec_render_amended.
  rewrite (gt_is_not_le size (PyFloat.of_int 1024)).
  - destruct (SFleb size (PyFloat.of_int 1024)); simpl negb; cbv iota;
      [reflexivity|].
    unfold spec_render_gb, PyFloat.div. rewrite of_int_1024. reflexivity.
  - exact Hb.
  - rewrite of_int_1024. discriminate.
Qed.

Lemma estimate_unfold q d :
  d <> 0 ->
  estimate q d
  = (minutes ← PyFloat.int_truediv d 60;
     render_size (PyFloat.mul minutes (spec_rate q))).
Proof.
  intros Hd. destruct d as [|p|p]; [congruence| |]; destruct q; reflexivity.
Qed.

(** C5, as stated, fails at the boundary: 7680 seconds at 1080p are 128
    minutes at 8 MB, exactly 1024 MB, which is not below 1024 and should
    read "~1.0 GB"; the estimator answers "~1024 MB". *)
Lemma estimate_at_1024_is_mb :
  PyFloat.int_truediv 7680 60 = Ok (PyFloat.of_int 128)
  /\ PyFloat.mul (PyFloat.of_int 128) (spec_rate T1080p) = PyFloat.of_int 1024
  /\ spec_render_stated (PyFloat.of_int 1024) = "~1.0 GB"
  /\ _estimate_file_size (Some 7680) 1080 = Ok "~1024 MB"
  /\ estimate T1080p 7680
     <> Ok (spec_render_stated (PyFloat.mul (PyFloat.of_int 128) (spec_rate T1080p))).
Proof.
  repeat split; try (vm_compute; reflexivity).
  vm_compute. intros H. discriminate H.
Qed.

(** C5, amended: for every positive duration and each tier, the estimate
    is the duration in minutes times the rate of the tier (8, 5, 3, 2.4 MB
    per minute), rendered "~N MB" when that size is at most 1024 and
    "~N.N GB" when it is above 1024; the quotient by 60 raises only for a
    duration that no float can hold, and never below 2^63 seconds.
    600 s at 720 gives "~50 MB", 7200 s at 1080 gives "~960 MB" and
    13320 s at 1080 gives "~1.7 GB". *)
Theorem estimate_size_correct :
  (forall (q : tier) (duration : Z), 0 < duration ->
     estimate q duration
     = (minutes ← PyFloat.int_truediv duration 60;
        Ok (spec_render_amended (PyFloat.mul minutes (spec_rate q)))))
  /\ (forall (q : tier) (duration : Z), 0 < duration < 2 ^ 63 ->
        exists minutes,
          PyFloat.int_truediv duration 60 = Ok minutes
          /\ estimate q duration
             = Ok (spec_render_amended (PyFloat.mul minutes (spec_rate q))))
  /\ _estimate_file_size (Some 600) 720 = Ok "~50 MB"
  /\ _estimate_file_size (Some 7200) 1080 = Ok "~960 MB"
  /\ _estimate_file_size (Some 13320) 1080 = Ok "~1.7 GB".
Proof.
  assert (Hgen : forall (q : tier) (duration : Z), 0 < duration ->
            estimate q duration
            = (minutes ← PyFloat.int_truediv duration 60;
               Ok (spec_render_amended (PyFloat.mul minutes (spec_rate q))))).
  { intros q duration Hd. rewrite estimate_unfold by lia.
    destruct (PyFloat.int_truediv duration 60) as [minutes|e] eqn:Hdiv;
      run_bind; [|reflexivity].
    apply render_size_amended, mul_not_nan.
    - eapply int_truediv_finite. exact Hdiv.
    - apply spec_rate_finite. }
  split; [exact Hgen|].
  split; [|repeat split; vm_compute; reflexivity].
  intros q duration Hd.
  destruct (int_truediv_bounded duration 60 ltac:(lia) ltac:(lia))
    as (minutes & Hdiv & _).
  exists minutes. split; [exact Hdiv|].
  rewrite Hgen by lia. rewrite Hdiv. reflexivity.
Qed.

Lemma estimate_size_correct_witness :
  exists minutes,
    PyFloat.int_truediv 7680 60 = Ok minutes
    /\ estimate T1080p 7680
       = Ok (spec_render_amended (PyFloat.mul minutes (spec_rate T1080p))).
Proof.
  apply (proj1 (proj2 estimate_size_correct) T1080p 7680). lia.
Defined.

(** ** The progress hook *)

Lemma update_task_lookup tm now task_id kwargs t :
  tasks tm !! task_id = Some t ->
  tasks (update_task tm now task_id kwargs) !! task_id
  = Some (set_updated_at (dict_update t kwargs) now).
Proof.
  intros Ht. unfold update_task. rewrite Ht. simpl. apply lookup_insert_eq.
Qed.

Lemma update_task_counter tm now task_id kwargs :
  active_downloads (update_task tm now task_id kwargs) = active_downloads tm
  /\ max_concurrent_downloads (update_task tm now task_id kwargs)
     = max_concurrent_downloads tm.
Proof.
  unfold update_task. destruct (tasks tm !! task_id); split; reflexivity.
Qed.

Lemma progress_after_update t p rest now :
  (forall kw, kw ∈ rest -> forall t', t_progress (set_kwarg t' kw) = t_progress t') ->
  t_progress (set_updated_at (dict_update t (progress_ p :: rest)) now) = p.
Proof.
  intros Hrest.
  assert (Hfold : forall l t0, (forall kw, kw ∈ l -> kw ∈ rest) ->
            t_progress (foldl set_kwarg t0 l) = t_progress t0).
  { induction l as [|kw l IH]; intros t0 Hl; [reflexivity|].
    simpl. rewrite IH.
    - apply Hrest, Hl. left.
    - intros kw' Hin. apply Hl. right. exact Hin. }
  unfold dict_update. simpl foldl.
  transitivity (t_progress (foldl set_kwarg (set_kwarg t (progress_ p)) rest)).
  - destruct (foldl set_kwarg (set_kwarg t (progress_ p)) rest). reflexivity.
  - rewrite Hfold by auto. destruct t. reflexivity.
Qed.

Lemma format_speed_ok speed : exists s, format_speed speed = Ok s.
Proof.
  unfold format_speed. destruct speed as [x|]; [|eauto].
  destruct (float_truthy x); [|eauto].
  replace (PyFloat.of_int (1024 * 1024))
    with (S754_finite false 4503599627370496 (-32)) by (vm_compute; reflexivity).
  rewrite of_int_1024. unfold PyFloat.div. run_bind.
  destruct (PyFloat.gt x _); [eauto|].
  destruct (PyFloat.gt x _); eauto.
Qed.

Lemma of_int_80_bounded : bounded_float false 53 (-46) (PyFloat.of_int 80).
Proof. vm_compute. repeat split; try reflexivity. intros H. discriminate H. Qed.

(** C7: on an event with status "downloading", a positive total of bytes
    and a count of downloaded bytes from 0 up to 2^63 - 1, the hook
    stores as the task's progress min(floor(downloaded / total * 80) + 15, 95)
    (the quotient and the product being the float operations of the
    program), a value between 15 and 95; on an event with status "finished"
    it stores 98. *)
Theorem progress_hook_progress (float_of_string : string -> option float)
    (tm : TaskManager) (now : datetime) (task_id : string) (t : Task)
    (d : progress_event) :
  tasks tm !! task_id = Some t ->
  (forall total downloaded,
     ev_status d = "downloading" ->
     ev_total_bytes d = Some total -> 0 < total ->
     ev_downloaded_bytes d = Some downloaded -> 0 <= downloaded < 2 ^ 63 ->
     exists ratio t',
       PyFloat.int_truediv downloaded total = Ok ratio
       /\ tasks (progress_hook float_of_string tm now task_id d) !! task_id = Some t'
       /\ spec_progress (PyFloat.mul ratio (PyFloat.of_int 80)) = Some (t_progress t')
       /\ 15 <= t_progress t' <= 95)
  /\ (ev_status d = "finished" ->
      exists t',
        tasks (progress_hook float_of_string tm now task_id d) !! task_id = Some t'
        /\ t_progress t' = 98).
Proof.
  intros Ht. split.
  - intros total downloaded Hst Htot Htot_range Hdl Hdl_range.
    destruct (int_truediv_bounded downloaded total Hdl_range Htot_range)
      as (ratio & Hdiv & Hb).
    pose proof (mul_bounded ratio (PyFloat.of_int 80) 64 126 53 (-46)
                  ltac:(lia) ltac:(lia) Hb of_int_80_bounded ltac:(lia)) as Hmul.
    destruct (to_int_floor _ _ _ Hmul) as (n & Hint & Hfloor & Hn).
    destruct (format_speed_ok (ev_speed d)) as (speed_str & Hspeed).
    exists ratio.
    unfold progress_hook, on_downloading, has_total_bytes.
    rewrite Hst, Htot, Hdl. simpl String.eqb. cbv iota.
    destruct (Z.eqb_spec total 0) as [E|_]; [lia|].
    unfold getitem. run_bind. rewrite Hdiv. run_bind.
    rewrite Hint. run_bind. rewrite Hspeed. run_bind.
    eexists. split; [reflexivity|]. split; [apply update_task_lookup, Ht|].
    rewrite progress_after_update.
    + unfold spec_progress. rewrite Hfloor. simpl. split; [reflexivity|lia].
    + intros kw Hin t'. destruct t'.
      repeat (apply elem_of_cons in Hin as [->|Hin]; [reflexivity|]).
      inversion Hin.
  - intros Hst. unfold progress_hook. rewrite Hst. simpl String.eqb. cbv iota.
    eexists. split; [apply update_task_lookup, Ht|].
    apply progress_after_update.
    intros kw Hin t'. destruct t'.
    repeat (apply elem_of_cons in Hin as [->|Hin]; [reflexivity|]).
    inversion Hin.
Qed.

Example progress_hook_half :
  t_progress <$>
    (tasks (progress_hook (fun _ => None) sample_tasks 1 "b" sample_downloading) !! "b")
  = Some 55.
Proof. vm_compute. reflexivity. Qed.

Lemma progress_hook_progress_witness :
  (exists t',
     tasks (progress_hook (fun _ => None) sample_tasks 1 "b" sample_downloading) !! "b"
     = Some t' /\ 15 <= t_progress t' <= 95)
  /\ (exists t',
        tasks (progress_hook (fun _ => None) sample_tasks 1 "b" sample_finished) !! "b"
        = Some t' /\ t_progress t' = 98).
Proof.
  split.
  - destruct (proj1 (progress_hook_progress (fun _ => None) sample_tasks 1 "b"
                       (sample_task "b" PROCESSING 0) sample_downloading eq_refl)
                1000 500 eq_refl eq_refl ltac:(lia) eq_refl ltac:(lia))
      as (ratio & t' & _ & Hlook & _ & Hrange).
    exists t'. split; assumption.
  - apply (proj2 (progress_hook_progress (fun _ => None) sample_tasks 1 "b"
                    (sample_task "b" PROCESSING 0) sample_finished eq_refl)).
    reflexivity.
Defined.

(** ** The admission counter under concurrent jobs *)

Lemma total_insert f js i x y :
  js !! i = Some x -> total f (<[i := y]> js) = total f js - f x + f y.
Proof.
  revert i. induction js as [|j js IH]; intros i Hi; [discriminate|].
  destruct i as [|i]; simpl in *.
  - injection Hi as ->. lia.
  - rewrite (IH i Hi). lia.
Qed.

Lemma total_le_at f g js i x :
  (forall j, 0 <= f j <= g j) -> js !! i = Some x ->
  0 <= total f js - f x <= total g js - g x.
Proof.
  intros Hfg. revert i.
  assert (Hall : forall l, 0 <= total f l <= total g l).
  { induction l as [|j l IH]; simpl; [lia|]. specialize (Hfg j). lia. }
  induction js as [|j js IH]; intros i Hi; [discriminate|].
  destruct i as [|i]; simpl in *.
  - injection Hi as ->. specialize (Hall js). lia.
  - specialize (IH i Hi). specialize (Hfg j). lia.
Qed.

Lemma counted_le_holds j : 0 <= counted j <= holds_semaphore j.
Proof. unfold counted, holds_semaphore. destruct (at_pc j); lia. Qed.

Lemma total_replicate_zero f n j : f j = 0 -> total f (replicate n j) = 0.
Proof. intros Hj. induction n as [|n IH]; simpl; lia. Qed.

Lemma invariant_initial n : invariant (initial n).
Proof.
  unfold invariant, initial. simpl.
  rewrite !total_replicate_zero by reflexivity.
  repeat split; try lia.
  apply Forall_replicate. split; reflexivity.
Qed.

Lemma invariant_step s i a s' :
  invariant s -> step s i a = Some s' -> invariant s'.
Proof.
  intros (Hmax & Hsem & Hsem0 & Hact & Hjobs). unfold step.
  destruct (jobs s !! i) as [j|] eqn:Hj; [|discriminate].
  pose proof (Forall_lookup_1 _ _ _ _ Hjobs Hj) as Hok.
  pose proof (total_le_at counted holds_semaphore _ _ _ counted_le_holds Hj) as Hle.
  destruct (job_step (task_manager s) (download_semaphore s) j a)
    as [[[tm' sem'] j']|] eqn:Hstep; [|discriminate].
  intros [= <-]. unfold invariant. simpl.
  rewrite !(total_insert _ _ _ j j' Hj).
  assert (Hins : job_ok j' -> Forall job_ok (<[i := j']> (jobs s)))
    by (intros H; apply Forall_insert; assumption).
  set (C := total counted (jobs s)) in *.
  set (H := total holds_semaphore (jobs s)) in *.
  clearbody C H. clear Hj Hjobs.
  destruct j as [pcj ij dj].
  unfold job_step, can_start_download in Hstep.
  unfold job_ok, counted, holds_semaphore in *. simpl in Hstep, Hok, Hle.
  destruct pcj; try contradiction.
  - (* Queued *)
    destruct (Z.ltb_spec 0 (download_semaphore s)); [|discriminate].
    injection Hstep as <- <- <-. simpl. repeat split; try lia.
    apply Hins. exact Hok.
  - (* Polling *)
    destruct (Z.ltb_spec (active_downloads (task_manager s))
                (max_concurrent_downloads (task_manager s))).
    + injection Hstep as <- <- <-. simpl. repeat split; try lia.
      apply Hins. exact Hok.
    + exfalso. lia.
  - (* Granted *)
    injection Hstep as <- <- <-. simpl. repeat split; try lia.
    apply Hins. simpl. lia.
  - (* Downloading *)
    destruct a; injection Hstep as <- <- <-; simpl;
      (repeat split; try lia; apply Hins; exact Hok).
  - (* Finishing *)
    injection Hstep as <- <- <-. simpl. repeat split; try lia.
    apply Hins. simpl. lia.
  - (* Releasing *)
    injection Hstep as <- <- <-. simpl. repeat split; try lia.
    apply Hins. exact Hok.
  - (* Done *) discriminate.
Qed.

Lemma invariant_run schedule : forall s s',
  invariant s -> run s schedule = Some s' -> invariant s'.
Proof.
  induction schedule as [|[i a] rest IH]; intros s s' Hinv Hrun; simpl in Hrun.
  - injection Hrun as <-. exact Hinv.
  - destruct (step s i a) as [s1|] eqn:Hstep; [|discriminate].
    eapply IH; [|exact Hrun]. eapply invariant_step; eassumption.
Qed.

Lemma total_all_zero f js :
  (forall j, j ∈ js -> f j = 0) -> total f js = 0.
Proof.
  induction js as [|j js IH]; intros H; simpl; [reflexivity|].
  rewrite (H j) by left. rewrite IH; [reflexivity|].
  intros j' Hin. apply H. right. exact Hin.
Qed.

(** C1: whatever the number of jobs running [download_video_async] and
    however their steps interleave, the count of active downloads stays
    between 0 and the cap of 3.  A job that has ended, by returning or by
    raising, has called the increment once and the decrement once; no job
    decrements before it has incremented or decrements twice; a job inside
    the guarded block can always take its next step; and once all jobs have
    ended the count is back at 0 and the semaphore back at 3. *)
Theorem active_downloads_bounded (n : nat) (schedule : list (nat * await))
    (s : system) :
  run (initial n) schedule = Some s ->
  (0 <= active_downloads (task_manager s) <= max_concurrent_downloads (task_manager s)
   /\ max_concurrent_downloads (task_manager s) = 3)
  /\ (forall i j, jobs s !! i = Some j ->
        0 <= decrements j <= increments j /\ increments j <= 1
        /\ (forall o, at_pc j = Done o -> increments j = 1 /\ decrements j = 1)
        /\ (at_pc j <> Queued -> (forall o, at_pc j <> Done o) ->
            forall a, is_Some (step s i a)))
  /\ ((forall j, j ∈ jobs s -> exists o, at_pc j = Done o) ->
      active_downloads (task_manager s) = 0 /\ download_semaphore s = 3).
Proof.
  intros Hrun.
  pose proof (invariant_run schedule _ _ (invariant_initial n) Hrun)
    as (Hmax & Hsem & Hsem0 & Hact & Hjobs).
  assert (Hall : forall l, 0 <= total counted l <= total holds_semaphore l).
  { induction l as [|j l IH]; simpl; [lia|].
    pose proof (counted_le_holds j). lia. }
  specialize (Hall (jobs s)).
  split; [lia|]. split.
  - intros i j Hj.
    pose proof (Forall_lookup_1 _ _ _ _ Hjobs Hj) as Hok.
    unfold job_ok in Hok.
    repeat split.
    + destruct (at_pc j); lia.
    + destruct (at_pc j); lia.
    + destruct (at_pc j); lia.
    + rewrite H in Hok. lia.
    + rewrite H in Hok. lia.
    + intros Hq Hd a. unfold step. rewrite Hj. unfold job_step.
      destruct (at_pc j) eqn:Hpc; try contradiction.
      * destruct (can_start_download (task_manager s)); eauto.
      * eauto.
      * destruct a; eauto.
      * eauto.
      * eauto.
      * exfalso. eapply Hd. reflexivity.
  - intros Hdone.
    rewrite Hact, Hsem.
    rewrite (total_all_zero counted), (total_all_zero holds_semaphore).
    + lia.
    + intros j Hin. destruct (Hdone j Hin) as [o Ho].
      unfold holds_semaphore. rewrite Ho. reflexivity.
    + intros j Hin. destruct (Hdone j Hin) as [o Ho].
      unfold counted. rewrite Ho. reflexivity.
Qed.

Lemma active_downloads_bounded_witness :
  run (initial 2) sample_schedule = Some sample_final
  /\ 0 <= active_downloads (task_manager sample_final) <= 3
  /\ (forall i j, jobs sample_final !! i = Some j ->
        increments j = 1 /\ decrements j = 1).
Proof.
  destruct (active_downloads_bounded 2 sample_schedule sample_final eq_refl)
    as [[H1 H2] [Hjobs _]].
  split; [reflexivity|]. split; [lia|].
  intros i j Hj. destruct (Hjobs i j Hj) as (_ & _ & Hdone & _).
  destruct i as [|[|i]]; simpl in Hj; try discriminate;
    injection Hj as <-; eapply Hdone; reflexivity.
Defined.

(** ** Ages: the float comparison at the boundary *)

(** [total_seconds()] is the quotient of the microseconds by 10^6, rounded
    to a float; compared with 7200, 3600, 1800 and 600 it is greater from
    one microsecond past the boundary on, as [older_than] says. *)
Example total_seconds_at_boundary :
  Forall (fun n =>
    (x ← PyFloat.int_truediv (n * 1000000 + 1) 1000000;
     Ok (PyFloat.gt x (PyFloat.of_int n))) = Ok (older_than (n * 1000000 + 1) n)
    /\ (x ← PyFloat.int_truediv (n * 1000000) 1000000;
        Ok (PyFloat.gt x (PyFloat.of_int n))) = Ok (older_than (n * 1000000) n)
    /\ older_than (n * 1000000 + 1) n = true
    /\ older_than (n * 1000000) n = false)
  [7200; 3600; 1800; 600].
Proof. repeat constructor; vm_compute; reflexivity. Qed.

(** ** Evaluations *)

Example literals :
  PyFloat.int_truediv 12 5 = Ok PyFloat.lit_2_4
  /\ PyFloat.int_truediv 4 5 = Ok lit_0_8.
Proof. split; vm_compute; reflexivity. Qed.

Example format_f_samples :
  PyFloat.format_f 0 (PyFloat.of_int 50) = "50"
  /\ (x ← PyFloat.int_truediv 1 2; Ok (PyFloat.format_f 0 x)) = Ok "0"
  /\ (x ← PyFloat.int_truediv 3 2; Ok (PyFloat.format_f 0 x)) = Ok "2"
  /\ (x ← PyFloat.int_truediv 5 2; Ok (PyFloat.format_f 0 x)) = Ok "2"
  /\ (x ← PyFloat.int_truediv 35 100; Ok (PyFloat.format_f 1 x)) = Ok "0.3"
  /\ (x ← PyFloat.int_truediv 1 4; Ok (PyFloat.format_f 1 x)) = Ok "0.2"
  /\ (x ← PyFloat.int_truediv (-3) 10; Ok (PyFloat.format_f 0 x)) = Ok "-0"
  /\ (x ← PyFloat.int_truediv (2 ^ 64 + 3) 7; Ok x)
     = Ok (S754_finite false 5146971002709138 9).
Proof. repeat split; vm_compute; reflexivity. Qed.

Example audio_estimate : _estimate_audio_size (Some 600) = Ok "~24 MB".
Proof. vm_compute. reflexivity. Qed.

Example valid_urls :
  Forall (fun url => is_valid_youtube_url url = true)
    [ "https://www.youtube.com/watch?v=dQw4w9WgXcQ";
      "http://youtube.com/watch?v=dQw4w9WgXcQ&t=10";
      "https://youtu.be/dQw4w9WgXcQ";
      "https://m.youtube.com/watch?v=dQw4w9WgXcQ";
      "https://www.youtube.com/embed/dQw4w9WgXcQ";
      "https://www.youtube.com/v/dQw4w9WgXcQ";
      "https://www.youtube.com/shorts/dQw4w9WgXcQ" ].
Proof. repeat constructor. Qed.

Example invalid_urls :
  Forall (fun url => is_valid_youtube_url url = false)
    [ ""; "youtube.com/watch?v=dQw4w9WgXcQ"; "https://vimeo.com/1234";
      "https://www.youtube.com/watch?v="; "https://www.youtube.com/playlist?list=PL1";
      "ftp://youtu.be/dQw4w9WgXcQ"; " https://youtu.be/dQw4w9WgXcQ" ].
Proof. repeat constructor. Qed.

Example extract_valid_url :
  extract_video_info (fun _ => inr tt) "  https://youtu.be/dQw4w9WgXcQ  "
  = (["https://youtu.be/dQw4w9WgXcQ"], Success tt).
Proof. reflexivity. Qed.

Example extract_blocked :
  extract_video_info (VideoInfo := unit)
    (fun _ => inl "YouTube is blocking requests. Please try again in a few minutes.")
    "https://youtu.be/dQw4w9WgXcQ"
  = (["https://youtu.be/dQw4w9WgXcQ"],
     HTTPException 429
       "YouTube is temporarily blocking requests. Please try again in a few minutes.").
Proof. reflexivity. Qed.

(** ** The task registry: create, update, sweep *)

Lemma set_kwarg_get k t kw :
  task_get k (set_kwarg t kw)
  = if decide (kwarg_key kw = k) then kwarg_value kw else task_get k t.
Proof. destruct t, kw, k; reflexivity. Qed.

Lemma set_kwarg_fixed t kw :
  fixed_part (set_kwarg t kw) = fixed_part t
  /\ t_updated_at (set_kwarg t kw) = t_updated_at t.
Proof. destruct t, kw; split; reflexivity. Qed.

Lemma dict_update_snoc t kwargs kw :
  dict_update t (kwargs ++ [kw]) = set_kwarg (dict_update t kwargs) kw.
Proof. unfold dict_update. rewrite foldl_app. reflexivity. Qed.

Lemma dict_update_get k kwargs : forall t,
  task_get k (dict_update t kwargs)
  = from_option kwarg_value (task_get k t) (last_for k kwargs).
Proof.
  induction kwargs as [|kw kwargs IH] using rev_ind; intros t; [reflexivity|].
  rewrite dict_update_snoc, set_kwarg_get. unfold last_for.
  rewrite filter_app.
  destruct (decide (kwarg_key kw = k)) as [E|E].
  - rewrite (filter_cons_True _ kw []) by exact E.
    rewrite filter_nil, last_snoc. reflexivity.
  - rewrite (filter_cons_False _ kw []) by exact E.
    rewrite filter_nil, app_nil_r. apply IH.
Qed.

Lemma dict_update_fixed kwargs : forall t,
  fixed_part (dict_update t kwargs) = fixed_part t
  /\ t_updated_at (dict_update t kwargs) = t_updated_at t.
Proof.
  induction kwargs as [|kw kwargs IH] using rev_ind; intros t; [split; reflexivity|].
  rewrite dict_update_snoc.
  destruct (set_kwarg_fixed (dict_update t kwargs) kw) as [-> ->]. apply IH.
Qed.

Lemma set_updated_at_get k t now :
  task_get k (set_updated_at t now) = task_get k t
  /\ fixed_part (set_updated_at t now) = fixed_part t
  /\ t_updated_at (set_updated_at t now) = now.
Proof. destruct t, k; repeat split. Qed.

Lemma with_tasks_same tm : with_tasks tm (tasks tm) = tm.
Proof. destruct tm. reflexivity. Qed.

(** X1: [update_task] on an unknown id changes nothing.  On a known id it
    stores, under every key, the value of the last keyword argument given
    for that key and keeps the old value of a key that is not given; it
    sets [updated_at] to the current time, and leaves the id, URL, format,
    quality, creation time, file size and retry fields, every other task
    and the counter as they were. *)
Theorem update_task_effect (tm : TaskManager) (now : datetime)
    (task_id : string) (kwargs : list kwarg) :
  (tasks tm !! task_id = None -> update_task tm now task_id kwargs = tm)
  /\ (forall t, tasks tm !! task_id = Some t ->
        exists t',
          tasks (update_task tm now task_id kwargs) !! task_id = Some t'
          /\ (forall k, task_get k t'
                        = from_option kwarg_value (task_get k t) (last_for k kwargs))
          /\ t_updated_at t' = now
          /\ fixed_part t' = fixed_part t)
  /\ (forall other, other <> task_id ->
        tasks (update_task tm now task_id kwargs) !! other = tasks tm !! other)
  /\ active_downloads (update_task tm now task_id kwargs) = active_downloads tm.
Proof.
  split; [|split; [|split]].
  - intros Hnone. unfold update_task. rewrite Hnone. reflexivity.
  - intros t Ht. eexists. split; [apply update_task_lookup, Ht|].
    destruct (set_updated_at_get k_status (dict_update t kwargs) now)
      as (_ & Hfix & Hnow).
    split; [|split; [exact Hnow|]].
    + intros k.
      rewrite (proj1 (set_updated_at_get k (dict_update t kwargs) now)).
      apply dict_update_get.
    + rewrite Hfix. apply dict_update_fixed.
  - intros other Hne. unfold update_task.
    destruct (tasks tm !! task_id); [|reflexivity].
    simpl. apply lookup_insert_ne. congruence.
  - apply update_task_counter.
Qed.

Lemma update_task_effect_witness :
  exists t',
    tasks (update_task sample_tasks 5 "b" [progress_ 10; message_ "x"; progress_ 20])
      !! "b" = Some t'
    /\ task_get k_progress t' = VInt 20
    /\ task_get k_status t' = VStatus PROCESSING
    /\ t_updated_at t' = 5.
Proof.
  destruct (proj1 (proj2 (update_task_effect sample_tasks 5 "b"
                            [progress_ 10; message_ "x"; progress_ 20]))
              (sample_task "b" PROCESSING 0) eq_refl)
    as (t' & Hlook & Hget & Hnow & _).
  exists t'. split; [exact Hlook|].
  split; [rewrite Hget; reflexivity|].
  split; [rewrite Hget; reflexivity|exact Hnow].
Defined.

Lemma set_kwarg_updated_at t kw a :
  set_kwarg (set_updated_at t a) kw = set_updated_at (set_kwarg t kw) a.
Proof. destruct t, kw; reflexivity. Qed.

Lemma dict_update_updated_at kwargs : forall t a,
  dict_update (set_updated_at t a) kwargs = set_updated_at (dict_update t kwargs) a.
Proof.
  induction kwargs as [|kw kwargs IH] using rev_ind; intros t a; [reflexivity|].
  rewrite !dict_update_snoc, IH. apply set_kwarg_updated_at.
Qed.

(** X2: two updates of a task in a row are one update with the keyword
    arguments of the first followed by those of the second, at the time of
    the second: nothing the first update stored is lost unless the second
    stores the same key. *)
Theorem update_task_twice (tm : TaskManager) (now1 now2 : datetime)
    (task_id : string) (kwargs1 kwargs2 : list kwarg) :
  update_task (update_task tm now1 task_id kwargs1) now2 task_id kwargs2
  = update_task tm now2 task_id (kwargs1 ++ kwargs2).
Proof.
  unfold update_task at 2 3.
  destruct (tasks tm !! task_id) as [t|] eqn:Ht.
  - unfold update_task. simpl. rewrite lookup_insert_eq.
    unfold with_tasks. simpl. f_equal.
    rewrite insert_insert_eq. f_equal.
    rewrite dict_update_updated_at.
    unfold dict_update. rewrite foldl_app.
    destruct (foldl set_kwarg (foldl set_kwarg t kwargs1) kwargs2). reflexivity.
  - unfold update_task. rewrite Ht. reflexivity.
Qed.

(** X3: [create_task] stores a fresh record whatever was there: after it the
    task reads as pending with progress 0, no file, no error, its creation
    time at the first reading of the clock and its update time at the
    second, and a retry budget of 5; a record already stored under the id
    is replaced (creating twice is creating once, the last one); the other
    tasks and the counter are untouched. *)
Theorem create_task_fresh (tm : TaskManager) (now_created now_updated : datetime)
    (task_id url format_id quality : string) :
  (exists t,
     get_task
       (create_task tm now_created now_updated task_id url format_id quality)
       task_id = Some t
     /\ t_status t = PENDING /\ t_progress t = 0
     /\ t_message t = "Task created"
     /\ (t_filename t, t_download_url t, t_error t) = (None, None, None)
     /\ t_created_at t = now_created
     /\ t_updated_at t = now_updated
     /\ (t_retry_count t, t_max_retries t) = (0, 5)
     /\ (t_id t, t_url t, t_format_id t, t_quality t)
        = (task_id, url, format_id, quality))
  /\ (forall created0 updated0 url0 format_id0 quality0,
        create_task
          (create_task tm created0 updated0 task_id url0 format_id0 quality0)
          now_created now_updated task_id url format_id quality
        = create_task tm now_created now_updated task_id url format_id quality)
  /\ (forall other, other <> task_id ->
        get_task
          (create_task tm now_created now_updated task_id url format_id quality)
          other
        = get_task tm other)
  /\ active_downloads
       (create_task tm now_created now_updated task_id url format_id quality)
     = active_downloads tm.
Proof.
  split; [|split; [|split]].
  - eexists. split; [apply lookup_insert_eq|]. repeat split.
  - intros. unfold create_task, with_tasks. simpl. f_equal.
    apply insert_insert_eq.
  - intros other Hne. unfold get_task, create_task. simpl.
    apply lookup_insert_ne. congruence.
  - reflexivity.
Qed.

Lemma task_is_stale_later tm now now' t :
  now <= now' -> task_is_stale tm now t = true -> task_is_stale tm now' t = true.
Proof. rewrite !task_is_stale_spec. intros Hle [Hs Hage]. split; [exact Hs|lia]. Qed.

Lemma TaskManager_eq tm1 tm2 :
  (forall i, tasks tm1 !! i = tasks tm2 !! i) ->
  cleanup_interval tm1 = cleanup_interval tm2 ->
  max_concurrent_downloads tm1 = max_concurrent_downloads tm2 ->
  active_downloads tm1 = active_downloads tm2 ->
  tm1 = tm2.
Proof.
  destruct tm1, tm2. simpl. intros Hm -> -> ->. f_equal. apply map_eq, Hm.
Qed.

(** X4: sweeps of the task registry compose: a sweep at a time followed by
    a sweep at a later time leaves what the later sweep alone leaves; in
    particular sweeping twice at the same time is sweeping once. *)
Theorem cleanup_old_tasks_compose (tm : TaskManager) (now now' : datetime) :
  now <= now' ->
  cleanup_old_tasks (cleanup_old_tasks tm now) now' = cleanup_old_tasks tm now'.
Proof.
  intros Hle. apply TaskManager_eq; try reflexivity.
  intros i. rewrite !cleanup_old_tasks_lookup.
  destruct (tasks tm !! i) as [t|]; [|reflexivity].
  destruct (task_is_stale tm now t) eqn:E.
  - rewrite (task_is_stale_later tm now now' t Hle E). reflexivity.
  - reflexivity.
Qed.

Lemma cleanup_old_tasks_compose_witness :
  cleanup_old_tasks (cleanup_old_tasks sample_tasks 7200000001) 7200000001
  = cleanup_old_tasks sample_tasks 7200000001.
Proof. apply cleanup_old_tasks_compose. lia. Defined.

(** ** More on the admission counter under concurrent jobs *)

Lemma total_ge_at f js i x :
  (forall j, 0 <= f j) -> js !! i = Some x -> f x <= total f js.
Proof.
  intros Hf. revert i.
  assert (Hall : forall l, 0 <= total f l).
  { induction l as [|j l IH]; simpl; [lia|]. specialize (Hf j). lia. }
  induction js as [|j js IH]; intros i Hi; [discriminate|].
  destruct i as [|i]; simpl in *.
  - injection Hi as ->. specialize (Hall js). lia.
  - specialize (IH i Hi). specialize (Hf j). lia.
Qed.

(** X5: the waiting loop of [download_video_async] never runs: whenever a
    job tests [can_start_download()] the answer is yes (the semaphore has
    let in at most two other jobs), so no job ever reaches the sleep and no
    task is ever set back to "Waiting for download slot...". *)
Theorem waiting_loop_is_dead (n : nat) (schedule : list (nat * await))
    (s : system) :
  run (initial n) schedule = Some s ->
  forall i j, jobs s !! i = Some j ->
    at_pc j <> Sleeping
    /\ (at_pc j = Polling ->
        can_start_download (task_manager s) = true
        /\ active_downloads (task_manager s) <= 2).
Proof.
  intros Hrun i j Hj.
  pose proof (invariant_run schedule _ _ (invariant_initial n) Hrun)
    as (Hmax & Hsem & Hsem0 & Hact & Hjobs).
  pose proof (Forall_lookup_1 _ _ _ _ Hjobs Hj) as Hok.
  split.
  - intros Hs. unfold job_ok in Hok. rewrite Hs in Hok. exact Hok.
  - intros Hp.
    pose proof (total_le_at counted holds_semaphore _ _ _ counted_le_holds Hj) as Hle.
    assert (Hc : counted j = 0) by (unfold counted; rewrite Hp; reflexivity).
    assert (Hh : holds_semaphore j = 1)
      by (unfold holds_semaphore; rewrite Hp; reflexivity).
    rewrite Hc, Hh in Hle.
    unfold can_start_download. split; [apply Z.ltb_lt|]; lia.
Qed.

Lemma waiting_loop_is_dead_witness :
  run (initial 1) [(0%nat, Completes)] = Some sample_polling
  /\ can_start_download (task_manager sample_polling) = true.
Proof.
  split; [reflexivity|].
  apply (waiting_loop_is_dead 1 [(0%nat, Completes)] sample_polling eq_refl
           0%nat (mkJob Polling 0 0) eq_refl).
  reflexivity.
Defined.

(** X6: the counter is exact and the clamp of the decrement is never used:
    in every reachable state the counter is the number of jobs between
    their increment and their decrement, the semaphore value is 3 less the
    number of jobs inside the [async with] block, and a job about to run
    its [finally] finds the counter at 1 or more, so its decrement
    subtracts exactly 1. *)
Theorem counter_is_exact (n : nat) (schedule : list (nat * await))
    (s : system) :
  run (initial n) schedule = Some s ->
  active_downloads (task_manager s) = total counted (jobs s)
  /\ active_downloads (task_manager s)
     = total (fun j => increments j - decrements j) (jobs s)
  /\ download_semaphore s = 3 - total holds_semaphore (jobs s)
  /\ (forall i j o, jobs s !! i = Some j -> at_pc j = Finishing o ->
        1 <= active_downloads (task_manager s)
        /\ active_downloads (decrement_active_downloads (task_manager s))
           = active_downloads (task_manager s) - 1).
Proof.
  intros Hrun.
  pose proof (invariant_run schedule _ _ (invariant_initial n) Hrun)
    as (Hmax & Hsem & Hsem0 & Hact & Hjobs).
  split; [exact Hact|]. split; [|split; [exact Hsem|]].
  - rewrite Hact. clear -Hjobs.
    induction (jobs s) as [|j js IH]; [reflexivity|].
    apply Forall_cons in Hjobs as [Hj Hjs]. simpl. rewrite (IH Hjs).
    unfold job_ok in Hj. unfold counted. destruct (at_pc j); lia.
  - intros i j o Hj Hpc.
    pose proof (total_ge_at counted _ _ _
                  (fun j => proj1 (counted_le_holds j)) Hj) as Hge.
    assert (Hc : counted j = 1) by (unfold counted; rewrite Hpc; reflexivity).
    rewrite Hc in Hge.
    split; [lia|]. simpl. lia.
Qed.

Lemma counter_is_exact_witness :
  run (initial 1)
    [(0%nat, Completes); (0%nat, Completes); (0%nat, Completes); (0%nat, Raises)]
  = Some sample_finishing
  /\ 1 <= active_downloads (task_manager sample_finishing).
Proof.
  split; [reflexivity|].
  apply (proj2 (proj2 (proj2
           (counter_is_exact 1
              [(0%nat, Completes); (0%nat, Completes); (0%nat, Completes);
               (0%nat, Raises)]
              sample_finishing eq_refl)))
           0%nat (mkJob (Finishing Raised) 1 0) Raised eq_refl eq_refl).
Defined.

(** ** The file registry: reclaiming, serving, reaping *)

(** X7: [cleanup_file] always removes the record, also when removing the
    directory fails; the record's temporary directory is gone afterwards
    when it existed and [rmtree] succeeded, and stays when [rmtree] failed;
    no other record and no other directory is touched; on an unknown id
    nothing changes at all. *)
Theorem cleanup_file_effect (st : FileManager * FileSystem) (task_id : string) :
  _files (cleanup_file st task_id).1 !! task_id = None
  /\ (forall other, other <> task_id ->
        _files (cleanup_file st task_id).1 !! other = _files st.1 !! other)
  /\ (_files st.1 !! task_id = None -> cleanup_file st task_id = st)
  /\ (forall r, _files st.1 !! task_id = Some r ->
        (rmtree_succeeds st.2 (temp_dir r) = true ->
         temp_dir r ∉ dirs (cleanup_file st task_id).2)
        /\ (rmtree_succeeds st.2 (temp_dir r) = false ->
            (cleanup_file st task_id).2 = st.2)
        /\ (forall d, d <> temp_dir r ->
              d ∈ dirs (cleanup_file st task_id).2 <-> d ∈ dirs st.2)).
Proof.
  destruct (cleanup_file_files st task_id) as [Hfiles _].
  split; [|split; [|split]].
  - rewrite Hfiles. apply lookup_delete_eq.
  - intros other Hne. rewrite Hfiles. apply lookup_delete_ne. congruence.
  - intros Hnone. destruct st as [fm fs]. unfold cleanup_file.
    simpl in Hnone. rewrite Hnone. reflexivity.
  - intros r Hr. destruct st as [fm fs]. unfold cleanup_file, rmtree.
    simpl in *. rewrite Hr. simpl.
    split; [|split].
    + intros Hok. rewrite Hok.
      destruct (bool_decide (temp_dir r ∈ dirs fs)) eqn:E; simpl.
      * rewrite elem_of_difference, elem_of_singleton. tauto.
      * apply bool_decide_eq_false in E. exact E.
    + intros Hfail. rewrite Hfail.
      destruct (bool_decide (temp_dir r ∈ dirs fs)); reflexivity.
    + intros d Hd.
      destruct (bool_decide (temp_dir r ∈ dirs fs)); [|tauto].
      destruct (rmtree_succeeds fs (temp_dir r)); simpl; [|tauto].
      rewrite elem_of_difference, elem_of_singleton. tauto.
Qed.

Lemma cleanup_file_effect_witness :
  _files (cleanup_file (sample_files, sample_fs) "a").1 !! "a" = None
  /\ "/tmp/youtube_dl_long_x" ∉ dirs (cleanup_file (sample_files, sample_fs) "a").2.
Proof.
  split.
  - exact (proj1 (cleanup_file_effect (sample_files, sample_fs) "a")).
  - apply (proj1 (proj2 (proj2 (proj2
             (cleanup_file_effect (sample_files, sample_fs) "a")))
             (sample_record false) eq_refl)).
    reflexivity.
Defined.

Lemma download_file_missing fm disk task_id :
  get_file_info fm task_id = None ->
  download_file fm disk task_id
  = (fm, [], HTTPException 404 "File not found or expired").
Proof. intros H. unfold download_file. rewrite H. reflexivity. Qed.

(** X8: serving a file.  Without a record, or with a record whose file is
    no longer on disk, the answer is 404 and the registry is unchanged (the
    record is not marked).  Otherwise the record is marked as downloaded
    with its access count raised by one, the file is answered with the
    size it has on disk now as Content-Length, and one delayed reclaim of
    that task is scheduled; once that reclaim has run, the same request is
    answered 404. *)
Theorem download_file_lifecycle (fm : FileManager) (fs : FileSystem)
    (disk : string -> option Z) (task_id : string) :
  (get_file_info fm task_id = None ->
   download_file fm disk task_id
   = (fm, [], HTTPException 404 "File not found or expired"))
  /\ (forall r, get_file_info fm task_id = Some r ->
        (disk (file_path r) = None ->
         download_file fm disk task_id
         = (fm, [], HTTPException 404 "File not found on disk"))
        /\ (forall size, disk (file_path r) = Some size ->
              exists fm' resp,
                download_file fm disk task_id = (fm', [task_id], Success resp)
                /\ get_file_info fm' task_id = Some (mark_record r)
                /\ downloaded (mark_record r) = true
                /\ access_count (mark_record r) = access_count r + 1
                /\ fr_path resp = file_path r
                /\ ("Content-Length", pretty size) ∈ fr_headers resp
                /\ download_file (cleanup_file (fm', fs) task_id).1 disk task_id
                   = ((cleanup_file (fm', fs) task_id).1, [],
                      HTTPException 404 "File not found or expired"))).
Proof.
  split; [apply download_file_missing|].
  intros r Hr. unfold download_file. rewrite Hr. split.
  - intros Hd. rewrite Hd. reflexivity.
  - intros size Hd. rewrite Hd. eexists _, _. split; [reflexivity|].
    split.
    { unfold get_file_info in *. rewrite mark_downloaded_lookup, Hr.
      destruct (decide (task_id = task_id)); [reflexivity|congruence]. }
    repeat split.
    + simpl. rewrite !elem_of_cons. tauto.
    + fold (download_file (cleanup_file (mark_downloaded fm task_id, fs) task_id).1
              disk task_id).
      apply download_file_missing. unfold get_file_info.
      rewrite (proj1 (cleanup_file_files (mark_downloaded fm task_id, fs) task_id)).
      apply lookup_delete_eq.
Qed.

Lemma download_file_lifecycle_witness :
  exists fm' resp,
    download_file sample_files sample_disk "a" = (fm', ["a"], Success resp)
    /\ ("Content-Length", "1048576") ∈ fr_headers resp
    /\ download_file (cleanup_file (fm', sample_fs) "a").1 sample_disk "a"
       = ((cleanup_file (fm', sample_fs) "a").1, [],
          HTTPException 404 "File not found or expired").
Proof.
  destruct (proj2 (proj2 (download_file_lifecycle sample_files sample_fs
                            sample_disk "a")
                     (sample_record false) eq_refl)
              1048576 eq_refl)
    as (fm' & resp & Hd & _ & _ & _ & _ & Hlen & Hgone).
  exists fm', resp. split; [exact Hd|]. split; [exact Hlen|exact Hgone].
Defined.

Lemma cleanup_temp_files_turn_lookup st now p i :
  _files (cleanup_temp_files_turn st (now, p)).1 !! i
  = match _files st.1 !! i with
    | Some r => if file_is_old st.1 now r then None else Some r
    | None => None
    end.
Proof. unfold cleanup_temp_files_turn. simpl. apply cleanup_old_files_lookup. Qed.

Lemma cleanup_temp_files_turn_retention st now p :
  max_file_age (cleanup_temp_files_turn st (now, p)).1
  = if PyFloat.gt p (PyFloat.of_int 90) then 1800 else 3600.
Proof. reflexivity. Qed.

(** X9: the reaper.  Started with a retention of 1800 or 3600 seconds (3600
    at start-up), it only ever sets 1800 or 3600, whatever the disk usage
    reported at each turn; and through any number of turns it keeps every
    record that is not older than 600 seconds at any of them, and every
    record never downloaded that is not older than 1800 seconds at any of
    them. *)
Theorem cleanup_temp_files_keeps_young (turns : list (datetime * float)) :
  forall st : FileManager * FileSystem,
  retention_ok st.1 ->
  retention_ok (cleanup_temp_files st turns).1
  /\ (forall task_id r, _files st.1 !! task_id = Some r ->
        (Forall (fun turn => turn.1 - created_at r <= 600 * 1000000) turns ->
         _files (cleanup_temp_files st turns).1 !! task_id = Some r)
        /\ (downloaded r = false ->
            Forall (fun turn => turn.1 - created_at r <= 1800 * 1000000) turns ->
            _files (cleanup_temp_files st turns).1 !! task_id = Some r)).
Proof.
  induction turns as [|[now p] turns IH]; intros st Hret.
  - split; [exact Hret|]. intros task_id r Hr. split; intros; exact Hr.
  - assert (Hret' : retention_ok (cleanup_temp_files_turn st (now, p)).1).
    { unfold retention_ok. rewrite cleanup_temp_files_turn_retention.
      destruct (PyFloat.gt p (PyFloat.of_int 90)); [left|right]; reflexivity. }
    destruct (IH _ Hret') as [IHret IHkeep].
    split; [exact IHret|].
    intros task_id r Hr.
    assert (Hstep : ~ (max_file_age st.1 * 1000000 < now - created_at r
                       \/ (downloaded r = true
                           /\ 600 * 1000000 < now - created_at r)) ->
                    _files (cleanup_temp_files_turn st (now, p)).1 !! task_id
                    = Some r).
    { intros Hyoung. rewrite cleanup_temp_files_turn_lookup, Hr.
      destruct (file_is_old st.1 now r) eqn:E; [|reflexivity].
      exfalso. apply Hyoung, file_is_old_spec, E. }
    split.
    + intros Hall. apply Forall_cons in Hall as [Hnow Hall]. simpl in Hnow.
      assert (Hr' : _files (cleanup_temp_files_turn st (now, p)).1 !! task_id
                    = Some r).
      { apply Hstep. destruct Hret as [E|E]; rewrite E; lia. }
      simpl. exact (proj1 (IHkeep task_id r Hr') Hall).
    + intros Hd Hall. apply Forall_cons in Hall as [Hnow Hall]. simpl in Hnow.
      assert (Hr' : _files (cleanup_temp_files_turn st (now, p)).1 !! task_id
                    = Some r).
      { apply Hstep. rewrite Hd. destruct Hret as [E|E]; rewrite E;
          intros [H|[H _]]; try discriminate; lia. }
      simpl. exact (proj2 (IHkeep task_id r Hr') Hd Hall).
Qed.

Lemma cleanup_temp_files_keeps_young_witness :
  _files (cleanup_temp_files (sample_files, sample_fs)
            [(600000000, PyFloat.of_int 95); (1800000000, PyFloat.of_int 95)]).1
    !! "a"
  = Some (sample_record false).
Proof.
  apply (proj2 (cleanup_temp_files_keeps_young
                  [(600000000, PyFloat.of_int 95); (1800000000, PyFloat.of_int 95)]
                  (sample_files, sample_fs) (or_intror eq_refl))
           "a" (sample_record false) eq_refl).
  - reflexivity.
  - repeat constructor; simpl; lia.
Defined.

(** X10: disk pressure acts one turn late.  A record never downloaded
    that is still there after one turn of the reaper, however old it is
    by then, and that is between 1800 and 3600 seconds old at the next
    turn, is reclaimed at that next turn exactly when the first of the two
    turns saw the disk above 90 percent; what the second turn sees does
    not matter for it, nor does the retention the reaper started with. *)
Theorem disk_pressure_acts_next_turn (st : FileManager * FileSystem)
    (now1 now2 : datetime) (p1 p2 : float) (task_id : string) (r : FileRecord) :
  _files (cleanup_temp_files_turn st (now1, p1)).1 !! task_id = Some r ->
  downloaded r = false ->
  1800 * 1000000 < now2 - created_at r <= 3600 * 1000000 ->
  _files (cleanup_temp_files st [(now1, p1); (now2, p2)]).1 !! task_id
  = if PyFloat.gt p1 (PyFloat.of_int 90) then None else Some r.
Proof.
  intros H1 Hd Hage2.
  change (cleanup_temp_files st [(now1, p1); (now2, p2)])
    with (cleanup_temp_files_turn (cleanup_temp_files_turn st (now1, p1)) (now2, p2)).
  rewrite cleanup_temp_files_turn_lookup, H1.
  destruct (file_is_old (cleanup_temp_files_turn st (now1, p1)).1 now2 r) eqn:E.
  - apply file_is_old_spec in E.
    rewrite cleanup_temp_files_turn_retention, Hd in E.
    destruct (PyFloat.gt p1 (PyFloat.of_int 90)); [reflexivity|].
    destruct E as [E|[E _]]; try discriminate; lia.
  - destruct (PyFloat.gt p1 (PyFloat.of_int 90)) eqn:G; [|reflexivity].
    exfalso.
    assert (file_is_old (cleanup_temp_files_turn st (now1, p1)).1 now2 r = true).
    { apply file_is_old_spec. rewrite cleanup_temp_files_turn_retention, G.
      left. lia. }
    congruence.
Qed.

Lemma disk_pressure_acts_next_turn_witness :
  _files (cleanup_temp_files (sample_files, sample_fs)
            [(2500000000, PyFloat.of_int 95); (2620000000, PyFloat.of_int 10)]).1
    !! "a"
  = None.
Proof.
  apply (disk_pressure_acts_next_turn (sample_files, sample_fs)
           2500000000 2620000000 (PyFloat.of_int 95) (PyFloat.of_int 10)
           "a" (sample_record false)).
  - rewrite cleanup_temp_files_turn_lookup. reflexivity.
  - reflexivity.
  - simpl. lia.
Defined.

(** ** Strings *)

Lemma app_cons_s (c : ascii) (a b : string) : String c a +:+ b = String c (a +:+ b).
Proof. reflexivity. Qed.

Lemma app_nil_l_s (b : string) : "" +:+ b = b.
Proof. reflexivity. Qed.

Lemma app_nil_r_s (s : string) : s +:+ "" = s.
Proof.
  induction s as [|c s IH]; [reflexivity|]. rewrite app_cons_s, IH. reflexivity.
Qed.

Lemma app_assoc_s (a b c : string) : (a +:+ b) +:+ c = a +:+ (b +:+ c).
Proof.
  induction a as [|x a IH]; [reflexivity|]. rewrite !app_cons_s, IH. reflexivity.
Qed.

Lemma app_length_s (a b : string) :
  String.length (a +:+ b) = (String.length a + String.length b)%nat.
Proof.
  induction a as [|x a IH]; [reflexivity|]. rewrite app_cons_s. simpl.
  rewrite IH. reflexivity.
Qed.

Lemma app_inj_r (r : string) : forall a b : string, a +:+ r = b +:+ r -> a = b.
Proof.
  induction a as [|x a IH]; intros [|y b] H.
  - reflexivity.
  - apply (f_equal String.length) in H.
    rewrite app_nil_l_s, app_cons_s in H. simpl in H.
    rewrite app_length_s in H. lia.
  - apply (f_equal String.length) in H.
    rewrite app_nil_l_s, app_cons_s in H. simpl in H.
    rewrite app_length_s in H. lia.
  - rewrite !app_cons_s in H. injection H as -> H. f_equal. apply IH. exact H.
Qed.

Lemma rev_app_acc (a : string) : forall acc,
  String.rev_app a acc = String.rev a +:+ acc.
Proof.
  unfold String.rev. induction a as [|x a IH]; intros acc; simpl; [reflexivity|].
  rewrite (IH (String x acc)), (IH (String x "")), app_assoc_s. reflexivity.
Qed.

Lemma rev_cons_s (x : ascii) (a : string) :
  String.rev (String x a) = String.rev a +:+ String x "".
Proof. unfold String.rev at 1. simpl. apply rev_app_acc. Qed.

Lemma rev_app_s (a b : string) : String.rev (a +:+ b) = String.rev b +:+ String.rev a.
Proof.
  induction a as [|x a IH].
  - rewrite app_nil_l_s. change (String.rev "") with "".
    rewrite app_nil_r_s. reflexivity.
  - rewrite app_cons_s, !rev_cons_s, IH, app_assoc_s. reflexivity.
Qed.

Lemma rev_rev_s (s : string) : String.rev (String.rev s) = s.
Proof.
  induction s as [|x s IH]; [reflexivity|].
  rewrite rev_cons_s, rev_app_s, IH. reflexivity.
Qed.

Lemma slash_free_app (a b : string) :
  slash_free (a +:+ b) = slash_free a && slash_free b.
Proof.
  induction a as [|x a IH]; [reflexivity|]. rewrite app_cons_s. simpl.
  rewrite IH, andb_assoc. reflexivity.
Qed.

Lemma slash_free_rev (s : string) : slash_free (String.rev s) = slash_free s.
Proof.
  induction s as [|x s IH]; [reflexivity|].
  rewrite rev_cons_s, slash_free_app, IH. simpl.
  rewrite andb_true_r. apply andb_comm.
Qed.

Lemma until_slash_app (u x : string) :
  slash_free u = true -> until_slash (u +:+ String "/" x) = u.
Proof.
  induction u as [|c u IH]; intros H; [reflexivity|].
  rewrite app_cons_s. simpl in *.
  apply andb_true_iff in H as [Hc Hu].
  destruct (Ascii.eqb c "/"); [discriminate|]. rewrite (IH Hu). reflexivity.
Qed.

Lemma until_slash_free (u : string) : slash_free u = true -> until_slash u = u.
Proof.
  induction u as [|c u IH]; simpl; intros H; [reflexivity|].
  apply andb_true_iff in H as [Hc Hu].
  destruct (Ascii.eqb c "/"); [discriminate|]. rewrite (IH Hu). reflexivity.
Qed.

Lemma basename_after_slash (pre name : string) :
  slash_free name = true -> basename (pre +:+ "/" +:+ name) = name.
Proof.
  intros H. unfold basename.
  rewrite rev_app_s, rev_app_s.
  change (String.rev "/") with "/".
  rewrite app_assoc_s, app_cons_s, app_nil_l_s.
  rewrite until_slash_app by (rewrite slash_free_rev; exact H).
  apply rev_rev_s.
Qed.

Lemma basename_slash_free (name : string) :
  slash_free name = true -> basename name = name.
Proof.
  intros H. unfold basename.
  rewrite until_slash_free by (rewrite slash_free_rev; exact H).
  apply rev_rev_s.
Qed.

Lemma prefix_nil_s (s : string) : String.prefix "" s = true.
Proof. destruct s; reflexivity. Qed.

Lemma prefix_cons_s (x c : ascii) (p r : string) :
  String.prefix (String x p) (String c r)
  = Ascii.eqb x c && String.prefix p r.
Proof.
  change (String.prefix (String x p) (String c r))
    with (match ascii_dec x c with
          | left _ => String.prefix p r
          | right _ => false
          end).
  destruct (ascii_dec x c) as [->|Hne].
  - rewrite Ascii.eqb_refl. reflexivity.
  - destruct (Ascii.eqb_spec x c); [contradiction|reflexivity].
Qed.

Lemma ends_with_slash (a : string) :
  ends_with "/" a = true -> exists pre, a = pre +:+ "/".
Proof.
  unfold ends_with. change (String.rev "/") with "/".
  destruct (String.rev a) as [|c r] eqn:E; [intros H; discriminate H|].
  rewrite prefix_cons_s.
  destruct (Ascii.eqb_spec "/" c) as [<-|]; [|intros H; discriminate H].
  intros _. exists (String.rev r).
  rewrite <- (rev_rev_s a), E, rev_cons_s. reflexivity.
Qed.

Lemma prefix_slash_false (s : string) :
  slash_free s = true -> String.prefix "/" s = false.
Proof.
  destruct s as [|c s]; [reflexivity|].
  intros H. simpl in H. apply andb_true_iff in H as [Hc _].
  apply negb_true_iff in Hc.
  rewrite prefix_cons_s, Ascii.eqb_sym, Hc. reflexivity.
Qed.

(** ** File names *)

Lemma is_unsafe_slash c : is_unsafe c = false -> Ascii.eqb c "/" = false.
Proof.
  intros H. destruct (Ascii.eqb_spec c "/") as [->|]; [discriminate|reflexivity].
Qed.

Lemma sanitize_all_safe s : all_safe (sanitize_title s) = true.
Proof.
  induction s as [|c s IH]; simpl; [reflexivity|].
  rewrite IH, andb_true_r.
  destruct (is_unsafe c) eqn:E; [reflexivity|]. rewrite E. reflexivity.
Qed.

Lemma sanitize_safe_id s : all_safe s = true -> sanitize_title s = s.
Proof.
  induction s as [|c s IH]; simpl; intros H; [reflexivity|].
  apply andb_true_iff in H as [Hc Hs].
  apply negb_true_iff in Hc. rewrite Hc, (IH Hs). reflexivity.
Qed.

Lemma all_safe_slash_free s : all_safe s = true -> slash_free s = true.
Proof.
  induction s as [|c s IH]; simpl; intros H; [reflexivity|].
  apply andb_true_iff in H as [Hc Hs]. apply negb_true_iff in Hc.
  rewrite (is_unsafe_slash c Hc), (IH Hs). reflexivity.
Qed.

(** X11: [sanitize_title] keeps the length of the title and every
    character outside the class of nine, puts "_" for each character of
    the class, so that none of the nine (the slash among them) is left,
    and is the identity on a title without any of them; applying it twice
    is applying it once. *)
Theorem sanitize_title_safe (title : string) :
  String.length (sanitize_title title) = String.length title
  /\ all_safe (sanitize_title title) = true
  /\ slash_free (sanitize_title title) = true
  /\ (all_safe title = true -> sanitize_title title = title)
  /\ sanitize_title (sanitize_title title) = sanitize_title title
  /\ (forall i c, String.get i title = Some c ->
        String.get i (sanitize_title title)
        = Some (if is_unsafe c then "_"%char else c)).
Proof.
  pose proof (sanitize_all_safe title) as Hsafe.
  split; [|split; [exact Hsafe|split; [|split; [|split]]]].
  - clear Hsafe.
    induction title as [|c s IH]; simpl; [reflexivity|]. rewrite IH. reflexivity.
  - apply all_safe_slash_free, Hsafe.
  - apply sanitize_safe_id.
  - apply sanitize_safe_id, Hsafe.
  - clear Hsafe. induction title as [|x s IH]; intros i c; [discriminate|].
    destruct i as [|i]; simpl.
    + intros [= ->]. reflexivity.
    + apply IH.
Qed.

Lemma sanitize_title_safe_witness :
  sanitize_title "a/b" = "a_b" /\ sanitize_title "plain" = "plain".
Proof.
  split; [reflexivity|].
  apply (proj1 (proj2 (proj2 (proj2 (sanitize_title_safe "plain"))))).
  reflexivity.
Defined.

Lemma os_path_join_relative (a b : string) :
  String.prefix "/" b = false ->
  os_path_join a b
  = (if String.eqb a "" || ends_with "/" a then a else a +:+ "/") +:+ b.
Proof.
  intros H. unfold os_path_join. rewrite H.
  destruct (String.eqb a "" || ends_with "/" a); [reflexivity|].
  rewrite app_assoc_s. reflexivity.
Qed.

Lemma safe_head_relative (safe rest : string) (x : ascii) :
  all_safe safe = true -> Ascii.eqb "/" x = false ->
  String.prefix "/" (safe +:+ String x rest) = false.
Proof.
  intros Hs Hx. destruct safe as [|c s].
  - rewrite app_nil_l_s, prefix_cons_s, Hx. reflexivity.
  - simpl in Hs. apply andb_true_iff in Hs as [Hc _].
    apply negb_true_iff, is_unsafe_slash in Hc.
    rewrite app_cons_s, prefix_cons_s, Ascii.eqb_sym, Hc. reflexivity.
Qed.

Lemma numbered_relative title counter ext :
  String.prefix "/" (numbered (sanitize_title title) counter ext) = false.
Proof.
  unfold numbered. rewrite (app_cons_s "_" "" _), app_nil_l_s.
  apply safe_head_relative; [apply sanitize_all_safe|reflexivity].
Qed.

Lemma numbered_inj safe ext c c' : numbered safe c ext = numbered safe c' ext -> c = c'.
Proof.
  unfold numbered. intros H.
  apply (inj (String.append safe)) in H.
  apply (inj (String.append "_")) in H.
  apply app_inj_r in H. apply (inj pretty) in H. exact H.
Qed.

Lemma join_numbered_inj base title ext c c' :
  os_path_join base (numbered (sanitize_title title) c ext)
  = os_path_join base (numbered (sanitize_title title) c' ext) ->
  c = c'.
Proof.
  rewrite !os_path_join_relative by apply numbered_relative.
  intros H. apply (inj (String.append _)) in H.
  eapply numbered_inj. exact H.
Qed.

(** Among [N] names numbered from 1, all different, at most [size paths]
    exist. *)
Lemma numbered_pigeonhole (paths : gset string) base title ext (N : nat) :
  (forall c, 1 <= c <= Z.of_nat N ->
     os_path_join base (numbered (sanitize_title title) c ext) ∈ paths) ->
  (N <= size paths)%nat.
Proof.
  intros Hall.
  set (P := fun k : nat =>
              os_path_join base
                (numbered (sanitize_title title) (Z.of_nat (S k)) ext)).
  assert (Hnd : NoDup (P <$> List.seq 0%nat N)).
  { apply NoDup_fmap_2; [|apply NoDup_seq].
    intros k k' H. apply join_numbered_inj in H. lia. }
  assert (Hsub : (list_to_set (P <$> List.seq 0%nat N) : gset string) ⊆ paths).
  { intros p Hp. apply elem_of_list_to_set, list_elem_of_fmap in Hp
      as (k & -> & Hk).
    apply elem_of_seq in Hk. apply Hall. lia. }
  apply subseteq_size in Hsub.
  rewrite size_list_to_set in Hsub by exact Hnd.
  rewrite length_fmap, length_seq in Hsub. exact Hsub.
Qed.

Lemma first_free_counter (paths : gset string) base title ext (N : nat) :
  (forall c, 1 <= c <= Z.of_nat N ->
     os_path_join base (numbered (sanitize_title title) c ext) ∈ paths)
  \/ (exists c0, 1 <= c0 <= Z.of_nat N
        /\ (os_path_join base (numbered (sanitize_title title) c0 ext) ∉ paths)
        /\ forall c, 1 <= c < c0 ->
             os_path_join base (numbered (sanitize_title title) c ext) ∈ paths).
Proof.
  induction N as [|N [IH|IH]].
  - left. intros c Hc. lia.
  - destruct (decide (os_path_join base
                        (numbered (sanitize_title title) (Z.of_nat (S N)) ext)
                      ∈ paths)) as [Hin|Hout].
    + left. intros c Hc.
      destruct (Z.eq_dec c (Z.of_nat (S N))) as [->|]; [exact Hin|].
      apply IH. lia.
    + right. exists (Z.of_nat (S N)). split; [lia|]. split; [exact Hout|].
      intros c Hc. apply IH. lia.
  - right. destruct IH as (c0 & Hc0 & Hfree & Hbelow).
    exists c0. split; [lia|]. split; assumption.
Qed.

Lemma next_free_finds (paths : gset string) base title ext c0 :
  os_path_join base (numbered (sanitize_title title) c0 ext) ∉ paths ->
  forall fuel c,
    c <= c0 -> (Z.to_nat (c0 - c) < fuel)%nat ->
    (forall c', c <= c' < c0 ->
       os_path_join base (numbered (sanitize_title title) c' ext) ∈ paths) ->
    next_free fuel paths base (sanitize_title title) ext c
    = Some (numbered (sanitize_title title) c0 ext).
Proof.
  intros Hfree. induction fuel as [|fuel IH]; intros c Hle Hfuel Hbelow; [lia|].
  simpl. destruct (Z.eq_dec c c0) as [->|Hne].
  - rewrite bool_decide_eq_false_2 by exact Hfree. reflexivity.
  - rewrite bool_decide_eq_true_2 by (apply Hbelow; lia). simpl.
    apply IH; [lia|lia|]. intros c' Hc'. apply Hbelow. lia.
Qed.

(** X12: [get_unique_filename] ends and returns a name that does not exist
    in the directory.  With [n] existing paths the loop needs at most
    [n + 1] turns; the name is the sanitized title with the extension when
    that is free, and otherwise the numbered name with the least counter
    from 1 that is free, all smaller counters being taken. *)
Theorem get_unique_filename_fresh (paths : gset string)
    (base_path title ext : string) :
  exists name,
    (forall fuel, (size paths < fuel)%nat ->
       get_unique_filename fuel paths base_path title ext = Some name)
    /\ (os_path_join base_path name ∉ paths)
    /\ (name = sanitize_title title +:+ "." +:+ ext
        \/ exists counter,
             1 <= counter <= Z.of_nat (size paths) + 1
             /\ name = numbered (sanitize_title title) counter ext
             /\ os_path_join base_path (sanitize_title title +:+ "." +:+ ext) ∈ paths
             /\ forall c, 1 <= c < counter ->
                  os_path_join base_path (numbered (sanitize_title title) c ext)
                  ∈ paths).
Proof.
  destruct (decide (os_path_join base_path (sanitize_title title +:+ "." +:+ ext)
                    ∈ paths)) as [Hin|Hout].
  - destruct (first_free_counter paths base_path title ext (S (size paths)))
      as [Hall|(c0 & Hc0 & Hfree & Hbelow)].
    { apply numbered_pigeonhole in Hall. lia. }
    exists (numbered (sanitize_title title) c0 ext).
    split; [|split; [exact Hfree|]].
    + intros fuel Hfuel. unfold get_unique_filename.
      rewrite bool_decide_eq_true_2 by exact Hin. simpl.
      apply next_free_finds; [exact Hfree|lia|lia|].
      intros c' Hc'. apply Hbelow. lia.
    + right. exists c0. split; [lia|]. split; [reflexivity|].
      split; [exact Hin|exact Hbelow].
  - exists (sanitize_title title +:+ "." +:+ ext).
    split; [|split; [exact Hout|left; reflexivity]].
    intros fuel _. unfold get_unique_filename.
    rewrite bool_decide_eq_false_2 by exact Hout. reflexivity.
Qed.

Lemma get_unique_filename_fresh_witness :
  get_unique_filename 2 sample_paths "/tmp/x" "video" "mp4" = Some "video_1.mp4".
Proof.
  destruct (get_unique_filename_fresh sample_paths "/tmp/x" "video" "mp4")
    as (name & Hfuel & _ & _).
  rewrite (Hfuel 2%nat); [|vm_compute; lia].
  specialize (Hfuel 2%nat ltac:(vm_compute; lia)).
  vm_compute in Hfuel. injection Hfuel as <-. reflexivity.
Defined.

(** X13: the file name stored by [register_file] is the name the file was
    given: for a name without a slash (as [get_unique_filename] returns
    for an extension without a slash) joined to any directory, the
    registered record carries that name, is not marked as downloaded and
    has an access count of 0, and its size is the size on disk, or 0 when
    the file is not there. *)
Theorem register_file_record (fm : FileManager) (disk : string -> option Z)
    (now : datetime) (task_id dir name : string) :
  slash_free name = true ->
  exists r,
    get_file_info
      (register_file fm disk now task_id (os_path_join dir name) dir) task_id
    = Some r
    /\ filename r = name
    /\ temp_dir r = dir
    /\ downloaded r = false /\ access_count r = 0 /\ created_at r = now
    /\ file_size r = default 0 (disk (os_path_join dir name)).
Proof.
  intros Hname. eexists. split; [apply lookup_insert_eq|].
  simpl. repeat split.
  rewrite os_path_join_relative by (apply prefix_slash_false, Hname).
  destruct (String.eqb_spec dir "") as [->|Hne]; simpl.
  - rewrite app_nil_l_s. apply basename_slash_free, Hname.
  - destruct (ends_with "/" dir) eqn:E.
    + apply ends_with_slash in E as [pre ->].
      rewrite app_assoc_s. apply basename_after_slash, Hname.
    + rewrite app_assoc_s. apply basename_after_slash, Hname.
Qed.

Lemma register_file_record_witness :
  exists r,
    get_file_info
      (register_file FileManager_init sample_disk 7 "a"
         (os_path_join "/tmp/x" "video_1.mp4") "/tmp/x") "a"
    = Some r
    /\ filename r = "video_1.mp4".
Proof.
  destruct (register_file_record FileManager_init sample_disk 7 "a"
              "/tmp/x" "video_1.mp4" eq_refl)
    as (r & Hr & Hname & _).
  exists r. split; assumption.
Defined.

(** ** The video id *)

Lemma take_id_spec n : forall s g,
  take_id n s = Some g ->
  String.length g = n /\ all_id_chars g = true /\ exists rest, s = g +:+ rest.
Proof.
  induction n as [|n IH]; intros s g H; simpl in H.
  - injection H as <-. repeat split. exists s. reflexivity.
  - destruct s as [|c s]; [discriminate|].
    destruct (is_id_char c) eqn:Hc; [|discriminate].
    destruct (take_id n s) as [g'|] eqn:Hg; [|discriminate].
    injection H as <-. destruct (IH s g' Hg) as (Hl & Ha & rest & ->).
    simpl. rewrite Hl, Hc, Ha. repeat split. exists rest. reflexivity.
Qed.

Lemma take_id_complete g rest :
  all_id_chars g = true -> take_id (String.length g) (g +:+ rest) = Some g.
Proof.
  induction g as [|c g IH]; intros H; [reflexivity|].
  simpl in H. apply andb_true_iff in H as [Hc Hg].
  rewrite app_cons_s. simpl. rewrite Hc, (IH Hg). reflexivity.
Qed.

Lemma drop_prefix_spec p : forall s rest,
  drop_prefix p s = Some rest -> s = p +:+ rest.
Proof.
  induction p as [|a p IH]; intros s rest H; simpl in H.
  - injection H as ->. reflexivity.
  - destruct s as [|b s]; [discriminate|].
    destruct (Ascii.eqb_spec a b) as [->|]; [|discriminate].
    rewrite app_cons_s, (IH s rest H). reflexivity.
Qed.

Lemma drop_prefix_app p rest : drop_prefix p (p +:+ rest) = Some rest.
Proof.
  induction p as [|a p IH]; [destruct rest; reflexivity|].
  rewrite app_cons_s. simpl. rewrite Ascii.eqb_refl. exact IH.
Qed.

Lemma id_after_spec lit s g :
  id_after lit s = Some g ->
  String.length g = 11%nat /\ all_id_chars g = true
  /\ exists rest, s = lit +:+ g +:+ rest.
Proof.
  unfold id_after. destruct (drop_prefix lit s) as [r|] eqn:Hd; [|discriminate].
  intros H. destruct (take_id_spec _ _ _ H) as (Hl & Ha & rest & ->).
  repeat split; try assumption. exists rest. apply drop_prefix_spec, Hd.
Qed.

Lemma re_search_spec at_head s g :
  re_search at_head s = Some g ->
  exists pre t, s = pre +:+ t /\ at_head t = Some g.
Proof.
  induction s as [|c s IH]; simpl.
  - destruct (at_head "") eqn:E; [|discriminate].
    intros [= ->]. exists "", "". split; [reflexivity|exact E].
  - destruct (at_head (String c s)) eqn:E.
    + intros [= ->]. exists "", (String c s). split; [reflexivity|exact E].
    + intros H. destruct (IH H) as (pre & t & -> & Ht).
      exists (String c pre), t. split; [reflexivity|exact Ht].
Qed.

Lemma re_search_none at_head pre : forall t,
  re_search at_head (pre +:+ t) = None -> at_head t = None.
Proof.
  induction pre as [|c pre IH]; intros t H.
  - rewrite app_nil_l_s in H. destruct t; simpl in H;
      destruct (at_head _); congruence.
  - rewrite app_cons_s in H. simpl in H.
    destruct (at_head (String c (pre +:+ t))); [discriminate|].
    apply IH, H.
Qed.

Lemma id_after_slash_tail g rest :
  String.length g = 11%nat -> all_id_chars g = true ->
  id_pattern_1 ("/" +:+ g +:+ rest) = Some g.
Proof.
  intros Hl Ha. unfold id_pattern_1, id_after.
  assert (H1 : drop_prefix "v=" ("/" +:+ g +:+ rest) = None) by reflexivity.
  assert (H2 : drop_prefix "/" ("/" +:+ g +:+ rest) = Some (g +:+ rest))
    by apply drop_prefix_app.
  rewrite H1, H2, <- Hl. apply take_id_complete, Ha.
Qed.

Lemma later_patterns_never_decide (url lit' : string) :
  re_search id_pattern_1 url = None ->
  re_search (id_after (lit' +:+ "/")) url = None.
Proof.
  intros Hnone.
  destruct (re_search (id_after (lit' +:+ "/")) url) as [g|] eqn:E;
    [|reflexivity].
  exfalso.
  destruct (re_search_spec _ _ _ E) as (pre & t & -> & Ht).
  destruct (id_after_spec _ _ _ Ht) as (Hl & Ha & rest & ->).
  rewrite app_assoc_s, <- (app_assoc_s pre lit') in Hnone.
  apply re_search_none in Hnone.
  rewrite (id_after_slash_tail g rest Hl Ha) in Hnone. discriminate.
Qed.

Lemma extract_video_id_leftmost (url : string) :
  extract_video_id url = re_search id_pattern_1 url.
Proof.
  unfold extract_video_id.
  destruct (re_search id_pattern_1 url) as [g|] eqn:E1; [reflexivity|].
  change id_pattern_2 with (id_after ("embed" +:+ "/")).
  change id_pattern_3 with (id_after ("shorts" +:+ "/")).
  rewrite !later_patterns_never_decide by exact E1. reflexivity.
Qed.

Lemma extract_video_id_shape (url video_id : string) :
  extract_video_id url = Some video_id ->
  String.length video_id = 11%nat
  /\ all_id_chars video_id = true
  /\ exists pre post,
       url = pre +:+ "v=" +:+ video_id +:+ post
       \/ url = pre +:+ "/" +:+ video_id +:+ post.
Proof.
  intros H. rewrite extract_video_id_leftmost in H.
  destruct (re_search_spec _ _ _ H) as (pre & t & -> & Ht).
  unfold id_pattern_1 in Ht.
  destruct (id_after "v=" t) as [g|] eqn:Ev.
  - injection Ht as ->.
    destruct (id_after_spec _ _ _ Ev) as (Hl & Ha & rest & ->).
    repeat split; try assumption. exists pre, rest. left. reflexivity.
  - destruct (id_after_spec _ _ _ Ht) as (Hl & Ha & rest & ->).
    repeat split; try assumption. exists pre, rest. right. reflexivity.
Qed.

(** X14: [extract_video_id] returns, when it returns an id, 11 characters
    of the class [0-9A-Za-z_-] that stand in the URL right after "v=" or
    after a slash; and the second and third pattern never decide: the
    result is the leftmost match of the first pattern, or nothing. *)
Theorem extract_video_id_sound (url : string) :
  extract_video_id url = re_search id_pattern_1 url
  /\ (forall video_id, extract_video_id url = Some video_id ->
        String.length video_id = 11%nat
        /\ all_id_chars video_id = true
        /\ exists pre post,
             url = pre +:+ "v=" +:+ video_id +:+ post
             \/ url = pre +:+ "/" +:+ video_id +:+ post).
Proof.
  split; [apply extract_video_id_leftmost|].
  intros video_id. apply extract_video_id_shape.
Qed.

Lemma re_search_head at_head s g : at_head s = Some g -> re_search at_head s = Some g.
Proof. intros H. destruct s; simpl; rewrite H; reflexivity. Qed.

Lemma canonical_url_id g rest :
  String.length g = 11%nat -> all_id_chars g = true ->
  re_search id_pattern_1 ("https://www.youtube.com/watch?v=" +:+ g +:+ rest) = Some g.
Proof.
  intros Hl Ha.
  change (re_search id_pattern_1 ("https://www.youtube.com/watch?v=" +:+ g +:+ rest))
    with (re_search id_pattern_1 ("v=" +:+ g +:+ rest)).
  apply re_search_head. unfold id_pattern_1, id_after.
  rewrite drop_prefix_app, <- Hl, take_id_complete by exact Ha. reflexivity.
Qed.

Lemma is_id_char_word c : is_id_char c = true -> is_word_or_dash c = true.
Proof.
  unfold is_id_char, is_word_or_dash, is_word.
  destruct (in_range 48 57 c); [reflexivity|].
  destruct (in_range 65 90 c); [reflexivity|].
  destruct (in_range 97 122 c); [reflexivity|].
  destruct (code c =? 95)%N; [reflexivity|].
  simpl. intros ->. apply orb_true_r.
Qed.

Lemma star_class_total cls k s :
  (forall t, k t = true) -> star_class cls s k = true.
Proof.
  intros Hk. induction s as [|c s IH]; simpl; [apply Hk|].
  rewrite Hk. apply orb_true_r.
Qed.

Lemma canonical_url_valid g :
  String.length g = 11%nat -> all_id_chars g = true ->
  is_valid_youtube_url ("https://www.youtube.com/watch?v=" +:+ g) = true.
Proof.
  intros Hl Ha. destruct g as [|c g]; [discriminate|].
  simpl in Ha. apply andb_true_iff in Ha as [Hc _].
  apply is_id_char_word in Hc.
  unfold is_valid_youtube_url, youtube_patterns.
  cbv -[is_word_or_dash star_class orb andb].
  rewrite Hc, star_class_total by reflexivity. reflexivity.
Qed.

Lemma extract_video_id_sound_witness :
  extract_video_id "https://youtu.be/dQw4w9WgXcQ?t=42" = Some "dQw4w9WgXcQ"
  /\ String.length "dQw4w9WgXcQ" = 11%nat.
Proof.
  split; [reflexivity|].
  exact (proj1 (proj2 (extract_video_id_sound "https://youtu.be/dQw4w9WgXcQ?t=42")
                  "dQw4w9WgXcQ" eq_refl)).
Defined.

(** X15: cleaning a URL is idempotent, and a cleaned URL is acceptable: when
    an id is found the URL handed on is the watch URL of that id, which
    passes [is_valid_youtube_url] and whose id is found again; when no id
    is found the URL is handed on unchanged. *)
Theorem clean_url_idempotent (url : string) :
  clean_url (clean_url url) = clean_url url
  /\ (forall video_id, extract_video_id url = Some video_id ->
        clean_url url = "https://www.youtube.com/watch?v=" +:+ video_id
        /\ extract_video_id (clean_url url) = Some video_id
        /\ is_valid_youtube_url (clean_url url) = true)
  /\ (extract_video_id url = None -> clean_url url = url).
Proof.
  assert (Hsome : forall video_id, extract_video_id url = Some video_id ->
            clean_url url = "https://www.youtube.com/watch?v=" +:+ video_id
            /\ extract_video_id (clean_url url) = Some video_id
            /\ is_valid_youtube_url (clean_url url) = true).
  { intros video_id H.
    destruct (extract_video_id_shape url video_id H) as (Hl & Ha & _).
    assert (Hc : clean_url url = "https://www.youtube.com/watch?v=" +:+ video_id)
      by (unfold clean_url; rewrite H; reflexivity).
    rewrite Hc. split; [reflexivity|]. split.
    - rewrite extract_video_id_leftmost.
      rewrite <- (app_nil_r_s video_id) at 1.
      apply canonical_url_id; assumption.
    - apply canonical_url_valid; assumption. }
  assert (Hnone : extract_video_id url = None -> clean_url url = url)
    by (intros H; unfold clean_url; rewrite H; reflexivity).
  split; [|split; assumption].
  destruct (extract_video_id url) as [video_id|] eqn:E.
  - destruct (Hsome video_id eq_refl) as (Hc & Hx & _).
    unfold clean_url at 1. rewrite Hx. symmetry. exact Hc.
  - rewrite (Hnone eq_refl). apply Hnone. reflexivity.
Qed.

Lemma clean_url_idempotent_witness :
  clean_url "https://m.youtube.com/watch?v=dQw4w9WgXcQ&list=PL1"
  = "https://www.youtube.com/watch?v=dQw4w9WgXcQ".
Proof.
  exact (proj1 (proj1 (proj2 (clean_url_idempotent
                   "https://m.youtube.com/watch?v=dQw4w9WgXcQ&list=PL1"))
                  "dQw4w9WgXcQ" eq_refl)).
Defined.


(** ** What the progress hook leaves alone *)

Lemma changes_only_refl keys task_id tm : changes_only keys task_id tm tm.
Proof.
  repeat split; try reflexivity. intros t Ht. exists t. repeat split. exact Ht.
Qed.

Lemma changes_only_trans keys task_id tm1 tm2 tm3 :
  changes_only keys task_id tm1 tm2 -> changes_only keys task_id tm2 tm3 ->
  changes_only keys task_id tm1 tm3.
Proof.
  intros (Hc1 & Ho1 & Hn1 & Hk1) (Hc2 & Ho2 & Hn2 & Hk2).
  split; [congruence|]. split; [|split].
  - intros other Hne. rewrite Ho2, Ho1 by exact Hne. reflexivity.
  - intros Hnone. pose proof (Hn1 Hnone) as E2. subst tm2. exact (Hn2 Hnone).
  - intros t Ht. destruct (Hk1 t Ht) as (t2 & Ht2 & Hf2 & Hg2).
    destruct (Hk2 t2 Ht2) as (t3 & Ht3 & Hf3 & Hg3).
    exists t3. split; [exact Ht3|]. split; [congruence|].
    intros k Hk. rewrite Hg3, Hg2 by exact Hk. reflexivity.
Qed.

Lemma last_for_none k kwargs :
  Forall (fun kw => kwarg_key kw <> k) kwargs -> last_for k kwargs = None.
Proof.
  intros H. unfold last_for.
  induction H as [|kw kwargs Hkw _ IH]; [reflexivity|].
  rewrite filter_cons_False by (intros E; apply Hkw, E). exact IH.
Qed.

Lemma update_task_changes_only keys tm now task_id kwargs :
  Forall (fun kw => kwarg_key kw ∈ keys) kwargs ->
  changes_only keys task_id tm (update_task tm now task_id kwargs).
Proof.
  intros Hkeys. split; [apply update_task_counter|]. split; [|split].
  - intros other Hne. unfold update_task.
    destruct (tasks tm !! task_id); [|reflexivity].
    simpl. apply lookup_insert_ne. congruence.
  - intros Hnone. unfold update_task. rewrite Hnone. reflexivity.
  - intros t Ht. eexists. split; [apply update_task_lookup, Ht|].
    destruct (set_updated_at_get k_status (dict_update t kwargs) now)
      as (_ & Hfix & _).
    split; [rewrite Hfix; apply dict_update_fixed|].
    intros k Hk.
    rewrite (proj1 (set_updated_at_get k (dict_update t kwargs) now)).
    rewrite dict_update_get, last_for_none; [reflexivity|].
    eapply Forall_impl; [exact Hkeys|]. simpl. intros kw Hin E. apply Hk. rewrite <- E. exact Hin.
Qed.

Lemma progress_of_update tm now task_id p rest t' :
  (forall kw, kw ∈ rest -> forall t0, t_progress (set_kwarg t0 kw) = t_progress t0) ->
  tasks (update_task tm now task_id (progress_ p :: rest)) !! task_id = Some t' ->
  update_task tm now task_id (progress_ p :: rest) = tm \/ t_progress t' = p.
Proof.
  intros Hrest Hlook.
  destruct (tasks tm !! task_id) as [t|] eqn:Ht.
  - right. rewrite (update_task_lookup _ _ _ _ _ Ht) in Hlook.
    injection Hlook as <-. apply progress_after_update, Hrest.
  - left. unfold update_task. rewrite Ht. reflexivity.
Qed.

Ltac frame_kw :=
  let kw := fresh "kw" in let H := fresh "H" in let t0 := fresh "t0" in
  intros kw H t0; rewrite ?elem_of_cons, elem_of_nil in H;
  repeat (destruct H as [->|H]; [destruct t0; reflexivity|]); tauto.

Lemma progress_hook_changes_only (float_of_string : string -> option float)
    (tm : TaskManager) (now : datetime) (task_id : string)
    (d : progress_event) :
  changes_only progress_keys task_id tm
    (progress_hook float_of_string tm now task_id d).
Proof.
  unfold progress_hook.
  destruct (String.eqb (ev_status d) "downloading").
  - unfold on_downloading, on_percent_str.
    destruct (has_total_bytes d) as [total_bytes|].
    + destruct (getitem (ev_downloaded_bytes d)) as [db|]; run_bind;
        [|apply changes_only_refl].
      destruct (PyFloat.int_truediv db total_bytes) as [ratio|]; run_bind;
        [|apply changes_only_refl].
      destruct (PyFloat.to_int _) as [scaled|]; run_bind;
        [|apply changes_only_refl].
      destruct (format_speed (ev_speed d)) as [speed_str|]; run_bind;
        [|apply changes_only_refl].
      apply update_task_changes_only; repeat constructor.
    + destruct (ev_percent_str d) as [percent_str|]; [|apply changes_only_refl].
      destruct (float_of_string _) as [x|]; [|apply changes_only_refl].
      destruct (PyFloat.to_int _) as [scaled|]; [|apply changes_only_refl].
      apply update_task_changes_only; repeat constructor.
  - destruct (String.eqb (ev_status d) "finished"); [|apply changes_only_refl].
    apply update_task_changes_only; repeat constructor.
Qed.

(** X16: the progress hook is safe.  Whatever the tool reports, the hook
    leaves the counter, every other task and the set of tasks as they
    were; in the record of its task it touches at most the progress, the
    message, the speed, the remaining time and the two byte counts (never
    the status, the file name, the download URL or the error); and the
    progress it stores is at most 95 while downloading and exactly 98
    on the event "finished", so it never reports a task as complete. *)
Theorem progress_hook_safe (float_of_string : string -> option float)
    (tm : TaskManager) (now : datetime) (task_id : string)
    (d : progress_event) :
  changes_only progress_keys task_id tm
    (progress_hook float_of_string tm now task_id d)
  /\ (forall t',
        tasks (progress_hook float_of_string tm now task_id d) !! task_id
        = Some t' ->
        progress_hook float_of_string tm now task_id d = tm
        \/ (ev_status d = "downloading" /\ t_progress t' <= 95)
        \/ (ev_status d = "finished" /\ t_progress t' = 98)).
Proof.
  split; [apply progress_hook_changes_only|].
  unfold progress_hook.
  destruct (String.eqb_spec (ev_status d) "downloading") as [Hd|Hd].
  - unfold on_downloading, on_percent_str.
    destruct (has_total_bytes d) as [total_bytes|].
    + destruct (getitem (ev_downloaded_bytes d)) as [db|]; run_bind; [|auto].
      destruct (PyFloat.int_truediv db total_bytes) as [ratio|]; run_bind; [|auto].
      destruct (PyFloat.to_int _) as [scaled|]; run_bind; [|auto].
      destruct (format_speed (ev_speed d)) as [speed_str|]; run_bind; [|auto].
      intros t' Hlook. apply progress_of_update in Hlook as [?| ->];
        [auto| |frame_kw].
      right. left. split; [exact Hd|lia].
    + destruct (ev_percent_str d) as [percent_str|]; [|auto].
      destruct (float_of_string _) as [x|]; [|auto].
      destruct (PyFloat.to_int _) as [scaled|]; [|auto].
      intros t' Hlook. apply progress_of_update in Hlook as [?| ->];
        [auto| |frame_kw].
      right. left. split; [exact Hd|lia].
  - destruct (String.eqb_spec (ev_status d) "finished") as [Hf|Hf]; [|auto].
    intros t' Hlook. apply progress_of_update in Hlook as [?| ->];
      [auto| |frame_kw].
    right. right. split; [exact Hf|reflexivity].
Qed.


(** ** The menu of formats *)

Ltac run_attempt :=
  unfold mbind, attempt_bind, mret, attempt_ret, at_op in *; cbv beta iota in *.

Lemma any_height_ge_spec n formats b :
  any_height_ge n formats = Ok b ->
  (b = true <-> exists f, f ∈ formats /\ height_at_least n f).
Proof.
  revert b. induction formats as [|f formats IH]; intros b H; simpl in H.
  - injection H as <-. split; [discriminate|].
    intros (f & Hin & _). apply elem_of_nil in Hin. contradiction.
  - destruct (bool_decide_reflect (tf_vcodec f = Some "none")) as [Hv|Hv].
    + rewrite (IH b H). split.
      * intros (g & Hin & Hg). exists g. split; [right; exact Hin|exact Hg].
      * intros (g & Hin & Hg). apply elem_of_cons in Hin as [->|Hin].
        -- destruct Hg as [Hvid _]. contradiction.
        -- exists g. split; assumption.
    + unfold ge_int in H.
      destruct (get_or (tf_height f) 0) as [h|] eqn:Hh; [|discriminate].
      destruct (n <=? h) eqn:Hle.
      * injection H as <-. split; [|reflexivity]. intros _.
        exists f. split; [left|]. split; [exact Hv|].
        exists h. split; [exact Hh|]. apply Z.leb_le, Hle.
      * rewrite (IH b H). split.
        -- intros (g & Hin & Hg). exists g. split; [right; exact Hin|exact Hg].
        -- intros (g & Hin & Hg). apply elem_of_cons in Hin as [->|Hin].
           ++ destruct Hg as (_ & h' & Hh' & Hle').
              rewrite Hh in Hh'. injection Hh' as <-.
              apply Z.leb_gt in Hle. lia.
           ++ exists g. split; assumption.
Qed.

Lemma any_height_ge_mono n m formats b :
  m <= n -> any_height_ge n formats = Ok b ->
  exists b', any_height_ge m formats = Ok b' /\ (b = true -> b' = true).
Proof.
  intros Hmn. revert b. induction formats as [|f formats IH]; intros b H; simpl in *.
  - exists false. split; [reflexivity|]. injection H as <-. discriminate.
  - destruct (bool_decide (tf_vcodec f = Some "none")); [apply IH, H|].
    unfold ge_int in *.
    destruct (get_or (tf_height f) 0) as [h|]; [|discriminate].
    destruct (n <=? h) eqn:Hle.
    + apply Z.leb_le in Hle. replace (m <=? h) with true by (symmetry; apply Z.leb_le; lia).
      exists true. split; reflexivity.
    + destruct (m <=? h).
      * exists true. split; reflexivity.
      * apply IH, H.
Qed.

Lemma any_height_ge_safe n formats :
  (forall f, f ∈ formats -> is_video f -> tf_height f <> IsNone) ->
  exists b, any_height_ge n formats = Ok b.
Proof.
  induction formats as [|f formats IH]; intros Hsafe; simpl; [eauto|].
  destruct IH as [b Hb]; [intros g Hg; apply Hsafe; right; exact Hg|].
  destruct (bool_decide_reflect (tf_vcodec f = Some "none")) as [Hv|Hv]; [eauto|].
  pose proof (Hsafe f ltac:(left) Hv) as Hh.
  destruct (tf_height f) as [| |h]; [|congruence|]; simpl;
    match goal with |- context [?a <=? ?b] => destruct (a <=? b) end; eauto.
Qed.

Lemma render_size_total size : exists s, render_size size = Ok s.
Proof.
  unfold render_size. destruct (PyFloat.gt size _); [|eauto].
  rewrite of_int_1024. unfold PyFloat.div. run_bind. eauto.
Qed.

Lemma estimate_file_size_total d height :
  0 <= d < 2 ^ 63 -> exists s, _estimate_file_size (Some d) height = Ok s.
Proof.
  intros Hd. unfold _estimate_file_size.
  destruct d as [|p|p]; [eauto| |lia].
  destruct (int_truediv_bounded (Z.pos p) 60 Hd ltac:(lia)) as (x & -> & _).
  run_bind. apply render_size_total.
Qed.

Lemma estimate_audio_size_total d :
  0 <= d < 2 ^ 63 -> exists s, _estimate_audio_size (Some d) = Ok s.
Proof.
  intros Hd. unfold _estimate_audio_size.
  destruct d as [|p|p]; [eauto| |lia].
  destruct (int_truediv_bounded (Z.pos p) 60 Hd ltac:(lia)) as (x & -> & _).
  run_bind. apply render_size_total.
Qed.

Lemma build_formats_shape duration is_long b1 b2 b3 formats :
  build_formats duration is_long b1 b2 b3 = inr formats ->
  map e_format_id formats
  = (if b1 then ["best[height>=1080]"] else [])
    ++ (if b2 then ["best[height>=720]"] else [])
    ++ (if b3 then ["best[height>=480]"] else [])
    ++ ["best"; "bestaudio"]
  /\ map e_recommended formats
     = (if b1 then [Some (negb is_long)] else [])
       ++ (if b2 then [Some (is_long || negb b1)] else [])
       ++ (if b3 then [Some false] else [])
       ++ [Some (negb (b1 || b2 || b3)); None]
  /\ map e_ext formats
     = (if b1 then ["mp4"] else []) ++ (if b2 then ["mp4"] else [])
       ++ (if b3 then ["mp4"] else []) ++ ["mp4"; "mp3"].
Proof.
  unfold build_formats. intros H.
  destruct (_estimate_file_size (Some duration) 1080) as [s1|];
    destruct (_estimate_file_size (Some duration) 720) as [s2|];
    destruct (_estimate_file_size (Some duration) 480) as [s3|];
    destruct (_estimate_audio_size (Some duration)) as [s4|];
    destruct b1, b2, b3; run_attempt; simpl in H;
    try discriminate H; injection H as <-; repeat split.
Qed.

(** X17: the menu of formats.  When the extraction succeeds, the menu
    lists an entry for 1080p, 720p and 480p, in this order, exactly when
    some format with a picture is at least that high, and always ends with
    the entries "best" and "bestaudio"; an entry for a height comes with
    the entries for the lower heights.  At most one entry is recommended:
    720p when it is offered, unless 1080p is offered and the video is not
    longer than an hour; "best" when nothing of 480p or more is offered;
    and none at all when 480p is the most that is offered. *)
Theorem menu_of_formats (info : tool_info) (v : video_info) :
  video_info_of info = inr v ->
  exists has_1080p has_720p has_480p : bool,
    (has_1080p = true <-> exists f, f ∈ i_formats info /\ height_at_least 1080 f)
    /\ (has_720p = true <-> exists f, f ∈ i_formats info /\ height_at_least 720 f)
    /\ (has_480p = true <-> exists f, f ∈ i_formats info /\ height_at_least 480 f)
    /\ (has_1080p = true -> has_720p = true)
    /\ (has_720p = true -> has_480p = true)
    /\ map e_format_id (v_formats v)
       = (if has_1080p then ["best[height>=1080]"] else [])
         ++ (if has_720p then ["best[height>=720]"] else [])
         ++ (if has_480p then ["best[height>=480]"] else [])
         ++ ["best"; "bestaudio"]
    /\ map e_format_id (List.filter is_recommended (v_formats v))
       = if has_720p then
           if has_1080p && negb (v_is_long_video v)
           then ["best[height>=1080]"] else ["best[height>=720]"]
         else if has_480p then [] else ["best"].
Proof.
  unfold video_info_of. intros H.
  destruct (get_or (i_duration info) 0) as [duration|]; [|discriminate H].
  destruct (any_height_ge 1080 (i_formats info)) as [b1|] eqn:E1;
    [|discriminate H].
  destruct (any_height_ge 720 (i_formats info)) as [b2|] eqn:E2;
    [|discriminate H].
  destruct (any_height_ge 480 (i_formats info)) as [b3|] eqn:E3;
    [|discriminate H].
  run_attempt.
  destruct (build_formats duration (3600 <? duration) b1 b2 b3)
    as [|formats] eqn:Eb; [discriminate H|].
  injection H as <-. simpl.
  assert (H12 : b1 = true -> b2 = true).
  { destruct (any_height_ge_mono 1080 720 _ _ ltac:(lia) E1) as (b' & Hb' & Himp).
    rewrite E2 in Hb'. injection Hb' as <-. exact Himp. }
  assert (H23 : b2 = true -> b3 = true).
  { destruct (any_height_ge_mono 720 480 _ _ ltac:(lia) E2) as (b' & Hb' & Himp).
    rewrite E3 in Hb'. injection Hb' as <-. exact Himp. }
  exists b1, b2, b3.
  split; [apply any_height_ge_spec, E1|].
  split; [apply any_height_ge_spec, E2|].
  split; [apply any_height_ge_spec, E3|].
  split; [exact H12|]. split; [exact H23|].
  split; [apply (build_formats_shape _ _ _ _ _ _ Eb)|].
  unfold build_formats in Eb.
  destruct (_estimate_file_size (Some duration) 1080) as [s1|];
    destruct (_estimate_file_size (Some duration) 720) as [s2|];
    destruct (_estimate_file_size (Some duration) 480) as [s3|];
    destruct (_estimate_audio_size (Some duration)) as [s4|];
    destruct b1, b2, b3; run_attempt; simpl in Eb;
    try discriminate Eb; injection Eb as <-;
    try (specialize (H12 eq_refl); discriminate H12);
    try (specialize (H23 eq_refl); discriminate H23);
    destruct (3600 <? duration); reflexivity.
Qed.

Lemma menu_of_formats_witness :
  exists v, video_info_of sample_info = inr v
    /\ map e_format_id (v_formats v)
       = ["best[height>=720]"; "best[height>=480]"; "best"; "bestaudio"]
    /\ map e_format_id (List.filter is_recommended (v_formats v))
       = ["best[height>=720]"].
Proof.
  destruct (video_info_of sample_info) as [|v] eqn:E; [discriminate E|].
  exists v. split; [reflexivity|].
  destruct (menu_of_formats sample_info v E)
    as (b1 & b2 & b3 & _ & _ & _ & _ & _ & Hids & Hrec).
  injection E as <-. split; reflexivity.
Defined.

(** ** When the extraction fails *)

Lemma any_height_ge_raise n formats e :
  any_height_ge n formats = Raise e ->
  e = TypeError
  /\ exists g, g ∈ formats /\ is_video g /\ tf_height g = IsNone.
Proof.
  induction formats as [|f formats IH]; simpl; [discriminate|].
  destruct (bool_decide_reflect (tf_vcodec f = Some "none")) as [Hv|Hv].
  - intros H. destruct (IH H) as (-> & g & Hin & Hg).
    split; [reflexivity|]. exists g. split; [right; exact Hin|exact Hg].
  - destruct (tf_height f) as [| |h] eqn:Hh; simpl.
    + destruct (n <=? 0); [discriminate|].
      intros H. destruct (IH H) as (-> & g & Hin & Hg).
      split; [reflexivity|]. exists g. split; [right; exact Hin|exact Hg].
    + intros [= <-]. split; [reflexivity|].
      exists f. split; [left|]. split; [exact Hv|exact Hh].
    + destruct (n <=? h); [discriminate|].
      intros H. destruct (IH H) as (-> & g & Hin & Hg).
      split; [reflexivity|]. exists g. split; [right; exact Hin|exact Hg].
Qed.

Lemma int_truediv_raise a e :
  PyFloat.int_truediv a 60 = Raise e -> e = OverflowError.
Proof.
  unfold PyFloat.int_truediv. destruct a as [|p|p]; [discriminate| |];
    destruct (SFdiv_core_binary _ _ _ _ _ _) as [[mz ez] lz];
    destruct (binary_round_aux _ _ _ _ _ _); congruence.
Qed.

Lemma estimate_file_size_raise d height e :
  _estimate_file_size (Some d) height = Raise e ->
  e = OverflowError /\ ~ (0 <= d < 2 ^ 63).
Proof.
  intros H. split.
  - unfold _estimate_file_size in H. destruct d as [|p|p]; [discriminate| |];
      (destruct (PyFloat.int_truediv _ 60) as [x|e'] eqn:Hdiv;
       unfold mbind, result_bind in H; cbv beta iota in H;
       [destruct (render_size_total (PyFloat.mul x (PyFloat.of_int (bitrates_get height))))
          as [s Hs]; rewrite Hs in H; discriminate H
       |injection H as <-; apply (int_truediv_raise _ _ Hdiv)]).
  - intros Hd. destruct (estimate_file_size_total d height Hd) as [s Hs].
    rewrite Hs in H. discriminate H.
Qed.

Lemma estimate_audio_size_raise d e :
  _estimate_audio_size (Some d) = Raise e ->
  e = OverflowError /\ ~ (0 <= d < 2 ^ 63).
Proof.
  intros H. split.
  - unfold _estimate_audio_size in H. destruct d as [|p|p]; [discriminate| |];
      (destruct (PyFloat.int_truediv _ 60) as [x|e'] eqn:Hdiv;
       unfold mbind, result_bind in H; cbv beta iota in H;
       [destruct (render_size_total (PyFloat.mul x PyFloat.lit_2_4))
          as [s Hs]; rewrite Hs in H; discriminate H
       |injection H as <-; apply (int_truediv_raise _ _ Hdiv)]).
  - intros Hd. destruct (estimate_audio_size_total d Hd) as [s Hs].
    rewrite Hs in H. discriminate H.
Qed.

Lemma build_formats_raise duration is_long b1 b2 b3 f :
  build_formats duration is_long b1 b2 b3 = inl f ->
  f = Builtin OverflowError "/" /\ ~ (0 <= duration < 2 ^ 63).
Proof.
  unfold build_formats. intros H.
  destruct (_estimate_file_size (Some duration) 1080) as [s1|e1] eqn:E1;
    [|destruct (estimate_file_size_raise _ _ _ E1) as [-> Hd]];
    (destruct (_estimate_file_size (Some duration) 720) as [s2|e2] eqn:E2;
     [|destruct (estimate_file_size_raise _ _ _ E2) as [-> Hd2]]);
    (destruct (_estimate_file_size (Some duration) 480) as [s3|e3] eqn:E3;
     [|destruct (estimate_file_size_raise _ _ _ E3) as [-> Hd3]]);
    (destruct (_estimate_audio_size (Some duration)) as [s4|e4] eqn:E4;
     [|destruct (estimate_audio_size_raise _ _ E4) as [-> Hd4]]);
    destruct b1, b2, b3; run_attempt; simpl in H;
    try discriminate H; injection H as <-; split; (reflexivity || assumption).
Qed.

Lemma build_formats_length duration is_long b1 b2 b3 formats :
  build_formats duration is_long b1 b2 b3 = inr formats ->
  (2 <= length formats <= 5)%nat.
Proof.
  intros H. apply build_formats_shape in H as (Hids & _).
  apply (f_equal length) in Hids. rewrite length_map in Hids.
  rewrite Hids. destruct b1, b2, b3; simpl; lia.
Qed.

Lemma substring_0_length n : forall s,
  String.length (String.substring 0 n s) = Nat.min n (String.length s).
Proof.
  induction n as [|n IH]; intros [|c s]; simpl; try reflexivity.
  rewrite IH. reflexivity.
Qed.

Lemma describe_length description :
  (String.length (describe description) <= 203)%nat.
Proof.
  unfold describe. destruct description as [s|]; [|simpl; lia].
  destruct (String.eqb s ""); [simpl; lia|].
  rewrite app_length_s, substring_0_length.
  change (String.length "...") with 3%nat.
  pose proof (Nat.le_min_l 200 (String.length s)). lia.
Qed.

(** X18: the extraction fails on its own in three ways only: the duration
    is [None] (a comparison with 3600 raises), a format with a picture
    has the height [None] (a comparison with a height raises), or the
    duration is not an int between 0 and 2^63 (the estimate of a size
    overflows).  So on a dictionary with an int duration in that range, or
    none, and an int height, or none, for every format with a picture, it
    returns: the duration string is that of [_format_duration], the menu
    has between 2 and 5 entries, and the description has at most 203
    characters. *)
Theorem extraction_fails_only (info : tool_info) :
  (forall f, video_info_of info = inl f ->
     (f = Builtin TypeError ">" /\ i_duration info = IsNone)
     \/ (f = Builtin TypeError ">="
         /\ exists g, g ∈ i_formats info /\ is_video g /\ tf_height g = IsNone)
     \/ (f = Builtin OverflowError "/"
         /\ exists d, get_or (i_duration info) 0 = Some d /\ ~ (0 <= d < 2 ^ 63)))
  /\ (forall duration,
        get_or (i_duration info) 0 = Some duration ->
        0 <= duration < 2 ^ 63 ->
        (forall g, g ∈ i_formats info -> is_video g -> tf_height g <> IsNone) ->
        exists v,
          video_info_of info = inr v
          /\ v_duration v = duration
          /\ v_duration_string v = _format_duration (Some duration)
          /\ v_is_long_video v = (3600 <? duration)
          /\ (2 <= length (v_formats v) <= 5)%nat
          /\ (String.length (v_description v) <= 203)%nat).
Proof.
  assert (Hfail : forall f, video_info_of info = inl f ->
     (f = Builtin TypeError ">" /\ i_duration info = IsNone)
     \/ (f = Builtin TypeError ">="
         /\ exists g, g ∈ i_formats info /\ is_video g /\ tf_height g = IsNone)
     \/ (f = Builtin OverflowError "/"
         /\ exists d, get_or (i_duration info) 0 = Some d /\ ~ (0 <= d < 2 ^ 63))).
  { intros f. unfold video_info_of.
    destruct (get_or (i_duration info) 0) as [d|] eqn:Hd.
    - destruct (any_height_ge 1080 (i_formats info)) as [b1|e1] eqn:E1.
      + destruct (any_height_ge 720 (i_formats info)) as [b2|e2] eqn:E2.
        * destruct (any_height_ge 480 (i_formats info)) as [b3|e3] eqn:E3.
          -- run_attempt.
             destruct (build_formats d (3600 <? d) b1 b2 b3) as [f'|formats] eqn:Eb;
               [|discriminate].
             intros [= <-]. right. right.
             destruct (build_formats_raise _ _ _ _ _ _ Eb) as [-> Hnot].
             split; [reflexivity|]. exists d. split; [reflexivity|exact Hnot].
          -- run_attempt. intros [= <-]. right. left.
             destruct (any_height_ge_raise _ _ _ E3) as [-> Hg]. split; [reflexivity|exact Hg].
        * run_attempt. intros [= <-]. right. left.
          destruct (any_height_ge_raise _ _ _ E2) as [-> Hg]. split; [reflexivity|exact Hg].
      + run_attempt. intros [= <-]. right. left.
        destruct (any_height_ge_raise _ _ _ E1) as [-> Hg]. split; [reflexivity|exact Hg].
    - intros [= <-]. left. split; [reflexivity|].
      destruct (i_duration info); simpl in Hd; congruence. }
  split; [exact Hfail|].
  intros duration Hdur Hrange Hsafe.
  destruct (video_info_of info) as [f|v] eqn:E.
  - exfalso. destruct (Hfail f eq_refl) as [[_ Hn]|[[_ (g & Hin & Hv & Hh)]|[_ (d & Hd & Hnot)]]].
    + rewrite Hn in Hdur. discriminate Hdur.
    + exact (Hsafe g Hin Hv Hh).
    + rewrite Hdur in Hd. injection Hd as <-. exact (Hnot Hrange).
  - exists v. split; [reflexivity|].
    unfold video_info_of in E. rewrite Hdur in E.
    destruct (any_height_ge 1080 (i_formats info)) as [b1|]; [|discriminate E].
    destruct (any_height_ge 720 (i_formats info)) as [b2|]; [|discriminate E].
    destruct (any_height_ge 480 (i_formats info)) as [b3|]; [|discriminate E].
    run_attempt.
    destruct (build_formats duration (3600 <? duration) b1 b2 b3)
      as [|formats] eqn:Eb; [discriminate E|].
    injection E as <-. simpl.
    repeat split; try apply (build_formats_length _ _ _ _ _ _ Eb).
    apply describe_length.
Qed.

Lemma extraction_fails_only_witness :
  exists v,
    video_info_of sample_info = inr v
    /\ v_duration v = 5400
    /\ v_duration_string v = _format_duration (Some 5400)
    /\ v_is_long_video v = (3600 <? 5400)
    /\ (2 <= length (v_formats v) <= 5)%nat
    /\ (String.length (v_description v) <= 203)%nat.
Proof.
  apply (proj2 (extraction_fails_only sample_info) 5400); [reflexivity|lia|].
  intros g Hin Hv. unfold sample_info in Hin. simpl in Hin.
  rewrite !elem_of_cons, elem_of_nil in Hin.
  destruct Hin as [->|[->|[->|[]]]]; simpl; try discriminate.
  exfalso. apply Hv. reflexivity.
Defined.

(** ** The status of a failed extraction *)

Lemma contains_cons (needle : string) (c : ascii) (s : string) :
  contains needle (String c s)
  = String.prefix needle (String c s) || contains needle s.
Proof. reflexivity. Qed.

Lemma contains_cons_ne (x c : ascii) (p s : string) :
  Ascii.eqb x c = false ->
  contains (String x p) (String c s) = contains (String x p) s.
Proof. intros H. rewrite contains_cons, prefix_cons_s, H. reflexivity. Qed.

Lemma lower_app (a b : string) : lower (a +:+ b) = lower a +:+ lower b.
Proof.
  induction a as [|c a IH]; [rewrite !app_nil_l_s; reflexivity|].
  rewrite app_cons_s. simpl. rewrite IH, app_cons_s. reflexivity.
Qed.

Lemma prefix_app_s (needle post : string) : String.prefix needle (needle +:+ post) = true.
Proof.
  induction needle as [|c n IH]; [apply prefix_nil_s|].
  rewrite app_cons_s, prefix_cons_s, Ascii.eqb_refl. exact IH.
Qed.

Lemma prefix_spec_s (needle : string) : forall s,
  String.prefix needle s = true -> exists post, s = needle +:+ post.
Proof.
  induction needle as [|c n IH]; intros s H.
  - exists s. rewrite app_nil_l_s. reflexivity.
  - destruct s as [|x s]; [discriminate H|].
    rewrite prefix_cons_s in H. apply andb_true_iff in H as [Hc Hp].
    apply Ascii.eqb_eq in Hc as ->. destruct (IH s Hp) as [post ->].
    exists post. rewrite app_cons_s. reflexivity.
Qed.

Lemma contains_intro (needle pre post : string) :
  contains needle (pre +:+ needle +:+ post) = true.
Proof.
  induction pre as [|c pre IH].
  - rewrite app_nil_l_s. destruct (needle +:+ post) eqn:E.
    + destruct needle; [reflexivity|rewrite app_cons_s in E; discriminate E].
    + rewrite contains_cons, <- E, prefix_app_s. reflexivity.
  - rewrite app_cons_s, contains_cons, IH. apply orb_true_r.
Qed.

Lemma contains_spec (needle : string) : forall s,
  contains needle s = true -> exists pre post, s = pre +:+ needle +:+ post.
Proof.
  induction s as [|c s IH]; intros H.
  - change (contains needle "") with (String.prefix needle "" || false) in H.
    rewrite orb_false_r in H.
    destruct (prefix_spec_s _ _ H) as [post ->]. exists "", post.
    rewrite app_nil_l_s. reflexivity.
  - rewrite contains_cons in H. apply orb_true_iff in H as [H|H].
    + destruct (prefix_spec_s _ _ H) as [post ->]. exists "", post.
      rewrite app_nil_l_s. reflexivity.
    + destruct (IH H) as (pre & post & ->). exists (String c pre), post.
      rewrite app_cons_s. reflexivity.
Qed.

Lemma sign_in_is_bot (msg : string) :
  contains "Sign in to confirm you're not a bot" msg = true ->
  contains "bot" (lower msg) = true.
Proof.
  intros H. destruct (contains_spec _ _ H) as (pre & post & ->).
  rewrite !lower_app.
  change (lower "Sign in to confirm you're not a bot")
    with ("sign in to confirm you're not a " +:+ "bot").
  rewrite app_assoc_s, <- (app_assoc_s (lower pre)).
  apply contains_intro.
Qed.

Ltac skip_prefix :=
  repeat (rewrite app_cons_s, contains_cons_ne by reflexivity);
  rewrite app_nil_l_s.

Lemma failed_prefix_bot (msg : string) :
  contains "bot" (lower ("Failed to extract video info: " +:+ msg))
  = contains "bot" (lower msg).
Proof.
  rewrite lower_app.
  change (lower "Failed to extract video info: ")
    with "failed to extract video info: ".
  skip_prefix. reflexivity.
Qed.

Lemma failed_prefix_blocking (msg : string) :
  contains "blocking requests" ("Failed to extract video info: " +:+ msg)
  = contains "blocking requests" msg.
Proof. skip_prefix. reflexivity. Qed.

Lemma extract_failure_response_of (tool : string -> string + video_info)
    (request_url error_msg : string) :
  strip request_url <> "" ->
  is_valid_youtube_url (strip request_url) = true ->
  tool (strip request_url) = inl (extract_error_message error_msg) ->
  extract_video_info tool request_url
  = ([strip request_url], extract_failure_response error_msg).
Proof.
  intros Hne Hvalid Htool. unfold extract_video_info.
  destruct (String.eqb_spec (strip request_url) "") as [E|_]; [contradiction|].
  rewrite Hvalid, Htool. simpl negb. cbv iota.
  unfold extract_error_message, extract_failure_response.
  destruct (contains "bot" (lower error_msg)) eqn:Hbot.
  { rewrite orb_true_r. reflexivity. }
  destruct (contains "Sign in to confirm you're not a bot" error_msg) eqn:Hsign.
  { rewrite (sign_in_is_bot _ Hsign) in Hbot. discriminate Hbot. }
  simpl orb. cbv iota.
  destruct (contains "Private video" error_msg); [reflexivity|].
  destruct (contains "Video unavailable" error_msg); [reflexivity|].
  rewrite failed_prefix_bot, failed_prefix_blocking, Hbot, orb_false_r.
  destruct (contains "blocking requests" error_msg); reflexivity.
Qed.

(** X19: the status of a failed extraction, through both handlers.  For a
    valid URL on which the tool raises with message [msg], POST /extract
    answers 429 when [msg] holds "bot" in any case; otherwise 500 with
    the private-video text when it holds "Private video"; otherwise 500
    with the unavailable text when it holds "Video unavailable";
    otherwise 429 when it holds "blocking requests", and else 500 with
    "Failed to extract video info: " before [msg].  The same holds for
    the message of an exception the extraction itself raises. *)
Theorem extract_failure_status (tool : string -> string + tool_info)
    (str_builtin : exn -> string -> string) (request_url : string) :
  strip request_url <> "" ->
  is_valid_youtube_url (strip request_url) = true ->
  (forall f, extract_body tool (strip request_url) = inl f ->
     extract_video_info (downloader_extract_video_info tool str_builtin)
       request_url
     = ([strip request_url], extract_failure_response (str str_builtin f)))
  /\ (forall msg, tool (clean_url (strip request_url)) = inl msg ->
        extract_video_info (downloader_extract_video_info tool str_builtin)
          request_url
        = ([strip request_url], extract_failure_response msg)).
Proof.
  intros Hne Hvalid.
  assert (Hgen : forall f, extract_body tool (strip request_url) = inl f ->
     extract_video_info (downloader_extract_video_info tool str_builtin)
       request_url
     = ([strip request_url], extract_failure_response (str str_builtin f))).
  { intros f Hf. apply extract_failure_response_of; try assumption.
    unfold downloader_extract_video_info. rewrite Hf. reflexivity. }
  split; [exact Hgen|].
  intros msg Hmsg. apply (Hgen (ToolFailed msg)).
  unfold extract_body. rewrite Hmsg. reflexivity.
Qed.

Lemma extract_failure_status_witness :
  extract_video_info
    (downloader_extract_video_info
       (fun _ => inl "ERROR: [youtube] dQw4w9WgXcQ: Private video. Sign in if you have access")
       (fun _ _ => "TypeError"))
    " https://youtu.be/dQw4w9WgXcQ "
  = (["https://youtu.be/dQw4w9WgXcQ"],
     HTTPException 500 "This video is private and cannot be downloaded.").
Proof.
  refine (proj2 (extract_failure_status
            (fun _ => inl "ERROR: [youtube] dQw4w9WgXcQ: Private video. Sign in if you have access")
            (fun _ _ => "TypeError") " https://youtu.be/dQw4w9WgXcQ " _ _) _ eq_refl).
  - vm_compute. intros H. discriminate H.
  - vm_compute. reflexivity.
Defined.


(** ** POST /download *)

Lemma split_once_join (c : ascii) (a b : string) :
  (forall x, String.get x a <> Some c) ->
  split_once c (a +:+ String c b) = Some (a, b).
Proof.
  induction a as [|x a IH]; intros Hfree.
  - rewrite app_nil_l_s. simpl. rewrite Ascii.eqb_refl. reflexivity.
  - rewrite app_cons_s. simpl.
    destruct (Ascii.eqb_spec x c) as [->|Hne].
    + exfalso. apply (Hfree 0%nat). reflexivity.
    + rewrite IH; [reflexivity|]. intros i. apply (Hfree (S i)).
Qed.

Lemma bar_free_get (s : string) :
  bar_free s = true -> forall i, String.get i s <> Some "|"%char.
Proof.
  induction s as [|c s IH]; intros H i; [destruct i; discriminate|].
  simpl in H. apply andb_true_iff in H as [Hc Hs].
  destruct i as [|i]; simpl.
  - intros [= ->]. discriminate Hc.
  - apply IH, Hs.
Qed.

Lemma split_once_none (c : ascii) (s : string) :
  split_once c s = None -> forall i, String.get i s <> Some c.
Proof.
  induction s as [|x s IH]; intros H i; [destruct i; discriminate|].
  simpl in H. destruct (Ascii.eqb_spec x c) as [->|Hne]; [discriminate H|].
  destruct (split_once c s) as [[a b]|]; [discriminate H|].
  destruct i as [|i]; simpl; [congruence|]. apply IH. reflexivity.
Qed.

Lemma split_once_some (c : ascii) (s a b : string) :
  split_once c s = Some (a, b) ->
  s = a +:+ String c b /\ forall i, String.get i a <> Some c.
Proof.
  revert a. induction s as [|x s IH]; intros a H; [discriminate H|].
  simpl in H. destruct (Ascii.eqb_spec x c) as [->|Hne].
  - injection H as <- <-. split; [reflexivity|]. intros i. destruct i; discriminate.
  - destruct (split_once c s) as [[a' b']|]; [|discriminate H].
    injection H as <- <-. destruct (IH a' eq_refl) as [-> Hfree].
    split; [rewrite app_cons_s; reflexivity|].
    intros i. destruct i as [|i]; simpl; [congruence|apply Hfree].
Qed.

(** X20: POST /download accepts a request exactly when the stripped URL
    is not empty, the format id is not empty and the stripped URL is a
    valid YouTube URL.  A rejected request is answered 400 and leaves no
    trace: the registry is unchanged and no download is queued.  An
    accepted request stores one pending task under the new id, with the
    stripped URL, queues exactly one download with the same four values,
    answers the id and the status URL of that task, and leaves the other
    tasks and the counter as they were. *)
Theorem process_download_accepts (tm : TaskManager)
    (now_created now_updated : datetime)
    (uuid4 url format_id quality : string) :
  ((strip url = "" \/ format_id = "" \/ is_valid_youtube_url (strip url) = false) ->
   exists detail,
     _process_download tm now_created now_updated uuid4 url format_id quality
     = (tm, [], HTTPException 400 detail))
  /\ (strip url <> "" -> format_id <> "" ->
      is_valid_youtube_url (strip url) = true ->
      exists tm' resp t,
        _process_download tm now_created now_updated uuid4 url format_id quality
        = (tm', [mkDownloadJob uuid4 (strip url) format_id quality], Success resp)
        /\ s_task_id resp = uuid4
        /\ s_status_url resp = "/task/" +:+ uuid4
        /\ get_task_status tm' uuid4 = Success t
        /\ (t_status t, t_progress t) = (PENDING, 0)
        /\ (t_url t, t_format_id t, t_quality t) = (strip url, format_id, quality)
        /\ (forall other, other <> uuid4 ->
              get_task_status tm' other = get_task_status tm other)
        /\ active_downloads tm' = active_downloads tm).
Proof.
  unfold _process_download. split.
  - intros H.
    destruct (String.eqb_spec (strip url) "") as [E1|N1]; [simpl; eauto|].
    destruct (String.eqb_spec format_id "") as [E2|N2]; [simpl; eauto|].
    destruct H as [H|[H|H]]; [contradiction|contradiction|].
    rewrite H. simpl. eauto.
  - intros N1 N2 Hvalid.
    destruct (String.eqb_spec (strip url) "") as [E1|_]; [contradiction|].
    destruct (String.eqb_spec format_id "") as [E2|_]; [contradiction|].
    rewrite Hvalid. simpl.
    eexists _, _, _. split; [reflexivity|].
    split; [reflexivity|]. split; [reflexivity|].
    split; [unfold get_task_status, get_task, create_task; simpl;
            rewrite lookup_insert_eq; reflexivity|].
    split; [reflexivity|]. split; [reflexivity|].
    split; [|reflexivity].
    intros other Hne. unfold get_task_status, get_task, create_task. simpl.
    rewrite lookup_insert_ne by congruence. reflexivity.
Qed.

Lemma process_download_accepts_witness :
  exists tm' resp t,
    _process_download TaskManager_init 7 8 "id-1"
      " https://youtu.be/dQw4w9WgXcQ " "best" "Best"
    = (tm', [mkDownloadJob "id-1" "https://youtu.be/dQw4w9WgXcQ" "best" "Best"],
       Success resp)
    /\ get_task_status tm' "id-1" = Success t
    /\ t_status t = PENDING.
Proof.
  destruct (proj2 (process_download_accepts TaskManager_init 7 8 "id-1"
                     " https://youtu.be/dQw4w9WgXcQ " "best" "Best"))
    as (tm' & resp & t & Hrun & _ & _ & Hget & Hst & _).
  - vm_compute. intros H. discriminate H.
  - intros H. discriminate H.
  - vm_compute. reflexivity.
  - exists tm', resp, t. split; [exact Hrun|]. split; [exact Hget|].
    congruence.
Defined.

(** X21: the form field [format].  A field that holds a bar is cut at
    its first bar: what a format id without a bar and any quality label
    are joined to with a bar is read back as that id and that label; a
    field without a bar is the format id, with the quality "Best Available
    Quality"; and a field that starts with a bar gives an empty format id,
    which POST /download/form rejects with 400. *)
Theorem parse_format_round_trip (format_id quality : string) :
  bar_free format_id = true ->
  parse_format (format_id +:+ "|" +:+ quality) = (format_id, quality)
  /\ parse_format format_id = (format_id, "Best Available Quality")
  /\ (forall tm now_created now_updated uuid4 video_url,
        exists detail,
          download_video_form tm now_created now_updated uuid4 video_url
            ("|" +:+ quality)
          = (tm, [], HTTPException 400 detail))
  /\ (forall format a b, parse_format format = (a, b) ->
        format = a +:+ "|" +:+ b /\ bar_free a = true
        \/ (format = a /\ bar_free a = true /\ b = "Best Available Quality")).
Proof.
  intros Hfree. split; [|split; [|split]].
  - unfold parse_format.
    change ("|" +:+ quality) with (String "|" quality).
    rewrite split_once_join by (apply bar_free_get, Hfree). reflexivity.
  - unfold parse_format.
    destruct (split_once "|" format_id) as [[a b]|] eqn:E; [|reflexivity].
    exfalso. apply split_once_some in E as [-> _].
    clear -Hfree. induction a as [|c a IH].
    + rewrite app_nil_l_s in Hfree. discriminate Hfree.
    + rewrite app_cons_s in Hfree. simpl in Hfree.
      apply andb_true_iff in Hfree as [_ H]. exact (IH H).
  - intros tm now_created now_updated uuid4 video_url.
    unfold download_video_form, parse_format.
    change ("|" +:+ quality) with (String "|" quality). simpl split_once.
    cbv iota beta. unfold _process_download.
    rewrite orb_true_r. eauto.
  - intros format a b. unfold parse_format.
    assert (Hget : forall s, (forall i, String.get i s <> Some "|"%char) ->
                     bar_free s = true).
    { induction s as [|c s IH]; intros H; [reflexivity|]. simpl.
      rewrite IH by (intros i; apply (H (S i))).
      destruct (Ascii.eqb_spec c "|") as [->|]; [|reflexivity].
      exfalso. apply (H 0%nat). reflexivity. }
    destruct (split_once "|" format) as [[a' b']|] eqn:E.
    + intros [= <- <-]. left. apply split_once_some in E as [-> Ha].
      split; [reflexivity|apply Hget, Ha].
    + intros [= <- <-]. right. split; [reflexivity|].
      split; [apply Hget, split_once_none, E|reflexivity].
Qed.

Lemma parse_format_round_trip_witness :
  parse_format ("best[height>=720]" +:+ "|" +:+ "Full HD (720p) | High")
  = ("best[height>=720]", "Full HD (720p) | High").
Proof.
  exact (proj1 (parse_format_round_trip "best[height>=720]"
                  "Full HD (720p) | High" eq_refl)).
Defined.


(** ** The guarded body of [download_video_async] *)

Lemma from_slash_app (u x : string) :
  slash_free u = true -> from_slash (u +:+ String "/" x) = String "/" x.
Proof.
  intros H. induction u as [|c u IH]; [reflexivity|].
  simpl in H. apply andb_true_iff in H as [Hc Hu].
  rewrite app_cons_s. simpl. apply negb_true_iff in Hc. rewrite Hc. exact (IH Hu).
Qed.

Lemma dirname_join (dir name : string) :
  slash_free name = true -> dir <> "" -> ends_with "/" dir = false ->
  dirname (os_path_join dir name) = dir.
Proof.
  intros Hname Hne Hend.
  rewrite os_path_join_relative by (apply prefix_slash_false, Hname).
  destruct (String.eqb_spec dir "") as [E|_]; [contradiction|].
  rewrite Hend. simpl orb. cbv iota.
  unfold dirname. rewrite !rev_app_s.
  change (String.rev "/") with "/".
  rewrite app_cons_s, app_nil_l_s.
  rewrite from_slash_app by (rewrite slash_free_rev; exact Hname).
  unfold ends_with in Hend. change (String.rev "/") with "/" in Hend.
  destruct (String.rev dir) as [|c r] eqn:Er.
  - exfalso. apply Hne. rewrite <- (rev_rev_s dir), Er. reflexivity.
  - rewrite prefix_cons_s, prefix_nil_s, andb_true_r in Hend.
    simpl. rewrite Ascii.eqb_sym, Hend. simpl.
    rewrite <- Er. apply rev_rev_s.
Qed.

Lemma basename_join (dir name : string) :
  slash_free name = true -> basename (os_path_join dir name) = name.
Proof.
  intros Hname.
  rewrite os_path_join_relative by (apply prefix_slash_false, Hname).
  destruct (String.eqb_spec dir "") as [->|Hne]; simpl.
  - rewrite app_nil_l_s. apply basename_slash_free, Hname.
  - destruct (ends_with "/" dir) eqn:E.
    + apply ends_with_slash in E as [pre ->].
      rewrite app_assoc_s. apply basename_after_slash, Hname.
    + rewrite app_assoc_s. apply basename_after_slash, Hname.
Qed.

Lemma changes_only_weaken keys keys' task_id tm tm' :
  keys ⊆ keys' -> changes_only keys task_id tm tm' ->
  changes_only keys' task_id tm tm'.
Proof.
  intros Hsub (Hc & Ho & Hn & Hk). repeat split; try assumption.
  intros t Ht. destruct (Hk t Ht) as (t' & Ht' & Hf & Hg).
  exists t'. repeat split; try assumption.
  intros k Hk'. apply Hg. intros Hin. apply Hk', Hsub, Hin.
Qed.

Ltac keys_sub :=
  let k := fresh "k" in let H := fresh "H" in
  intros k H; unfold running_keys, progress_keys in *;
  rewrite ?elem_of_cons in *; tauto.

Ltac not_running :=
  let H := fresh "H" in
  intros H; unfold running_keys, progress_keys in H;
  rewrite ?elem_of_cons, elem_of_nil in H; intuition discriminate.

Lemma sync_step_changes_only fos task_id tm a :
  changes_only running_keys task_id tm (sync_step fos task_id tm a).
Proof.
  unfold sync_step. destruct a as [now [d|attempt]]; simpl.
  - apply (changes_only_weaken progress_keys);
      [keys_sub|apply progress_hook_changes_only].
  - apply update_task_changes_only. repeat constructor.
Qed.

Lemma sync_steps_changes_only fos task_id actions : forall tm,
  changes_only running_keys task_id tm (foldl (sync_step fos task_id) tm actions).
Proof.
  induction actions as [|a actions IH]; intros tm; [apply changes_only_refl|].
  simpl. eapply changes_only_trans; [apply sync_step_changes_only|apply IH].
Qed.

Lemma running_changes_only fos c task_id actions tm :
  changes_only running_keys task_id tm
    (foldl (sync_step fos task_id)
       (update_task
          (update_task tm (at_start c) task_id
             [status_ PROCESSING; progress_ 5; message_ "Starting download..."])
          (at_prepare c) task_id
          [progress_ 10; message_ "Preparing download..."])
       actions).
Proof.
  eapply changes_only_trans; [|apply sync_steps_changes_only].
  eapply changes_only_trans;
    apply update_task_changes_only; repeat constructor.
Qed.

Lemma task_get_error t t' :
  task_get k_error t' = task_get k_error t -> t_error t' = t_error t.
Proof. simpl. congruence. Qed.

Lemma task_get_filename t t' :
  task_get k_filename t' = task_get k_filename t -> t_filename t' = t_filename t.
Proof. simpl. congruence. Qed.

Lemma task_get_download_url t t' :
  task_get k_download_url t' = task_get k_download_url t ->
  t_download_url t' = t_download_url t.
Proof. simpl. congruence. Qed.

(** X22: how a download ends is what the registry shows.  When
    [_download_video_sync] returns the path of a file in its temporary
    directory, the file is registered under the task id with that
    directory and the bare file name, not yet downloaded, and the task
    reads completed, 100 percent, with the file name and the download URL
    of its id; its error is what it was.  When it raises, no file is
    registered and the task reads failed, 0 percent, "Download failed",
    with the message that is also raised; its file name and download URL
    are what they were.  Either way the other tasks, the counter and the
    task's own URL, format and creation time are untouched, whatever the
    progress events in between; and when the task is no longer in the
    registry, the registry is left as it is, while the file is registered
    all the same. *)
Theorem download_outcome_recorded (float_of_string : string -> option float)
    (disk : string -> option Z) (tm : TaskManager) (fm : FileManager)
    (c : clock) (task_id : string) (actions : list (datetime * sync_action)) :
  (forall dir name,
     slash_free name = true -> dir <> "" -> ends_with "/" dir = false ->
     exists tm' fm' r,
       download_guarded float_of_string disk (tm, fm) c task_id actions
         (inr (os_path_join dir name))
       = (tm', fm', inr (os_path_join dir name))
       /\ get_file_info fm' task_id = Some r
       /\ (file_path r, temp_dir r, filename r) = (os_path_join dir name, dir, name)
       /\ downloaded r = false
       /\ (forall other, other <> task_id ->
             get_file_info fm' other = get_file_info fm other)
       /\ changes_only (k_filename :: k_download_url :: running_keys) task_id tm tm'
       /\ (forall t, tasks tm !! task_id = Some t ->
             exists t', tasks tm' !! task_id = Some t'
               /\ (t_status t', t_progress t') = (COMPLETED, 100)
               /\ t_message t' = "Download completed successfully!"
               /\ t_filename t' = Some name
               /\ t_download_url t' = Some ("/download-file/" +:+ task_id)
               /\ t_error t' = t_error t))
  /\ (forall e,
        exists tm',
          download_guarded float_of_string disk (tm, fm) c task_id actions (inl e)
          = (tm', fm, inl (download_error_message e))
          /\ changes_only (k_error :: running_keys) task_id tm tm'
          /\ (forall t, tasks tm !! task_id = Some t ->
                exists t', tasks tm' !! task_id = Some t'
                  /\ (t_status t', t_progress t') = (FAILED, 0)
                  /\ t_message t' = "Download failed"
                  /\ t_error t' = Some (download_error_message e)
                  /\ t_filename t' = t_filename t
                  /\ t_download_url t' = t_download_url t)).
Proof.
  pose proof (running_changes_only float_of_string c task_id actions tm) as Hrun.
  split.
  - intros dir name Hname Hne Hend. unfold download_guarded.
    set (tm_mid := foldl _ _ actions) in *.
    eexists _, _, _. split; [reflexivity|].
    split; [apply lookup_insert_eq|].
    simpl. rewrite dirname_join, basename_join by assumption.
    split; [reflexivity|]. split; [reflexivity|].
    split; [intros other Hother; unfold get_file_info, register_file; simpl;
            apply lookup_insert_ne; congruence|].
    split.
    + eapply changes_only_trans.
      * eapply changes_only_weaken; [|exact Hrun]. keys_sub.
      * apply update_task_changes_only. repeat constructor.
    + intros t Ht. destruct Hrun as (_ & _ & _ & Hk).
      destruct (Hk t Ht) as (t_mid & Hmid & _ & Hg).
      eexists. split; [apply update_task_lookup, Hmid|].
      pose proof (task_get_error _ _ (Hg k_error ltac:(not_running))) as He.
      rewrite <- He. destruct t_mid. repeat split.
  - intros e. unfold download_guarded.
    set (tm_mid := foldl _ _ actions) in *.
    eexists. split; [reflexivity|]. split.
    + eapply changes_only_trans.
      * eapply changes_only_weaken; [|exact Hrun]. keys_sub.
      * apply update_task_changes_only. repeat constructor.
    + intros t Ht. destruct Hrun as (_ & _ & _ & Hk).
      destruct (Hk t Ht) as (t_mid & Hmid & _ & Hg).
      eexists. split; [apply update_task_lookup, Hmid|].
      pose proof (task_get_filename _ _ (Hg k_filename ltac:(not_running))) as Hf.
      pose proof (task_get_download_url _ _ (Hg k_download_url ltac:(not_running))) as Hd.
      rewrite <- Hf, <- Hd. destruct t_mid. repeat split.
Qed.

Lemma download_outcome_recorded_witness :
  exists tm' fm' r,
    download_guarded (fun _ => None) sample_disk (sample_tasks, FileManager_init)
      sample_clock "b" [] (inr (os_path_join "/tmp/x" "video.mp4"))
    = (tm', fm', inr (os_path_join "/tmp/x" "video.mp4"))
    /\ get_file_info fm' "b" = Some r
    /\ (file_path r, temp_dir r, filename r)
       = (os_path_join "/tmp/x" "video.mp4", "/tmp/x", "video.mp4").
Proof.
  destruct (proj1 (download_outcome_recorded (fun _ => None) sample_disk
                     sample_tasks FileManager_init sample_clock "b" [])
              "/tmp/x" "video.mp4" eq_refl)
    as (tm' & fm' & r & Hrun & Hget & Hr & _).
  - intros H. discriminate H.
  - reflexivity.
  - exists tm', fm', r. repeat split; assumption.
Defined.

(** X23: deleting a task does not stop its download.  DELETE /task/id
    on a known task removes the record only: GET /task/id and a second
    DELETE answer 404, the other tasks and the counter are as before (a
    download of the task keeps its slot).  Every update the running
    download still makes is dropped, so the task never comes back; but
    when the download returns, its file is registered all the same and
    GET /download-file/id serves it. *)
Theorem delete_task_drops_updates (float_of_string : string -> option float)
    (disk : string -> option Z) (tm : TaskManager) (fm : FileManager)
    (c : clock) (task_id : string) (t : Task)
    (actions : list (datetime * sync_action)) :
  tasks tm !! task_id = Some t ->
  exists tm',
    delete_task tm task_id = (tm', Success "Task deleted successfully")
    /\ get_task_status tm' task_id = HTTPException 404 "Task not found"
    /\ delete_task tm' task_id = (tm', HTTPException 404 "Task not found")
    /\ active_downloads tm' = active_downloads tm
    /\ (forall other, other <> task_id ->
          get_task_status tm' other = get_task_status tm other)
    /\ (forall ending,
          (download_guarded float_of_string disk (tm', fm) c task_id actions
             ending).1.1 = tm')
    /\ (forall dir name size,
          slash_free name = true -> dir <> "" -> ends_with "/" dir = false ->
          disk (os_path_join dir name) = Some size ->
          exists fm' fm'' resp,
            (download_guarded float_of_string disk (tm', fm) c task_id actions
               (inr (os_path_join dir name))).1.2 = fm'
            /\ download_file fm' disk task_id = (fm'', [task_id], Success resp)
            /\ fr_path resp = os_path_join dir name
            /\ fr_filename resp = name).
Proof.
  intros Ht. unfold delete_task. rewrite Ht.
  set (tm' := with_tasks tm (delete task_id (tasks tm))).
  assert (Hgone : tasks tm' !! task_id = None) by apply lookup_delete_eq.
  exists tm'. split; [reflexivity|].
  split; [unfold get_task_status, get_task; rewrite Hgone; reflexivity|].
  split; [rewrite Hgone; reflexivity|].
  split; [reflexivity|].
  split.
  { intros other Hne. unfold get_task_status, get_task, tm'. simpl.
    rewrite lookup_delete_ne by congruence. reflexivity. }
  pose proof (running_changes_only float_of_string c task_id actions tm')
    as (_ & _ & Hsame & _).
  specialize (Hsame Hgone).
  split.
  - intros ending. unfold download_guarded. rewrite Hsame.
    destruct ending; simpl; unfold update_task; rewrite Hgone; reflexivity.
  - intros dir name size Hname Hne Hend Hdisk.
    unfold download_guarded. simpl.
    eexists _, _, _. split; [reflexivity|].
    unfold download_file, get_file_info, register_file. simpl.
    rewrite lookup_insert_eq. simpl. rewrite Hdisk.
    split; [reflexivity|]. split; [reflexivity|]. simpl.
    apply basename_join, Hname.
Qed.

Lemma delete_task_drops_updates_witness :
  exists tm',
    delete_task sample_tasks "b" = (tm', Success "Task deleted successfully")
    /\ get_task_status tm' "b" = HTTPException 404 "Task not found".
Proof.
  destruct (delete_task_drops_updates (fun _ => None) sample_disk sample_tasks
              FileManager_init sample_clock "b"
              (sample_task "b" PROCESSING 0) [] eq_refl)
    as (tm' & Hdel & Hget & _).
  exists tm'. split; assumption.
Defined.


(** ** The retry loop *)

Lemma retry_notes_app a b : retry_notes (a ++ b) = retry_notes a ++ retry_notes b.
Proof. apply bind_app. Qed.

Lemma hook_events_app a b : hook_events (a ++ b) = hook_events a ++ hook_events b.
Proof. apply bind_app. Qed.

Lemma retry_notes_hooks events :
  retry_notes (map (fun ev : datetime * progress_event => (ev.1, Hook ev.2)) events) = [].
Proof. induction events as [|ev events IH]; [reflexivity|exact IH]. Qed.

Lemma hook_events_hooks events :
  hook_events (map (fun ev : datetime * progress_event => (ev.1, Hook ev.2)) events)
  = events.
Proof.
  induction events as [|[now d] events IH]; [reflexivity|].
  change ((now, d) :: hook_events
            (map (fun ev : datetime * progress_event => (ev.1, Hook ev.2)) events)
          = (now, d) :: events).
  rewrite IH. reflexivity.
Qed.

Lemma retry_notes_cons now attempt actions :
  retry_notes ((now, Retrying attempt) :: actions) = attempt :: retry_notes actions.
Proof. reflexivity. Qed.

Lemma hook_events_cons_retry now attempt actions :
  hook_events ((now, Retrying attempt) :: actions) = hook_events actions.
Proof. reflexivity. Qed.

#[local] Arguments retry_notes : simpl never.
#[local] Arguments hook_events : simpl never.

Ltac retry_simpl :=
  repeat first
    [ rewrite retry_notes_app | rewrite hook_events_app
    | rewrite retry_notes_cons | rewrite hook_events_cons_retry
    | rewrite retry_notes_hooks | rewrite hook_events_hooks ];
  rewrite ?app_nil_r; simpl.

Ltac notes_ok :=
  repeat (apply List.Forall_cons;
          [first [left; reflexivity | right; reflexivity]|]);
  apply List.Forall_nil.

(** X24: the retry loop.  The tool is run at most three times: the loop
    ends at the first attempt that returns, and when all three attempts
    raise it raises the exception of the third.  After each of the first
    two failures, and only then, it notes the next attempt in the task
    ("Attempt 2/3", "Attempt 3/3") and sleeps 10 seconds, so it sleeps
    20 seconds at most; the progress events of every attempt made reach
    the hook, in order. *)
Theorem download_with_retries_bounded (ydl_download : Z -> attempt_run) :
  exists failed : nat,
    (failed <= 2)%nat
    /\ (forall i, (i < failed)%nat -> a_raises (ydl_download (Z.of_nat i)) <> None)
    /\ retry_notes (download_with_retries ydl_download).1.1
       = Z.of_nat <$> List.seq 0%nat failed
    /\ Forall (fun attempt =>
                 retry_message attempt 3 = "Retrying download... (Attempt 2/3)"
                 \/ retry_message attempt 3 = "Retrying download... (Attempt 3/3)")
         (retry_notes (download_with_retries ydl_download).1.1)
    /\ (download_with_retries ydl_download).1.2 = 10 * Z.of_nat failed
    /\ hook_events (download_with_retries ydl_download).1.1
       = List.seq 0%nat (S failed)
           ≫= (fun i => a_events (ydl_download (Z.of_nat i)))
    /\ ((a_raises (ydl_download (Z.of_nat failed)) = None
         /\ (download_with_retries ydl_download).2 = None)
        \/ (failed = 2%nat
            /\ exists e now,
                 a_raises (ydl_download 2) = Some (e, now)
                 /\ (download_with_retries ydl_download).2 = Some e)).
Proof.
  unfold download_with_retries. simpl download_attempts.
  change (0 + 1 + 1) with 2. change (0 + 1) with 1.
  destruct (a_raises (ydl_download 0)) as [[e0 now0]|] eqn:E0.
  - destruct (a_raises (ydl_download 1)) as [[e1 now1]|] eqn:E1.
    + destruct (a_raises (ydl_download 2)) as [[e2 now2]|] eqn:E2.
      * exists 2%nat. simpl. retry_simpl.
        split; [lia|]. split.
        { intros i Hi.
          destruct i as [|[|i]];
            [change (Z.of_nat 0) with 0|change (Z.of_nat 1) with 1|lia];
            congruence. }
        split; [reflexivity|]. split; [notes_ok|].
        split; [reflexivity|]. split; [reflexivity|].
        right. split; [reflexivity|]. exists e2, now2. split; [first [reflexivity|exact E2]|reflexivity].
      * exists 2%nat. simpl. retry_simpl.
        split; [lia|]. split.
        { intros i Hi.
          destruct i as [|[|i]];
            [change (Z.of_nat 0) with 0|change (Z.of_nat 1) with 1|lia];
            congruence. }
        split; [reflexivity|]. split; [notes_ok|].
        split; [reflexivity|]. split; [reflexivity|].
        left. split; [first [reflexivity|exact E2]|reflexivity].
    + exists 1%nat. simpl. retry_simpl.
      split; [lia|]. split.
      { intros i Hi. destruct i as [|i]; [|lia].
        change (Z.of_nat 0) with 0. congruence. }
      split; [reflexivity|]. split; [notes_ok|].
      split; [reflexivity|]. split; [reflexivity|].
      left. split; [first [reflexivity|exact E1]|reflexivity].
  - exists 0%nat. simpl. retry_simpl.
    split; [lia|]. split; [intros i Hi; lia|].
    split; [reflexivity|]. split; [notes_ok|].
    split; [reflexivity|]. split; [reflexivity|].
    left. split; [first [reflexivity|exact E0]|reflexivity].
Qed.

Lemma download_with_retries_bounded_witness :
  exists failed : nat,
    (failed <= 2)%nat
    /\ (download_with_retries sample_download).1.2 = 10 * Z.of_nat failed
    /\ (download_with_retries sample_download).2 = None.
Proof.
  destruct (download_with_retries_bounded sample_download)
    as (failed & Hle & _ & _ & _ & Hslept & _ & _).
  exists failed. split; [exact Hle|]. split; [exact Hslept|reflexivity].
Defined.

(** ** From the menu to the download *)

Lemma build_formats_entries duration is_long b1 b2 b3 formats :
  build_formats duration is_long b1 b2 b3 = inr formats ->
  Forall (fun e => exists size,
            e = entry_1080 is_long size \/ e = entry_720 is_long b1 size
            \/ e = entry_480 size
            \/ (exists recommended, e = entry_best recommended size)
            \/ e = entry_audio size) formats.
Proof.
  unfold build_formats. intros H.
  destruct (_estimate_file_size (Some duration) 1080) as [s1|];
    destruct (_estimate_file_size (Some duration) 720) as [s2|];
    destruct (_estimate_file_size (Some duration) 480) as [s3|];
    destruct (_estimate_audio_size (Some duration)) as [s4|];
    destruct b1, b2, b3; run_attempt; simpl in H;
    try discriminate H; injection H as <-;
    repeat (apply List.Forall_cons; [eexists; eauto 10|]); apply List.Forall_nil.
Qed.

Lemma menu_entries info v e :
  video_info_of info = inr v -> e ∈ v_formats v ->
  exists is_long b1 size,
    e = entry_1080 is_long size \/ e = entry_720 is_long b1 size
    \/ e = entry_480 size
    \/ (exists recommended, e = entry_best recommended size)
    \/ e = entry_audio size.
Proof.
  unfold video_info_of. intros H Hin.
  destruct (get_or (i_duration info) 0) as [duration|]; [|discriminate H].
  destruct (any_height_ge 1080 (i_formats info)) as [b1|]; [|discriminate H].
  destruct (any_height_ge 720 (i_formats info)) as [b2|]; [|discriminate H].
  destruct (any_height_ge 480 (i_formats info)) as [b3|]; [|discriminate H].
  run_attempt.
  destruct (build_formats duration (3600 <? duration) b1 b2 b3)
    as [|formats] eqn:Eb; [discriminate H|].
  injection H as <-. simpl in Hin.
  apply build_formats_entries in Eb.
  rewrite Forall_forall in Eb. destruct (Eb e Hin) as [size Hs].
  exists (3600 <? duration), b1, size. exact Hs.
Qed.

Lemma ends_with_app (stem suffix : string) : ends_with suffix (stem +:+ suffix) = true.
Proof. unfold ends_with. rewrite rev_app_s. apply prefix_app_s. Qed.

Lemma get_unique_filename_returns (paths : gset string) (base title ext : string) :
  exists stem,
    forall fuel, (size paths < fuel)%nat ->
      get_unique_filename fuel paths base title ext = Some (stem +:+ "." +:+ ext).
Proof.
  destruct (decide (os_path_join base (sanitize_title title +:+ "." +:+ ext)
                    ∈ paths)) as [Hin|Hout].
  - destruct (first_free_counter paths base title ext (S (size paths)))
      as [Hall|(c0 & Hc0 & Hfree & Hbelow)].
    { apply numbered_pigeonhole in Hall. lia. }
    exists (sanitize_title title +:+ "_" +:+ pretty c0).
    intros fuel Hfuel. unfold get_unique_filename.
    rewrite bool_decide_eq_true_2 by exact Hin. simpl.
    rewrite !app_assoc_s.
    apply next_free_finds; [exact Hfree|lia|lia|].
    intros c' Hc'. apply Hbelow. lia.
  - exists (sanitize_title title).
    intros fuel _. unfold get_unique_filename.
    rewrite bool_decide_eq_false_2 by exact Hout. reflexivity.
Qed.

Lemma content_type_mp3 stem : content_type_of (stem +:+ ".mp3") = "audio/mpeg".
Proof. unfold content_type_of. rewrite ends_with_app. reflexivity. Qed.

Lemma content_type_mp4 stem : content_type_of (stem +:+ ".mp4") = "video/mp4".
Proof.
  unfold content_type_of, ends_with. rewrite rev_app_s.
  change (String.rev ".mp4") with "4pm.".
  change (String.rev ".mp3") with "3pm.".
  change (String.rev ".webm") with "mbew.".
  rewrite !app_cons_s, !prefix_cons_s. reflexivity.
Qed.

Lemma plan_video temp_dir quality format_id unique_id title duration :
  is_audio_request quality format_id = false ->
  exists plan,
    plan_download temp_dir quality format_id unique_id (Some (Some title))
      (IsInt duration) = Ok plan
    /\ p_title plan = title /\ p_ext plan = "mp4"
    /\ o_format (p_ydl_opts plan) = selected_format format_id
    /\ o_outtmpl (p_ydl_opts plan)
       = os_path_join temp_dir ("video_" +:+ unique_id +:+ ".%(ext)s")
    /\ o_postprocessors (p_ydl_opts plan)
       = [mkPostprocessor "FFmpegVideoConvertor" [("preferedformat", "mp4")]]
    /\ (o_socket_timeout (p_ydl_opts plan), o_http_chunk_size (p_ydl_opts plan),
        o_fragment_retries (p_ydl_opts plan), o_retries (p_ydl_opts plan),
        o_concurrent_fragment_downloads (p_ydl_opts plan))
       = if 7200 <? duration then (600, 52428800, 30, 20, 2)
         else if 3600 <? duration then (450, 31457280, 25, 18, 4)
         else (300, 20971520, 20, 15, 4).
Proof.
  intros Hv. unfold plan_download. rewrite Hv. simpl.
  assert (Hpp : ends_with ".mp4" ("video_" +:+ unique_id +:+ ".%(ext)s") = false).
  { unfold ends_with. rewrite !rev_app_s.
    change (String.rev ".%(ext)s") with "s)txe(%.".
    change (String.rev ".mp4") with "4pm.".
    rewrite !app_cons_s, prefix_cons_s. reflexivity. }
  rewrite Hpp. simpl.
  destruct (7200 <? duration); [eexists; repeat split|].
  destruct (3600 <? duration); eexists; repeat split.
Qed.

(** X25: what the menu offers is what the download does.  For every
    entry of a menu the extraction returns, a request with the format id
    and the quality label of the entry is planned as an audio download
    exactly when the entry is the audio entry; the extension of the final
    file is the one the entry shows; for an entry of a given height the
    selector handed to the tool starts with the best video of at most
    that height; the video branch always converts to mp4 (the test on the
    template name never holds); and the final file name is found for any
    directory content and is served by GET /download-file as audio/mpeg
    for the audio entry and as video/mp4 for the others. *)
Theorem menu_choice_is_downloaded (info : tool_info) (v : video_info)
    (e : format_entry) :
  video_info_of info = inr v -> e ∈ v_formats v ->
  forall (temp_dir unique_id title : string) (duration : Z),
  exists plan,
    plan_download temp_dir (e_quality e) (e_format_id e) unique_id
      (Some (Some title)) (IsInt duration) = Ok plan
    /\ p_ext plan = e_ext e
    /\ (o_format (p_ydl_opts plan) = "bestaudio/best"
        <-> e_format_id e = "bestaudio")
    /\ (e_format_id e <> "best" -> e_format_id e <> "bestaudio" ->
        String.prefix ("bestvideo[height<=" +:+ pretty (e_height e) +:+ "]")
          (o_format (p_ydl_opts plan)) = true)
    /\ o_postprocessors (p_ydl_opts plan) <> []
    /\ (forall paths : gset string,
          exists name,
            (forall fuel, (size paths < fuel)%nat ->
               final_filename fuel paths temp_dir plan = Some name)
            /\ content_type_of name
               = if String.eqb (e_ext e) "mp3" then "audio/mpeg" else "video/mp4").
Proof.
  intros Hv Hin temp_dir unique_id title duration.
  destruct (menu_entries info v e Hv Hin) as (is_long & b1 & est & He).
  assert (Hvideo : forall quality format_id,
            is_audio_request quality format_id = false ->
            format_id <> "bestaudio" ->
            exists plan,
              plan_download temp_dir quality format_id unique_id
                (Some (Some title)) (IsInt duration) = Ok plan
              /\ p_ext plan = "mp4"
              /\ (o_format (p_ydl_opts plan) = "bestaudio/best"
                  <-> format_id = "bestaudio")
              /\ o_format (p_ydl_opts plan) = selected_format format_id
              /\ o_postprocessors (p_ydl_opts plan) <> []
              /\ (forall paths : gset string,
                    exists name,
                      (forall fuel, (size paths < fuel)%nat ->
                         final_filename fuel paths temp_dir plan = Some name)
                      /\ content_type_of name = "video/mp4")).
  { intros quality format_id Hq Hid.
    destruct (plan_video temp_dir quality format_id unique_id title duration Hq)
      as (plan & Hplan & Htitle & Hext & Hfmt & _ & Hpp & _).
    exists plan. split; [exact Hplan|]. split; [exact Hext|].
    split.
    { rewrite Hfmt. split; [|contradiction].
      unfold selected_format.
      destruct (String.eqb format_id "best[height>=1080]"); [discriminate|].
      destruct (String.eqb format_id "best[height>=720]"); [discriminate|].
      destruct (String.eqb format_id "best[height>=480]"); discriminate. }
    split; [exact Hfmt|]. split; [rewrite Hpp; discriminate|].
    intros paths. unfold final_filename. rewrite Hext.
    destruct (get_unique_filename_returns paths temp_dir (p_title plan) "mp4")
      as [stem Hstem].
    exists (stem +:+ "." +:+ "mp4"). split; [exact Hstem|].
    apply content_type_mp4. }
  destruct He as [->|[->|[->|[[recommended ->]| ->]]]].
  - destruct (Hvideo (e_quality (entry_1080 is_long est)) "best[height>=1080]")
      as (plan & Hplan & Hext & Hiff & Hfmt & Hpp & Hname);
      [destruct is_long; reflexivity|discriminate|].
    exists plan. repeat split; try assumption; try apply Hiff.
    intros _ _. rewrite Hfmt. reflexivity.
  - destruct (Hvideo (e_quality (entry_720 is_long b1 est)) "best[height>=720]")
      as (plan & Hplan & Hext & Hiff & Hfmt & Hpp & Hname);
      [destruct is_long; reflexivity|discriminate|].
    exists plan. repeat split; try assumption; try apply Hiff.
    intros _ _. rewrite Hfmt. reflexivity.
  - destruct (Hvideo (e_quality (entry_480 est)) "best[height>=480]")
      as (plan & Hplan & Hext & Hiff & Hfmt & Hpp & Hname);
      [reflexivity|discriminate|].
    exists plan. repeat split; try assumption; try apply Hiff.
    intros _ _. rewrite Hfmt. reflexivity.
  - destruct (Hvideo (e_quality (entry_best recommended est)) "best")
      as (plan & Hplan & Hext & Hiff & Hfmt & Hpp & Hname);
      [reflexivity|discriminate|].
    exists plan. repeat split; try assumption; try apply Hiff.
    intros Hne. contradiction Hne. reflexivity.
  - eexists. split; [reflexivity|]. simpl.
    split; [reflexivity|]. split; [split; reflexivity|].
    split; [intros _ Hne; contradiction Hne; reflexivity|].
    split; [discriminate|].
    intros paths. unfold final_filename. simpl.
    destruct (get_unique_filename_returns paths temp_dir (title +:+ "_audio") "mp3")
      as [stem Hstem].
    exists (stem +:+ "." +:+ "mp3"). split; [exact Hstem|].
    apply content_type_mp3.
Qed.

Lemma menu_choice_is_downloaded_witness :
  exists plan,
    plan_download "/tmp/x" (e_quality (entry_audio "~216 MB")) "bestaudio" "1a2b3c4d"
      (Some (Some "A talk")) (IsInt 5400) = Ok plan
    /\ p_ext plan = "mp3".
Proof.
  destruct (video_info_of sample_info) as [|v] eqn:Hv; [discriminate Hv|].
  destruct (menu_choice_is_downloaded sample_info v (entry_audio "~216 MB") Hv)
    with (temp_dir := "/tmp/x") (unique_id := "1a2b3c4d") (title := "A talk")
         (duration := 5400)
    as (plan & Hplan & Hext & _).
  - vm_compute in Hv. injection Hv as <-. simpl. do 3 right. left.
  - exists plan. split; [exact Hplan|exact Hext].
Defined.

(** X26: the transfer settings of a video download follow the duration,
    in three tiers.  Up to one hour (3600 seconds) they are a socket
    timeout of 300 seconds, chunks of 20 MB, 20 fragment retries, 15
    retries and 4 concurrent fragment downloads; above one hour and up to
    two (7200 seconds) 450 seconds, 30 MB, 25 and 18, still 4 concurrent;
    above two hours 600 seconds, 50 MB, 30 and 20, and 2 concurrent.  The
    tier above one hour is entered exactly when the menu flags the video
    as long; from a shorter to a longer video the timeout, the chunk size
    and both retry counts never decrease and the concurrent downloads
    never increase, the selector, title and extension being the same; an
    absent duration counts as 0, and a duration that is [None] makes the
    plan raise a TypeError. *)
Theorem transfer_settings_follow_duration
    (temp_dir quality format_id unique_id title : string) :
  is_audio_request quality format_id = false ->
  (forall d,
     exists p,
       plan_download temp_dir quality format_id unique_id (Some (Some title))
         (IsInt d) = Ok p
       /\ (d <= 3600 ->
           transfer_settings (p_ydl_opts p) = (300, 20971520, 20, 15, 4))
       /\ (3600 < d <= 7200 ->
           transfer_settings (p_ydl_opts p) = (450, 31457280, 25, 18, 4))
       /\ (7200 < d ->
           transfer_settings (p_ydl_opts p) = (600, 52428800, 30, 20, 2)))
  /\ (forall d1 d2, d1 <= d2 ->
     exists p1 p2,
       plan_download temp_dir quality format_id unique_id (Some (Some title))
         (IsInt d1) = Ok p1
       /\ plan_download temp_dir quality format_id unique_id (Some (Some title))
            (IsInt d2) = Ok p2
       /\ o_socket_timeout (p_ydl_opts p1) <= o_socket_timeout (p_ydl_opts p2)
       /\ o_http_chunk_size (p_ydl_opts p1) <= o_http_chunk_size (p_ydl_opts p2)
       /\ o_fragment_retries (p_ydl_opts p1) <= o_fragment_retries (p_ydl_opts p2)
       /\ o_retries (p_ydl_opts p1) <= o_retries (p_ydl_opts p2)
       /\ o_concurrent_fragment_downloads (p_ydl_opts p2)
          <= o_concurrent_fragment_downloads (p_ydl_opts p1)
       /\ 300 <= o_socket_timeout (p_ydl_opts p1) <= 600
       /\ ((3600 <? d1) = true <-> 300 < o_socket_timeout (p_ydl_opts p1))
       /\ o_format (p_ydl_opts p1) = o_format (p_ydl_opts p2)
       /\ (p_title p1, p_ext p1) = (p_title p2, p_ext p2))
  /\ plan_download temp_dir quality format_id unique_id (Some (Some title)) NoKey
     = plan_download temp_dir quality format_id unique_id (Some (Some title))
         (IsInt 0)
  /\ plan_download temp_dir quality format_id unique_id (Some (Some title)) IsNone
     = Raise TypeError.
Proof.
  intros Hv. split; [|split; [|split]].
  - intros d.
    destruct (plan_video temp_dir quality format_id unique_id title d Hv)
      as (p & Hp & _ & _ & _ & _ & _ & Hs).
    exists p. split; [exact Hp|]. unfold transfer_settings. rewrite Hs.
    destruct (Z.ltb_spec 7200 d), (Z.ltb_spec 3600 d);
      repeat split; intros; try lia; reflexivity.
  - intros d1 d2 Hle.
    destruct (plan_video temp_dir quality format_id unique_id title d1 Hv)
      as (p1 & Hp1 & Ht1 & He1 & Hf1 & _ & _ & Hs1).
    destruct (plan_video temp_dir quality format_id unique_id title d2 Hv)
      as (p2 & Hp2 & Ht2 & He2 & Hf2 & _ & _ & Hs2).
    exists p1, p2. split; [exact Hp1|]. split; [exact Hp2|].
    destruct (Z.ltb_spec 7200 d1), (Z.ltb_spec 3600 d1),
      (Z.ltb_spec 7200 d2), (Z.ltb_spec 3600 d2); try lia;
      injection Hs1 as -> -> -> -> ->; injection Hs2 as -> -> -> -> ->;
      rewrite Hf1, Hf2, Ht1, Ht2, He1, He2;
      repeat split; try lia; try reflexivity; intros; lia.
  - reflexivity.
  - unfold plan_download. rewrite Hv. reflexivity.
Qed.

Lemma transfer_settings_follow_duration_witness :
  exists p,
    plan_download "/tmp/x" "Full HD" "best[height>=720]" "1a2b3c4d"
      (Some (Some "A talk")) (IsInt 9000) = Ok p
    /\ transfer_settings (p_ydl_opts p) = (600, 52428800, 30, 20, 2).
Proof.
  destruct (proj1 (transfer_settings_follow_duration "/tmp/x" "Full HD"
                     "best[height>=720]" "1a2b3c4d" "A talk" eq_refl) 9000)
    as (p & Hp & _ & _ & Hlong).
  exists p. split; [exact Hp|]. apply Hlong. lia.
Defined.


(** ** What the validation of a URL looks at *)

Lemma drop_prefix_suffix (p t : string) : forall s s',
  drop_prefix p s = Some s' -> drop_prefix p (s +:+ t) = Some (s' +:+ t).
Proof.
  induction p as [|a p IH]; intros s s' H.
  - destruct s; simpl in H |- *; injection H as <-; destruct (_ +:+ t); reflexivity.
  - destruct s as [|b s]; [discriminate H|].
    rewrite app_cons_s. simpl in H |- *.
    destruct (Ascii.eqb a b); [|discriminate H]. apply IH, H.
Qed.

Lemma star_class_here cls k s : k s = true -> star_class cls s k = true.
Proof. intros H. destruct s; simpl; rewrite H; [reflexivity|apply orb_true_r]. Qed.

Lemma star_class_suffix cls (t : string) k k' :
  (forall s', k s' = true -> k' (s' +:+ t) = true) ->
  forall s, star_class cls s k = true -> star_class cls (s +:+ t) k' = true.
Proof.
  intros Hk. induction s as [|c s IH]; intros H.
  - rewrite app_nil_l_s. apply star_class_here.
    rewrite <- (app_nil_l_s t). apply Hk. exact H.
  - rewrite app_cons_s. simpl in H |- *.
    apply orb_true_iff in H as [H|H].
    + apply andb_true_iff in H as [Hc Hs]. rewrite Hc, (IH Hs). reflexivity.
    + rewrite <- app_cons_s, (Hk _ H). apply orb_true_r.
Qed.

Lemma matches_suffix (t : string) (r : regex) : forall s k k',
  (forall s', k s' = true -> k' (s' +:+ t) = true) ->
  matches r s k = true -> matches r (s +:+ t) k' = true.
Proof.
  induction r as [p|r IH|r1 IH1 r2 IH2|cls]; intros s k k' Hk H; simpl in H |- *.
  - destruct (drop_prefix p s) as [s'|] eqn:E; [|discriminate H].
    rewrite (drop_prefix_suffix _ _ _ _ E). apply Hk, H.
  - apply orb_true_iff in H as [H|H].
    + rewrite (IH _ _ _ Hk H). reflexivity.
    + rewrite (Hk _ H). apply orb_true_r.
  - apply (IH1 s (fun s' => matches r2 s' k)); [|exact H].
    intros s' Hs'. apply (IH2 s' k); assumption.
  - destruct s as [|c s]; [discriminate H|].
    rewrite app_cons_s. apply andb_true_iff in H as [Hc Hs].
    rewrite Hc. simpl. apply (star_class_suffix cls t k); assumption.
Qed.

(** X27: the validation of a URL looks at its head only.  Whatever is
    appended to a URL that [is_valid_youtube_url] accepts is accepted
    too, further parameters as well as any other text. *)
Theorem valid_url_any_suffix (url suffix : string) :
  is_valid_youtube_url url = true ->
  is_valid_youtube_url (url +:+ suffix) = true.
Proof.
  unfold is_valid_youtube_url. rewrite !existsb_exists.
  intros (pattern & Hin & Hm). exists pattern. split; [exact Hin|].
  unfold re_match in *.
  apply (matches_suffix suffix pattern url (fun _ => true)); [reflexivity|exact Hm].
Qed.

Lemma valid_url_any_suffix_witness :
  is_valid_youtube_url ("https://youtu.be/a" +:+ " and any other text") = true.
Proof. apply valid_url_any_suffix. vm_compute. reflexivity. Defined.

(** ** Counting tasks *)

Lemma count_status_cons status t tasks :
  count_status status (t :: tasks)
  = (if decide (t_status t = status) then 1 else 0) + count_status status tasks.
Proof.
  unfold count_status. destruct (decide (t_status t = status)) as [E|E].
  - rewrite filter_cons_True by exact E. simpl length. lia.
  - rewrite filter_cons_False by exact E. lia.
Qed.

Lemma count_status_partition tasks :
  count_status PENDING tasks + count_status PROCESSING tasks
  + count_status COMPLETED tasks + count_status FAILED tasks
  + count_status PAUSED tasks
  = Z.of_nat (length tasks).
Proof.
  induction tasks as [|t tasks IH]; [reflexivity|].
  rewrite !count_status_cons. simpl length. rewrite Nat2Z.inj_succ, <- IH.
  destruct (t_status t);
    repeat match goal with |- context [decide ?P] => destruct (decide P) end;
    try congruence; lia.
Qed.

Lemma count_status_nonneg status tasks : 0 <= count_status status tasks.
Proof. unfold count_status. lia. Qed.

(** X28: the counters of GET /stats.  The number of tasks reported is
    the size of the registry; the counts of pending, processing,
    completed and failed tasks are never negative and add up to that
    number less the number of paused tasks, so they add up to the total
    exactly when no task is paused; and GET /health reports as active
    tasks the processing tasks of GET /stats, with the same totals. *)
Theorem stats_add_up (tm : TaskManager) (fm : FileManager) :
  st_total_tasks (get_stats tm fm) = Z.of_nat (size (tasks tm))
  /\ st_pending_tasks (get_stats tm fm) + st_processing_tasks (get_stats tm fm)
     + st_completed_tasks (get_stats tm fm) + st_failed_tasks (get_stats tm fm)
     = st_total_tasks (get_stats tm fm)
       - count_status PAUSED ((map_to_list (tasks tm)).*2)
  /\ (st_pending_tasks (get_stats tm fm) + st_processing_tasks (get_stats tm fm)
      + st_completed_tasks (get_stats tm fm) + st_failed_tasks (get_stats tm fm)
      = st_total_tasks (get_stats tm fm)
      <-> forall task_id t, tasks tm !! task_id = Some t -> t_status t <> PAUSED)
  /\ (0 <= st_pending_tasks (get_stats tm fm)
      /\ 0 <= st_processing_tasks (get_stats tm fm)
      /\ 0 <= st_completed_tasks (get_stats tm fm)
      /\ 0 <= st_failed_tasks (get_stats tm fm))
  /\ h_active_tasks (health_check tm fm) = st_processing_tasks (get_stats tm fm)
  /\ h_total_tasks (health_check tm fm) = st_total_tasks (get_stats tm fm)
  /\ h_temp_files (health_check tm fm) = st_temp_files (get_stats tm fm).
Proof.
  unfold get_stats, health_check. simpl.
  pose proof (count_status_partition ((map_to_list (tasks tm)).*2)) as Hsum.
  split; [rewrite length_fmap, length_map_to_list; reflexivity|].
  split; [lia|]. split.
  { split.
    - intros Heq task_id t Ht Hp.
      assert (Hz : count_status PAUSED ((map_to_list (tasks tm)).*2) = 0) by lia.
      unfold count_status in Hz.
      assert (Hnil : filter (fun t => t_status t = PAUSED)
                       ((map_to_list (tasks tm)).*2) = []).
      { destruct (filter _ _); [reflexivity|simpl in Hz; lia]. }
      assert (Hin : t ∈ filter (fun t => t_status t = PAUSED)
                          ((map_to_list (tasks tm)).*2)).
      { apply list_elem_of_filter. split; [exact Hp|].
        apply list_elem_of_fmap. exists (task_id, t). split; [reflexivity|].
        apply elem_of_map_to_list, Ht. }
      rewrite Hnil in Hin. apply elem_of_nil in Hin. exact Hin.
    - intros Hnone.
      assert (Hz : count_status PAUSED ((map_to_list (tasks tm)).*2) = 0).
      { unfold count_status.
        destruct (filter _ _) as [|t l] eqn:E; [reflexivity|].
        exfalso.
        assert (Hin : t ∈ filter (fun t => t_status t = PAUSED)
                            ((map_to_list (tasks tm)).*2))
          by (rewrite E; left).
        apply list_elem_of_filter in Hin as [Hp Hin].
        apply list_elem_of_fmap in Hin as ([task_id t'] & -> & Hin).
        apply elem_of_map_to_list in Hin. exact (Hnone task_id t' Hin Hp). }
      lia. }
  split; [repeat split; apply count_status_nonneg|].
  split; [reflexivity|].
  split; [rewrite length_fmap, length_map_to_list; reflexivity|reflexivity].
Qed.


(** ** Where the downloaded file lies *)

Lemma pretty_N_char_slash_free x : Ascii.eqb (pretty_N_char x) "/" = false.
Proof.
  unfold pretty_N_char.
  repeat match goal with |- context [match ?y with _ => _ end] => destruct y end;
    reflexivity.
Qed.

Lemma pretty_N_go_slash_free x : forall s,
  slash_free s = true -> slash_free (pretty_N_go x s) = true.
Proof.
  induction (N.lt_wf_0 x) as [x _ IH]. intros s Hs.
  destruct (N.eq_dec x 0%N) as [->|Hne]; [rewrite pretty_N_go_0; exact Hs|].
  rewrite pretty_N_go_step by lia.
  apply IH; [apply N.div_lt; lia|].
  simpl. rewrite pretty_N_char_slash_free, Hs. reflexivity.
Qed.

Lemma pretty_Z_slash_free (z : Z) : slash_free (pretty z) = true.
Proof.
  assert (HN : forall n : N, slash_free (pretty n) = true).
  { intros n. unfold pretty, pretty_N.
    destruct (decide (n = 0%N)); [reflexivity|].
    apply pretty_N_go_slash_free. reflexivity. }
  destruct z as [|p|p]; [reflexivity|apply HN|].
  unfold pretty, pretty_Z. rewrite slash_free_app.
  apply andb_true_iff. split; [reflexivity|apply HN].
Qed.

Lemma get_unique_filename_stem (paths : gset string) (base title ext : string) :
  exists stem,
    slash_free stem = true
    /\ (os_path_join base (stem +:+ "." +:+ ext) ∉ paths)
    /\ forall fuel, (size paths < fuel)%nat ->
         get_unique_filename fuel paths base title ext = Some (stem +:+ "." +:+ ext).
Proof.
  pose proof (all_safe_slash_free _ (sanitize_all_safe title)) as Hsafe.
  destruct (decide (os_path_join base (sanitize_title title +:+ "." +:+ ext)
                    ∈ paths)) as [Hin|Hout].
  - destruct (first_free_counter paths base title ext (S (size paths)))
      as [Hall|(c0 & Hc0 & Hfree & Hbelow)].
    { apply numbered_pigeonhole in Hall. lia. }
    exists (sanitize_title title +:+ "_" +:+ pretty c0).
    split; [|split].
    + rewrite !slash_free_app, Hsafe, pretty_Z_slash_free. reflexivity.
    + rewrite !app_assoc_s. exact Hfree.
    + intros fuel Hfuel. unfold get_unique_filename.
      rewrite bool_decide_eq_true_2 by exact Hin. simpl.
      rewrite !app_assoc_s.
      apply next_free_finds; [exact Hfree|lia|lia|].
      intros c' Hc'. apply Hbelow. lia.
  - exists (sanitize_title title).
    split; [exact Hsafe|]. split; [exact Hout|].
    intros fuel _. unfold get_unique_filename.
    rewrite bool_decide_eq_false_2 by exact Hout. reflexivity.
Qed.

(** X29: the file of a download lies directly in its temporary
    directory.  Whatever the title and whatever exists already, the name
    [get_unique_filename] returns for an extension without a slash has no
    slash and ends with a dot and the extension; so for a directory name
    that is not empty and does not end with a slash, as a temporary
    directory is, the path made of the directory and that name has the
    directory as its [dirname] and the name as its [basename], and the
    file registered for it records exactly that directory to be removed
    later. *)
Theorem download_file_in_temp_dir (paths : gset string)
    (dir title ext : string) :
  slash_free ext = true -> dir <> "" -> ends_with "/" dir = false ->
  exists name,
    (forall fuel, (size paths < fuel)%nat ->
       get_unique_filename fuel paths dir title ext = Some name)
    /\ slash_free name = true
    /\ ends_with ("." +:+ ext) name = true
    /\ (os_path_join dir name ∉ paths)
    /\ dirname (os_path_join dir name) = dir
    /\ basename (os_path_join dir name) = name
    /\ (forall fm disk now task_id,
          exists r,
            get_file_info
              (register_file fm disk now task_id (os_path_join dir name)
                 (dirname (os_path_join dir name))) task_id = Some r
            /\ temp_dir r = dir /\ filename r = name).
Proof.
  intros Hext Hne Hend.
  destruct (get_unique_filename_stem paths dir title ext)
    as (stem & Hstem & Hfree & Hfuel).
  assert (Hname : slash_free (stem +:+ "." +:+ ext) = true).
  { rewrite !slash_free_app, Hstem, Hext. reflexivity. }
  exists (stem +:+ "." +:+ ext).
  split; [exact Hfuel|]. split; [exact Hname|].
  split; [apply ends_with_app|]. split; [exact Hfree|].
  split; [apply dirname_join; assumption|].
  split; [apply basename_join, Hname|].
  intros fm disk now task_id. eexists. split; [apply lookup_insert_eq|].
  simpl. split; [apply dirname_join; assumption|apply basename_join, Hname].
Qed.

Lemma download_file_in_temp_dir_witness :
  exists name,
    (forall fuel, (size sample_paths < fuel)%nat ->
       get_unique_filename fuel sample_paths "/tmp/x" "a/b" "mp4" = Some name)
    /\ slash_free name = true
    /\ dirname (os_path_join "/tmp/x" name) = "/tmp/x".
Proof.
  destruct (download_file_in_temp_dir sample_paths "/tmp/x" "a/b" "mp4" eq_refl)
    as (name & Hfuel & Hfree & _ & _ & Hdir & _).
  - intros H. discriminate H.
  - reflexivity.
  - exists name. repeat split; assumption.
Defined.
